(** * manhattan-arcades: the Express server of [server.js]

    A shallow embedding of the API server: JavaScript values and their
    truthiness, the three tables the SQL statements read and write, the
    statements themselves, the route handlers in a state-and-exception
    monad, and the ordered table of routes that Express walks. *)

From Stdlib Require Import ZArith Lia.
From stdpp Require Import base option list strings pretty gmap.

Local Open Scope Z_scope.

(** ** JavaScript values *)

(** The values a parsed JSON body can hold, plus [undefined] for a property
    that is not there. Numbers are the whole numbers; arrays and nested
    objects are not modelled. *)
Inductive jsval :=
| JUndefined
| JNull
| JBool (b : bool)
| JNum (n : Z)
| JStr (s : string).

#[global] Instance jsval_eq_dec : EqDecision jsval.
Proof. solve_decision. Defined.

(** ToBoolean: [undefined], [null], [false], [0] and the empty string are
    falsy. *)
Definition truthy (v : jsval) : bool :=
  match v with
  | JUndefined | JNull => false
  | JBool b => b
  | JNum n => negb (n =? 0)
  | JStr s => negb (String.eqb s EmptyString)
  end.

(** The operator [!v]. *)
Definition js_not (v : jsval) : bool := negb (truthy v).

(** [const { k } = req.body]: reading a property of the parsed body. *)
Definition prop (o : gmap string jsval) (k : string) : jsval :=
  default JUndefined (o !! k).

(** ** Tables *)

(** A cell holds the value the engine stored for it, as the driver hands
    it back: a string, a boolean or a number; SQL NULL is [JNull]. Ids are
    the integers the sequences hand out. The schema is not part of the
    repository's server code: the constraint checks are the engine's, see
    [raises] below, and so is the reading of a value bound to a column
    whose type is not the value's, see [bound]. *)
Record user_row := {
  u_id : Z;
  u_username : jsval;
  u_email : jsval;
  u_password : jsval
}.

Record arcade_row := {
  a_id : Z;
  a_name : jsval;
  a_address : jsval;
  a_days_open : jsval;
  a_hours_of_operation : jsval;
  a_serves_alcohol : jsval
}.

Record comment_row := {
  c_id : Z;
  c_user_id : Z;
  c_arcade_id : Z;
  c_comment : jsval;
  c_rating : jsval;
  c_created_at : Z
}.

#[global] Instance user_row_eq_dec : EqDecision user_row.
Proof. solve_decision. Defined.
#[global] Instance arcade_row_eq_dec : EqDecision arcade_row.
Proof. solve_decision. Defined.
#[global] Instance comment_row_eq_dec : EqDecision comment_row.
Proof. solve_decision. Defined.

(** The database: the rows of each table in insertion order, and the next
    value of each id sequence. *)
Record DB := {
  users : list user_row;
  arcades : list arcade_row;
  comments : list comment_row;
  users_seq : Z;
  arcades_seq : Z;
  comments_seq : Z
}.

(** A numeric value with its display scale: [dec_unscaled / 10 ^ dec_scale].
    [ROUND(x, 1)] has scale 1, the literal [0] has scale 0. *)
Record decimal := { dec_unscaled : Z; dec_scale : nat }.

(** Result rows of the statements that do not return plain table rows. *)
Record arcade_avg_row := { aa_arcade : arcade_row; average_rating : decimal }.

Record new_comment_row := {
  nc_id : Z;
  nc_comment : jsval;
  nc_rating : jsval;
  nc_created_at : Z;
  nc_username : jsval
}.

Record profile_row := { pr_comment : comment_row; arcade_name : jsval }.

(** ** Parameter binding *)

(** [prepareValue] of the driver, as far as NULL goes: [undefined] is
    sent as NULL, as [null] is. Every other value is sent as a text; what
    the engine reads in that text is in [bound]. *)
Definition prepareValue (v : jsval) : jsval :=
  match v with
  | JUndefined => JNull
  | _ => v
  end.

(** The columns that take a value from a request. *)
Inductive column :=
| Username | Email | Password
| Name | Address | DaysOpen | HoursOfOperation | ServesAlcohol
| CommentText | Rating.

Inductive sqltype := Text | Boolean | Numeric.

(** Modelled from the spec: the types of the columns, which the schema
    declares and [server.js] does not. Section 3: [serves_alcohol] is a
    boolean and [rating] is numeric; the other attributes are texts. *)
Definition column_type (c : column) : sqltype :=
  match c with
  | ServesAlcohol => Boolean
  | Rating => Numeric
  | _ => Text
  end.

(** A value that has the JSON type of a column type. *)
Definition of_type (ty : sqltype) (v : jsval) : bool :=
  match ty, v with
  | Text, JStr _ | Boolean, JBool _ | Numeric, JNum _ => true
  | _, _ => false
  end.

(** What a column holds once a value has been bound to it: NULL for
    [undefined] and [null]; the value itself when it has the type of the
    column; otherwise what the engine reads in the text the driver sent,
    [cast c v], which is the engine's to say (PostgreSQL reads the number
    123 as the text "123" and the text "yes" as the boolean [true]). *)
Definition bound (cast : column → jsval → jsval) (c : column) (v : jsval)
    : jsval :=
  match prepareValue v with
  | JNull => JNull
  | w => if of_type (column_type c) w then w else cast c w
  end.

(** SQL [=]: never true when one side is NULL. *)
Definition sql_eq (a b : jsval) : bool :=
  match a, b with
  | JNull, _ | _, JNull => false
  | _, _ => bool_decide (a = b)
  end.

Definition digit (a : Ascii.ascii) : option Z :=
  let n := Z.of_nat (Ascii.nat_of_ascii a) in
  if (48 <=? n) && (n <=? 57) then Some (n - 48) else None.

Fixpoint digits (s : string) (acc : Z) : option Z :=
  match s with
  | EmptyString => Some acc
  | String a s' =>
      match digit a with
      | Some d => digits s' (10 * acc + d)
      | None => None
      end
  end.

(** A route parameter bound against an integer id column: a plain decimal
    numeral is read as the id, anything else is not. The engine also
    reads a numeral with a sign or with blanks around it; the statements
    about a route with an id are for an id that [int_in] reads. *)
Definition int_in (s : string) : option Z :=
  match s with
  | EmptyString => None
  | _ => digits s 0
  end.

(** ** Aggregates of the arcade listing *)

(** The ratings [AVG] sees: NULLs are skipped; a cell that is not a number
    cannot be averaged. *)
Fixpoint numeric_cells (l : list jsval) : option (list Z) :=
  match l with
  | [] => Some []
  | JNull :: l' => numeric_cells l'
  | JNum n :: l' => cons n <$> numeric_cells l'
  | _ :: _ => None
  end.

Definition sum_Z (l : list Z) : Z := foldr Z.add 0 l.

(** [AVG]: NULL over no values, else the exact quotient sum / count, kept as
    the pair. *)
Definition sql_avg (l : list Z) : option (Z * Z) :=
  match l with
  | [] => None
  | _ => Some (sum_Z l, Z.of_nat (length l))
  end.

(** Tenths of [s / n] for [0 < n], ties away from zero. *)
Definition round_tenths (s n : Z) : Z :=
  if 0 <=? s then (20 * s + n) / (2 * n)
  else - ((20 * (- s) + n) / (2 * n)).

(** [ROUND(x, 1)]; NULL stays NULL. *)
Definition sql_round1 (x : option (Z * Z)) : option decimal :=
  match x with
  | Some (s, n) => Some {| dec_unscaled := round_tenths s n; dec_scale := 1 |}
  | None => None
  end.

(** [COALESCE(x, d)]. *)
Definition coalesce (x : option decimal) (d : decimal) : decimal := default d x.

Definition dec_zero : decimal := {| dec_unscaled := 0; dec_scale := 0 |}.

(** The rating cells of the comments joined to an arcade. *)
Definition ratings_of (id : Z) (cs : list comment_row) : list jsval :=
  c_rating <$> filter (λ c, c_arcade_id c = id) cs.

(** [COALESCE(ROUND(AVG(comments.rating), 1), 0)] over one group. *)
Definition average_of (cells : list jsval) : option decimal :=
  nums ← numeric_cells cells;
  Some (coalesce (sql_round1 (sql_avg nums)) dec_zero).

(** ** Session tokens *)

(** A signed token, kept as its claims and the key it was signed with: the
    signature checks against a secret exactly when that secret is the
    signing key. *)
Record token := {
  tk_userId : Z;
  tk_iat : Z;
  tk_exp : Z;
  tk_key : string
}.

#[global] Instance token_eq_dec : EqDecision token.
Proof. solve_decision. Defined.

(** [expiresIn: '1h'], in seconds. *)
Definition one_hour : Z := 3600.

(** The token that [jwt.sign({ userId }, secret, { expiresIn: '1h' })]
    makes at clock reading [now] (seconds): issued-at is [now], expiry
    one hour later. The call itself, which can throw, is [sign] below. *)
Definition jwt_sign (userId : Z) (secret : string) (now : Z) : token :=
  {| tk_userId := userId; tk_iat := now; tk_exp := now + one_hour;
     tk_key := secret |}.

Inductive jwt_error := JsonWebTokenError | TokenExpiredError.

(** Modelled from the spec: the token check of [authMiddleware.js], which
    [server.js] requires but which is not among the sources. Section 4.1:
    verification fails if the signature is invalid or the expiration has
    elapsed, and otherwise yields the user id; a token is expired from the
    second [tk_exp] on. *)
Definition jwt_verify (t : token) (secret : string) (now : Z) : jwt_error + Z :=
  if negb (String.eqb (tk_key t) secret) then inl JsonWebTokenError
  else if tk_exp t <=? now then inl TokenExpiredError
  else inr (tk_userId t).

(** ** Requests and responses *)

Inductive method := GET | POST | PUT | DELETE.

#[global] Instance method_eq_dec : EqDecision method.
Proof. solve_decision. Defined.

(** A request: the path as its segments, the bearer token of the
    [Authorization] header if there is one, the parsed JSON body. *)
Record request := {
  req_method : method;
  req_path : list string;
  req_bearer : option token;
  req_body : gmap string jsval
}.

(** What the runtime supplies while a request is served: the clock reading
    in seconds and the salt [bcrypt.genSalt] draws. *)
Record env := { now : Z; salt : string }.

Inductive payload :=
| Send (text : string)
| SendFile (file : string)
| JsonMsg (msg : string)
| JsonUndefined
| JsonAuth (tk : token) (user : user_row)
| JsonArcade (a : arcade_row)
| JsonArcades (l : list arcade_avg_row)
| JsonArcadeRows (l : list arcade_row)
| JsonDeletedArcade (message : string) (a : arcade_row)
| JsonNewComment (c : new_comment_row)
| JsonComment (c : comment_row)
| JsonProfile (l : list profile_row)
| JsonDeletedComment (message : string) (c : comment_row)
| Unauthenticated.

Record response := { status : Z; body : payload }.

Definition respond (code : Z) (p : payload) : response :=
  {| status := code; body := p |}.

(** [res.json(rows[0])]: the first row, or nothing when there is none. *)
Definition json_row {A} (f : A → payload) (rows : list A) : payload :=
  match rows with
  | r :: _ => f r
  | [] => JsonUndefined
  end.

(** ** SQL statements *)

(** The statements [server.js] sends, with their parameters in the order of
    the placeholders. *)
Inductive stmt :=
| SelectUserByEmail (email : jsval)
| InsertUser (username email hashedPassword : jsval)
| InsertArcade (name address days_open hours_of_operation serves_alcohol : jsval)
| SelectArcadesAvg
| SelectArcadeById (id : string)
| UpdateArcade (name address days_open hours_of_operation serves_alcohol : jsval)
    (id : string)
| DeleteArcade (id : string)
| InsertComment (user_id : Z) (arcade_id : string) (comment rating : jsval)
| SelectProfile (user_id : Z)
| UpdateComment (comment rating : jsval) (id : string) (user_id : Z)
| DeleteComment (id : string) (user_id : Z)
| SelectAllArcades.

(** The type of the rows a statement returns. *)
Definition rowty (s : stmt) : Type :=
  match s with
  | SelectUserByEmail _ | InsertUser _ _ _ => user_row
  | InsertArcade _ _ _ _ _ | SelectArcadeById _ | UpdateArcade _ _ _ _ _ _
  | DeleteArcade _ | SelectAllArcades => arcade_row
  | SelectArcadesAvg => arcade_avg_row
  | InsertComment _ _ _ _ => new_comment_row
  | SelectProfile _ => profile_row
  | UpdateComment _ _ _ _ | DeleteComment _ _ => comment_row
  end.

Definition set_users (f : list user_row → list user_row) (db : DB) : DB :=
  {| users := f (users db); arcades := arcades db; comments := comments db;
     users_seq := users_seq db; arcades_seq := arcades_seq db;
     comments_seq := comments_seq db |}.

Definition set_arcades (f : list arcade_row → list arcade_row) (db : DB) : DB :=
  {| users := users db; arcades := f (arcades db); comments := comments db;
     users_seq := users_seq db; arcades_seq := arcades_seq db;
     comments_seq := comments_seq db |}.

Definition set_comments (f : list comment_row → list comment_row) (db : DB) : DB :=
  {| users := users db; arcades := arcades db; comments := f (comments db);
     users_seq := users_seq db; arcades_seq := arcades_seq db;
     comments_seq := comments_seq db |}.

Definition bump_users_seq (db : DB) : DB :=
  {| users := users db; arcades := arcades db; comments := comments db;
     users_seq := users_seq db + 1; arcades_seq := arcades_seq db;
     comments_seq := comments_seq db |}.

Definition bump_arcades_seq (db : DB) : DB :=
  {| users := users db; arcades := arcades db; comments := comments db;
     users_seq := users_seq db; arcades_seq := arcades_seq db + 1;
     comments_seq := comments_seq db |}.

Definition bump_comments_seq (db : DB) : DB :=
  {| users := users db; arcades := arcades db; comments := comments db;
     users_seq := users_seq db; arcades_seq := arcades_seq db;
     comments_seq := comments_seq db + 1 |}.

(** [SET name = $1, ..., serves_alcohol = $5] on one row. *)
Definition arcade_set (cast : column → jsval → jsval)
    (name address days_open hours serves : jsval) (a : arcade_row)
    : arcade_row :=
  {| a_id := a_id a; a_name := bound cast Name name;
     a_address := bound cast Address address;
     a_days_open := bound cast DaysOpen days_open;
     a_hours_of_operation := bound cast HoursOfOperation hours;
     a_serves_alcohol := bound cast ServesAlcohol serves |}.

(** [SET comment = $1, rating = $2] on one row. *)
Definition comment_set (cast : column → jsval → jsval) (comment rating : jsval)
    (c : comment_row) : comment_row :=
  {| c_id := c_id c; c_user_id := c_user_id c; c_arcade_id := c_arcade_id c;
     c_comment := bound cast CommentText comment;
     c_rating := bound cast Rating rating;
     c_created_at := c_created_at c |}.

(** [WHERE id = $3 AND user_id = $4] of the comment statements. *)
Definition owned (id user_id : Z) (c : comment_row) : bool :=
  bool_decide (c_id c = id) && bool_decide (c_user_id c = user_id).

(** [(SELECT username FROM users WHERE id = $1)]: NULL when no user has the
    id. *)
Definition username_of (id : Z) (us : list user_row) : jsval :=
  match filter (λ u, u_id u = id) us with
  | u :: _ => u_username u
  | [] => JNull
  end.

(** One output row per arcade of the grouped left join. The rows are
    listed in the order of the arcades table; the query has no ORDER BY,
    so the order is the engine's, and what is stated of the listing is
    stated up to the order of its rows. *)
Fixpoint arcades_avg (as_ : list arcade_row) (cs : list comment_row)
    : option (list arcade_avg_row) :=
  match as_ with
  | [] => Some []
  | a :: rest =>
      avg ← average_of (ratings_of (a_id a) cs);
      rows ← arcades_avg rest cs;
      Some ({| aa_arcade := a; average_rating := avg |} :: rows)
  end.

(** [JOIN arcades ON comments.arcade_id = arcades.id] for one comment. *)
Definition join_arcade (as_ : list arcade_row) (c : comment_row) : list profile_row :=
  (λ a, {| pr_comment := c; arcade_name := a_name a |})
    <$> filter (λ a, a_id a = c_arcade_id c) as_.

(** [ORDER BY created_at DESC], by insertion. *)
Fixpoint insert_desc (p : profile_row) (l : list profile_row) : list profile_row :=
  match l with
  | [] => [p]
  | q :: l' =>
      if c_created_at (pr_comment q) <? c_created_at (pr_comment p)
      then p :: q :: l'
      else q :: insert_desc p l'
  end.

Definition order_desc (l : list profile_row) : list profile_row :=
  foldr insert_desc [] l.

(** What a statement returns and the database after it, at clock reading
    [t] and for an engine that reads values as [cast] says; [None] when an
    id cannot be read as an integer or the aggregate cannot be computed. *)
Definition exec (cast : column → jsval → jsval) (t : Z) (s : stmt) (db : DB)
    : option (list (rowty s) * DB) :=
  match s return option (list (rowty s) * DB) with
  | SelectUserByEmail email =>
      Some (filter (λ u, sql_eq (u_email u) (bound cast Email email) = true)
              (users db), db)
  | InsertUser username email hashedPassword =>
      let row := {| u_id := users_seq db;
                    u_username := bound cast Username username;
                    u_email := bound cast Email email;
                    u_password := bound cast Password hashedPassword |} in
      Some ([row], set_users (λ l, l ++ [row]) (bump_users_seq db))
  | InsertArcade name address days_open hours serves =>
      let row := arcade_set cast name address days_open hours serves
                   {| a_id := arcades_seq db; a_name := JNull; a_address := JNull;
                      a_days_open := JNull; a_hours_of_operation := JNull;
                      a_serves_alcohol := JNull |} in
      Some ([row], set_arcades (λ l, l ++ [row]) (bump_arcades_seq db))
  | SelectArcadesAvg =>
      rows ← arcades_avg (arcades db) (comments db);
      Some (rows, db)
  | SelectArcadeById id =>
      n ← int_in id;
      Some (filter (λ a, a_id a = n) (arcades db), db)
  | UpdateArcade name address days_open hours serves id =>
      n ← int_in id;
      let upd a := if bool_decide (a_id a = n)
                   then arcade_set cast name address days_open hours serves a
                   else a in
      Some (upd <$> filter (λ a, a_id a = n) (arcades db),
            set_arcades (fmap upd) db)
  | DeleteArcade id =>
      n ← int_in id;
      Some (filter (λ a, a_id a = n) (arcades db),
            set_arcades (filter (λ a, a_id a ≠ n)) db)
  | InsertComment user_id arcade_id comment rating =>
      n ← int_in arcade_id;
      let row := {| c_id := comments_seq db; c_user_id := user_id;
                    c_arcade_id := n; c_comment := bound cast CommentText comment;
                    c_rating := bound cast Rating rating; c_created_at := t |} in
      Some ([{| nc_id := c_id row; nc_comment := c_comment row;
                nc_rating := c_rating row; nc_created_at := c_created_at row;
                nc_username := username_of user_id (users db) |}],
            set_comments (λ l, l ++ [row]) (bump_comments_seq db))
  | SelectProfile user_id =>
      Some (order_desc
              (filter (λ c, c_user_id c = user_id) (comments db)
                 ≫= join_arcade (arcades db)), db)
  | UpdateComment comment rating id user_id =>
      n ← int_in id;
      let upd c := if owned n user_id c then comment_set cast comment rating c
                   else c in
      Some (upd <$> filter (λ c, owned n user_id c = true) (comments db),
            set_comments (fmap upd) db)
  | DeleteComment id user_id =>
      n ← int_in id;
      Some (filter (λ c, owned n user_id c = true) (comments db),
            set_comments (filter (λ c, owned n user_id c = false)) db)
  | SelectAllArcades => Some (arcades db, db)
  end.

(** ** The handler monad *)

(** A computation on the database that returns or throws; either way it
    leaves a database behind. *)
Inductive result (A : Type) :=
| Ok (a : A) (db : DB)
| Throw (db : DB).

Arguments Ok {A} a db.
Arguments Throw {A} db.

Definition M (A : Type) : Type := DB → result A.

Definition ret {A} (a : A) : M A := λ db, Ok a db.

Definition bind {A B} (m : M A) (k : A → M B) : M B :=
  λ db, match m db with
        | Ok a db' => k a db'
        | Throw db' => Throw db'
        end.

Definition throw {A} : M A := λ db, Throw db.

(** [try { m } catch (err) { h }]. *)
Definition try_catch {A} (m h : M A) : M A :=
  λ db, match m db with
        | Ok a db' => Ok a db'
        | Throw db' => h db'
        end.

Definition db_of {A} (r : result A) : DB :=
  match r with
  | Ok _ db => db
  | Throw db => db
  end.

Definition value_of {A} (r : result A) : option A :=
  match r with
  | Ok a _ => Some a
  | Throw _ => None
  end.

Declare Scope handler_scope.
Delimit Scope handler_scope with handler.
Notation "'let*' x ':=' m 'in' k" := (bind m (λ x, k))
  (at level 10, x name, m at level 100, k at level 200) : handler_scope.
Local Open Scope handler_scope.

(** ** Routes *)

Inductive pseg :=
| Lit (s : string)
| Param (name : string).

(** A route path, ['*'], or the root mount of [app.use]. *)
Inductive pattern :=
| Path (segs : list pseg)
| Star
| Mount.

(** A path is matched as it is written. The router also takes a path
    that differs from the route in the case of its letters or by a slash
    at its end; what is stated of every request below is stated by the
    handler that answers, or for paths that no such route takes. *)
Fixpoint match_segs (ps : list pseg) (path : list string) : option (list string) :=
  match ps, path with
  | [], [] => Some []
  | Lit s :: ps', x :: path' =>
      if String.eqb s x then match_segs ps' path' else None
  | Param _ :: ps', x :: path' => cons x <$> match_segs ps' path'
  | _, _ => None
  end.

(** The values of the route parameters when the path matches. *)
Definition match_path (p : pattern) (path : list string) : option (list string) :=
  match p with
  | Path ps => match_segs ps path
  | Star | Mount => Some []
  end.

Inductive handler_id :=
| Health | Register | Login
| ArcadeCreate | ArcadeList | ArcadeGet | ArcadeUpdate | ArcadeDelete
| CommentCreate | Profile | CommentUpdate | CommentDelete
| Static | CatchAll | TestDb.

#[global] Instance handler_id_eq_dec : EqDecision handler_id.
Proof. solve_decision. Defined.

(** One registration on the app: [l_method] is [None] for [app.use];
    [l_gate] says whether [authenticateToken] stands before the handler. *)
Record layer := {
  l_method : option method;
  l_path : pattern;
  l_gate : bool;
  l_handler : handler_id
}.

Definition route (m : method) (p : list pseg) (gate : bool) (h : handler_id) : layer :=
  {| l_method := Some m; l_path := Path p; l_gate := gate; l_handler := h |}.

(** The registrations of [server.js], top to bottom. [cors] and
    [express.json], which come first and pass every request on, are left
    out: a request carries its body already parsed. *)
Definition app : list layer := [
  route GET [Lit "health"] false Health;
  route POST [Lit "api"; Lit "auth"; Lit "register"] false Register;
  route POST [Lit "api"; Lit "auth"; Lit "login"] false Login;
  route POST [Lit "api"; Lit "arcades"] true ArcadeCreate;
  route GET [Lit "api"; Lit "arcades"] false ArcadeList;
  route GET [Lit "api"; Lit "arcades"; Param "id"] false ArcadeGet;
  route PUT [Lit "api"; Lit "arcades"; Param "id"] true ArcadeUpdate;
  route DELETE [Lit "api"; Lit "arcades"; Param "id"] true ArcadeDelete;
  route POST [Lit "api"; Lit "arcades"; Param "id"; Lit "comments"] true CommentCreate;
  route GET [Lit "api"; Lit "profile"] true Profile;
  route PUT [Lit "api"; Lit "comments"; Param "commentId"] true CommentUpdate;
  route DELETE [Lit "api"; Lit "comments"; Param "commentId"] true CommentDelete;
  {| l_method := None; l_path := Mount; l_gate := false; l_handler := Static |};
  {| l_method := Some GET; l_path := Star; l_gate := false; l_handler := CatchAll |};
  route GET [Lit "test-db"] false TestDb
].

Definition method_eqb (a b : method) : bool :=
  match a, b with
  | GET, GET | POST, POST | PUT, PUT | DELETE, DELETE => true
  | _, _ => false
  end.

Definition method_matches (l : layer) (m : method) : bool :=
  match l_method l with
  | None => true
  | Some m' => method_eqb m' m
  end.

Definition index_html : string := "client/build/index.html".

(** Modelled from the spec: the gate of [authMiddleware.js], which is not
    among the sources. Section 4.2: it reads the bearer credential; when it
    is missing or does not verify, the request is rejected with the
    authentication error and nothing further is done; otherwise the user id
    is attached to the request. *)
Definition bearer_gate (secret : string) (e : env) (req : request) : response + Z :=
  match req_bearer req with
  | None => inl (respond 401 Unauthenticated)
  | Some tk =>
      match jwt_verify tk secret (now e) with
      | inr uid => inr uid
      | inl _ => inl (respond 401 Unauthenticated)
      end
  end.

Definition mk_request (m : method) (path : list string) (bearer : option token)
    (body : gmap string jsval) : request :=
  {| req_method := m; req_path := path; req_bearer := bearer; req_body := body |}.

(** The database of a fresh installation. *)
Definition empty_db : DB :=
  {| users := []; arcades := []; comments := [];
     users_seq := 1; arcades_seq := 1; comments_seq := 1 |}.

(** ** A small deployment, for the examples *)

Definition demo_secret : string := "hush".

(** An engine that runs every statement. *)
Definition demo_raises (s : stmt) (db : DB) : bool := false.

(** An engine that reads a value as PostgreSQL reads the text the driver
    sends for it: a number or a boolean as its text in a text column, the
    usual spellings of a boolean in a boolean column, a decimal numeral
    in a numeric one. What it cannot read, where PostgreSQL raises, it
    keeps. *)
Definition demo_cast (c : column) (v : jsval) : jsval :=
  match column_type c, v with
  | Text, JNum n => JStr (pretty n)
  | Text, JBool b => JStr (if b then "true" else "false")
  | Boolean, JStr s =>
      if existsb (String.eqb s) ["true"; "t"; "yes"; "y"; "on"; "1"]
      then JBool true
      else if existsb (String.eqb s) ["false"; "f"; "no"; "n"; "off"; "0"]
      then JBool false
      else v
  | Boolean, JNum n =>
      if n =? 1 then JBool true else if n =? 0 then JBool false else v
  | Numeric, JStr s => from_option JNum v (int_in s)
  | _, _ => v
  end.

(** Modelled from the spec: the engine of a schema that has the one
    constraint section 3 puts on a value a request binds, "rating
    required and non-null", and no other. The schema itself is not among
    the sources. *)
Definition rating_required (s : stmt) (db : DB) : bool :=
  match s with
  | InsertComment _ _ _ rating | UpdateComment _ rating _ _ =>
      bool_decide (prepareValue rating = JNull)
  | _ => false
  end.

(** A stand-in for the hashing library: the salt followed by the password. *)
Definition demo_hash (password salt_ : string) : string := salt_ +:+ password.

Definition demo_compare (password hashed : string) : bool :=
  String.eqb (demo_hash password "na") hashed.

(** A client build with no file besides the index page. *)
Definition demo_build (path : list string) : option string := None.

Definition demo_gate : env → request → response + Z := bearer_gate demo_secret.

Definition demo_env : env := {| now := 5000; salt := "na" |}.

Definition demo_token (uid : Z) : token := jwt_sign uid demo_secret 4000.

Definition ann : user_row :=
  {| u_id := 1; u_username := JStr "ann"; u_email := JStr "ann@example.org";
     u_password := JStr "naletmein" |}.

Definition bo : user_row :=
  {| u_id := 2; u_username := JStr "bo"; u_email := JStr "bo@example.org";
     u_password := JStr "naopensesame" |}.

Definition barcade : arcade_row :=
  {| a_id := 1; a_name := JStr "Barcade"; a_address := JStr "148 W 24th St";
     a_days_open := JStr "Mon-Sun"; a_hours_of_operation := JStr "12-2";
     a_serves_alcohol := JBool true |}.

Definition chinatown_fair : arcade_row :=
  {| a_id := 2; a_name := JStr "Chinatown Fair"; a_address := JStr "8 Mott St";
     a_days_open := JStr "Mon-Sun"; a_hours_of_operation := JStr "11-23";
     a_serves_alcohol := JBool false |}.

Definition anns_comment : comment_row :=
  {| c_id := 1; c_user_id := 1; c_arcade_id := 1; c_comment := JStr "loud";
     c_rating := JNum 3; c_created_at := 100 |}.

Definition bos_comment : comment_row :=
  {| c_id := 2; c_user_id := 2; c_arcade_id := 1; c_comment := JStr "fun";
     c_rating := JNum 5; c_created_at := 200 |}.

Definition demo_db : DB :=
  {| users := [ann; bo]; arcades := [barcade; chinatown_fair];
     comments := [anns_comment; bos_comment];
     users_seq := 3; arcades_seq := 3; comments_seq := 3 |}.

Definition new_arcade_body : gmap string jsval :=
  {[ "name" := JStr "Wonderville"; "address" := JStr "1186 Broadway";
     "days_open" := JStr "Tue-Sun"; "hours_of_operation" := JStr "16-2";
     "serves_alcohol" := JBool true ]}.

Definition takeover_body : gmap string jsval :=
  {[ "comment" := JStr "mine now"; "rating" := JNum 1 ]}.

Definition wonderville : arcade_row :=
  {| a_id := 3; a_name := JStr "Wonderville"; a_address := JStr "1186 Broadway";
     a_days_open := JStr "Tue-Sun"; a_hours_of_operation := JStr "16-2";
     a_serves_alcohol := JBool true |}.

Definition new_user_body : gmap string jsval :=
  {[ "username" := JStr "cy"; "email" := JStr "cy@example.org";
     "password" := JStr "swordfish" ]}.

(** ** The server *)

Section Server.

(** What lies outside [server.js]: whether the database engine raises on a
    statement in a state (its schema, with its constraints, is not among
    the sources), what the engine reads in a value bound to a column of
    another type, the password hashing library, the signing secret of the
    environment (the empty string when it is not set), and the files of
    the client build that [express.static] finds for a path. *)
Variable raises : stmt → DB → bool.
Variable cast : column → jsval → jsval.
Variable bcrypt_hash : string → string → string.
Variable bcrypt_compare : string → string → bool.
Variable JWT_SECRET : string.
Variable build_file : list string → option string.

(** The gate of [authMiddleware.js], which [server.js] requires and which
    is not among the sources: it answers the request itself, or lets it
    through with the user id it has set in [req.user]. *)
Variable authenticateToken : env → request → response + Z.

(** [await pool.query(text, params)], giving [.rows]. A statement that
    raises changes nothing. *)
Definition pool_query (e : env) (s : stmt) : M (list (rowty s)) :=
  λ db, if raises s db then Throw db
        else match exec cast (now e) s db with
             | Some (rows, db') => Ok rows db'
             | None => Throw db
             end.

(** [bcrypt.hash(password, salt)] rejects an argument that is not a
    string. *)
Definition hash (password : jsval) (s : string) : M string :=
  match password with
  | JStr p => ret (bcrypt_hash p s)
  | _ => throw
  end.

(** [bcrypt.compare(password, hash)], likewise. *)
Definition compare (password hashed : jsval) : M bool :=
  match password, hashed with
  | JStr p, JStr h => ret (bcrypt_compare p h)
  | _, _ => throw
  end.

(** [jwt.sign({ userId }, process.env.JWT_SECRET, { expiresIn: '1h' })]:
    the library throws when the secret is empty or not set. *)
Definition sign (userId : Z) (e : env) : M token :=
  if String.eqb JWT_SECRET EmptyString then throw
  else ret (jwt_sign userId JWT_SECRET (now e)).

(** [rows[0].field]: a TypeError when there is no first row. *)
Definition first_row {A} (rows : list A) : M A :=
  match rows with
  | r :: _ => ret r
  | [] => throw
  end.

(** [req.user.userId]: a TypeError when no gate has set [req.user]. *)
Definition userId (user : option Z) : M Z :=
  match user with
  | Some u => ret u
  | None => throw
  end.

Definition server_error : M response := ret (respond 500 (Send "Server error")).

Definition health : M response := ret (respond 200 (Send "OK")).

Definition register (e : env) (req : request) : M response :=
  let username := prop (req_body req) "username" in
  let email := prop (req_body req) "email" in
  let password := prop (req_body req) "password" in
  if js_not username || js_not email || js_not password
  then ret (respond 400 (JsonMsg "All fields are required"))
  else
    try_catch
      (let* userExists := pool_query e (SelectUserByEmail email) in
       if bool_decide (0 < length userExists)%nat
       then ret (respond 400 (JsonMsg "User already exists"))
       else
         let* hashedPassword := hash password (salt e) in
         let* newUser := pool_query e (InsertUser username email (JStr hashedPassword)) in
         let* row := first_row newUser in
         let* tk := sign (u_id row) e in
         ret (respond 201 (JsonAuth tk row)))
      server_error.

Definition login (e : env) (req : request) : M response :=
  let email := prop (req_body req) "email" in
  let password := prop (req_body req) "password" in
  if js_not email || js_not password
  then ret (respond 400 (JsonMsg "Both email and password are required"))
  else
    try_catch
      (let* user := pool_query e (SelectUserByEmail email) in
       if bool_decide (length user = 0%nat)
       then ret (respond 400 (JsonMsg "Invalid credentials"))
       else
         let* row := first_row user in
         let* isMatch := compare password (u_password row) in
         if negb isMatch
         then ret (respond 400 (JsonMsg "Invalid credentials"))
         else
           let* tk := sign (u_id row) e in
           ret (respond 200 (JsonAuth tk row)))
      server_error.

Definition arcade_create (e : env) (req : request) : M response :=
  let name := prop (req_body req) "name" in
  let address := prop (req_body req) "address" in
  let days_open := prop (req_body req) "days_open" in
  let hours_of_operation := prop (req_body req) "hours_of_operation" in
  let serves_alcohol := prop (req_body req) "serves_alcohol" in
  try_catch
    (let* newArcade :=
       pool_query e (InsertArcade name address days_open hours_of_operation
                       serves_alcohol) in
     ret (respond 200 (json_row JsonArcade newArcade)))
    server_error.

Definition arcade_list (e : env) : M response :=
  try_catch
    (let* allArcades := pool_query e SelectArcadesAvg in
     ret (respond 200 (JsonArcades allArcades)))
    server_error.

Definition arcade_get (e : env) (id : string) : M response :=
  try_catch
    (let* arcade := pool_query e (SelectArcadeById id) in
     if bool_decide (length arcade = 0%nat)
     then ret (respond 404 (JsonMsg "Arcade not found"))
     else ret (respond 200 (json_row JsonArcade arcade)))
    server_error.

Definition arcade_update (e : env) (id : string) (req : request) : M response :=
  let name := prop (req_body req) "name" in
  let address := prop (req_body req) "address" in
  let days_open := prop (req_body req) "days_open" in
  let hours_of_operation := prop (req_body req) "hours_of_operation" in
  let serves_alcohol := prop (req_body req) "serves_alcohol" in
  try_catch
    (let* updatedArcade :=
       pool_query e (UpdateArcade name address days_open hours_of_operation
                       serves_alcohol id) in
     if bool_decide (length updatedArcade = 0%nat)
     then ret (respond 404 (JsonMsg "Arcade not found"))
     else ret (respond 200 (json_row JsonArcade updatedArcade)))
    server_error.

Definition arcade_delete (e : env) (id : string) : M response :=
  try_catch
    (let* deletedArcade := pool_query e (DeleteArcade id) in
     if bool_decide (length deletedArcade = 0%nat)
     then ret (respond 404 (JsonMsg "Arcade not found"))
     else ret (respond 200
                 (json_row (JsonDeletedArcade "Arcade deleted successfully")
                    deletedArcade)))
    server_error.

Definition comment_create (e : env) (id : string) (user : option Z)
    (req : request) : M response :=
  let comment := prop (req_body req) "comment" in
  let rating := prop (req_body req) "rating" in
  if js_not comment || js_not rating
  then ret (respond 400 (JsonMsg "Both comment and rating are required"))
  else
    try_catch
      (let* uid := userId user in
       let* newComment := pool_query e (InsertComment uid id comment rating) in
       ret (respond 200 (json_row JsonNewComment newComment)))
      server_error.

Definition profile (e : env) (user : option Z) : M response :=
  try_catch
    (let* uid := userId user in
     let* userReviews := pool_query e (SelectProfile uid) in
     ret (respond 200 (JsonProfile userReviews)))
    server_error.

Definition comment_update (e : env) (commentId : string) (user : option Z)
    (req : request) : M response :=
  let comment := prop (req_body req) "comment" in
  let rating := prop (req_body req) "rating" in
  let* uid := userId user in
  try_catch
    (let* updatedComment :=
       pool_query e (UpdateComment comment rating commentId uid) in
     if bool_decide (length updatedComment = 0%nat)
     then ret (respond 404 (JsonMsg "Comment not found or not authorized"))
     else ret (respond 200 (json_row JsonComment updatedComment)))
    server_error.

Definition comment_delete (e : env) (commentId : string) (user : option Z)
    : M response :=
  let* uid := userId user in
  try_catch
    (let* deletedComment := pool_query e (DeleteComment commentId uid) in
     if bool_decide (length deletedComment = 0%nat)
     then ret (respond 404 (JsonMsg "Comment not found or not authorized"))
     else ret (respond 200
                 (json_row (JsonDeletedComment "Comment deleted successfully")
                    deletedComment)))
    server_error.

(** [express.static]: answers a GET for which the build has a file, and
    passes every other request on. *)
Definition static (req : request) : option response :=
  match req_method req with
  | GET => (λ f, respond 200 (SendFile f)) <$> build_file (req_path req)
  | _ => None
  end.

Definition catch_all : M response := ret (respond 200 (SendFile index_html)).

Definition test_db (e : env) : M response :=
  try_catch
    (let* rows := pool_query e SelectAllArcades in
     ret (respond 200 (JsonArcadeRows rows)))
    (ret (respond 500 (Send "Database query failed"))).

(** The handler of a layer on a request whose path gave [params];
    [None] is [next()]. *)
Definition run_handler (h : handler_id) (e : env) (params : list string)
    (user : option Z) (req : request) : M (option response) :=
  let answer (m : M response) : M (option response) :=
    let* r := m in ret (Some r) in
  match h, params with
  | Health, _ => answer health
  | Register, _ => answer (register e req)
  | Login, _ => answer (login e req)
  | ArcadeCreate, _ => answer (arcade_create e req)
  | ArcadeList, _ => answer (arcade_list e)
  | ArcadeGet, [id] => answer (arcade_get e id)
  | ArcadeUpdate, [id] => answer (arcade_update e id req)
  | ArcadeDelete, [id] => answer (arcade_delete e id)
  | CommentCreate, [id] => answer (comment_create e id user req)
  | Profile, _ => answer (profile e user)
  | CommentUpdate, [id] => answer (comment_update e id user req)
  | CommentDelete, [id] => answer (comment_delete e id user)
  | Static, _ => ret (static req)
  | CatchAll, _ => answer catch_all
  | TestDb, _ => answer (test_db e)
  | _, _ => throw
  end.

(** A matching layer: the gate first when the layer has one, then the
    handler with [req.user] set. *)
Definition run_layer (l : layer) (e : env) (params : list string)
    (req : request) : M (option response) :=
  if l_gate l then
    match authenticateToken e req with
    | inl rejection => ret (Some rejection)
    | inr uid => run_handler (l_handler l) e params (Some uid) req
    end
  else run_handler (l_handler l) e params None req.

(** Express walks the layers in registration order; the first matching
    layer that does not call [next()] answers. The result names that
    layer's handler; with no layer left the final handler answers 404. *)
Fixpoint dispatch (ls : list layer) (e : env) (req : request)
    : M (option handler_id * response) :=
  match ls with
  | [] => ret (None, respond 404 (Send "Not Found"))
  | l :: rest =>
      if method_matches l (req_method req) then
        match match_path (l_path l) (req_path req) with
        | Some params =>
            let* r := run_layer l e params req in
            match r with
            | Some resp => ret (Some (l_handler l), resp)
            | None => dispatch rest e req
            end
        | None => dispatch rest e req
        end
      else dispatch rest e req
  end.

(** Serving one request on a database. *)
Definition app_handle (e : env) (req : request) (db : DB)
    : result (option handler_id * response) :=
  dispatch app e req db.

(** The response sent, if the handler did not die on an uncaught error. *)
Definition response_of (r : result (option handler_id * response)) : option response :=
  snd <$> value_of r.

(** ** Vocabulary of the statements below *)

(** A handler's response, labelled with the handler. *)
Definition served (h : handler_id) (m : M response)
    : M (option handler_id * response) :=
  let* r := m in ret (Some h, r).

(** The same behind the gate. *)
Definition gated (e : env) (req : request) (h : handler_id)
    (k : option Z → M response) : M (option handler_id * response) :=
  match authenticateToken e req with
  | inl rejection => ret (Some h, rejection)
  | inr uid => served h (k (Some uid))
  end.

(** A required field that the body does not have. *)
Definition missing (body : gmap string jsval) (k : string) : Prop :=
  body !! k = None.

(** The engine evaluates the statement without raising. *)
Definition runs (s : stmt) (db : DB) : Prop := raises s db = false.

Definition bad_request (msg : string) : response :=
  respond 400 (JsonMsg msg).

Definition not_found_or_unauthorized : response :=
  respond 404 (JsonMsg "Comment not found or not authorized").

(** The emails of the users table. *)
Definition emails (db : DB) : list jsval := u_email <$> users db.

(** A computation that leaves a property of the database standing,
    however it ends. *)
Definition preserves {A} (P : DB → Prop) (m : M A) : Prop :=
  ∀ db, P db → P (db_of (m db)).

(** A computation that never touches the users table. *)
Definition keeps_users {A} (m : M A) : Prop :=
  ∀ db, users (db_of (m db)) = users db.

(** A statement other than the insert into users. *)
Definition not_insert_user (s : stmt) : Prop :=
  match s with
  | InsertUser _ _ _ => False
  | _ => True
  end.

(** A rating cell of a well-typed comments table: a number or NULL. *)
Definition numeric_or_null (v : jsval) : Prop :=
  match v with
  | JNull | JNum _ => True
  | _ => False
  end.

(** The comments of an arcade. *)
Definition comments_of (id : Z) (db : DB) : list comment_row :=
  filter (λ c, c_arcade_id c = id) (comments db).

(** The ratings an arcade has: the numbers among the rating cells of its
    comments. *)
Definition ratings (id : Z) (db : DB) : list Z :=
  omap (λ c, match c_rating c with JNum n => Some n | _ => None end)
    (comments_of id db).

(** In the spec's words: [d] is the mean of [rs] rounded to one decimal
    place. With [s] the sum and [n] the count, [d] has one decimal and
    [|d - s / n| ≤ 1 / 20], cleared of denominators. *)
Definition mean_to_one_decimal (d : decimal) (rs : list Z) : Prop :=
  dec_scale d = 1%nat
  ∧ Z.abs (2 * Z.of_nat (length rs) * dec_unscaled d - 20 * sum_Z rs)
    ≤ Z.of_nat (length rs).

(** The sequence of arcade ids is ahead of every id in the table. *)
Definition arcades_fresh (db : DB) : Prop :=
  Forall (λ a, a_id a < arcades_seq db) (arcades db).

(** In the spec's words: the operations behind the gate are arcade
    create, update and delete, comment create, update and delete, and
    profile retrieval; listed here in the order of registration. *)
Definition protected : list handler_id :=
  [ArcadeCreate; ArcadeUpdate; ArcadeDelete;
   CommentCreate; Profile; CommentUpdate; CommentDelete].

(** The request line of each operation of the API, for the id in its
    path. *)
Definition request_line (h : handler_id) (id : string)
    : option (method * list string) :=
  match h with
  | ArcadeCreate => Some (POST, ["api"; "arcades"])
  | ArcadeList => Some (GET, ["api"; "arcades"])
  | ArcadeGet => Some (GET, ["api"; "arcades"; id])
  | ArcadeUpdate => Some (PUT, ["api"; "arcades"; id])
  | ArcadeDelete => Some (DELETE, ["api"; "arcades"; id])
  | CommentCreate => Some (POST, ["api"; "arcades"; id; "comments"])
  | Profile => Some (GET, ["api"; "profile"])
  | CommentUpdate => Some (PUT, ["api"; "comments"; id])
  | CommentDelete => Some (DELETE, ["api"; "comments"; id])
  | _ => None
  end.

(** A computation that leaves the database as it is, however it ends. *)
Definition keeps_db {A} (m : M A) : Prop := ∀ db, db_of (m db) = db.

(** The statements that only read. *)
Definition reads (s : stmt) : Prop :=
  match s with
  | SelectUserByEmail _ | SelectArcadesAvg | SelectArcadeById _
  | SelectProfile _ | SelectAllArcades => True
  | _ => False
  end.

(** The handlers that send nothing but such statements. *)
Definition read_only (h : handler_id) : bool :=
  match h with
  | Health | Login | ArcadeList | ArcadeGet | Profile | Static | CatchAll
  | TestDb => true
  | _ => false
  end.

Definition arcade_not_found : response :=
  respond 404 (JsonMsg "Arcade not found").

(** Newest first: no row is older than a row that comes after it. *)
Fixpoint newest_first (rows : list profile_row) : Prop :=
  match rows with
  | [] => True
  | r :: rest =>
      Forall (λ y, c_created_at (pr_comment y) ≤ c_created_at (pr_comment r)) rest
      ∧ newest_first rest
  end.

(** A computation that always returns: no error escapes it. *)
Definition answers {A} (m : M A) : Prop := ∀ db, ∃ a db', m db = Ok a db'.

Definition is_param (p : pseg) : bool :=
  match p with
  | Param _ => true
  | Lit _ => false
  end.

(** The number of route parameters of a pattern. *)
Definition param_count (p : pattern) : nat :=
  match p with
  | Path ps => length (filter (λ x, is_param x = true) ps)
  | Star | Mount => 0
  end.

(** The handlers that read one route parameter. *)
Definition wants_param (h : handler_id) : bool :=
  match h with
  | ArcadeGet | ArcadeUpdate | ArcadeDelete
  | CommentCreate | CommentUpdate | CommentDelete => true
  | _ => false
  end.

(** The handlers that read [req.user.userId] outside of their try block. *)
Definition wants_user (h : handler_id) : bool :=
  match h with
  | CommentUpdate | CommentDelete => true
  | _ => false
  end.

(** A layer whose route gives its handler what the handler reads before
    its try block: the route parameter, and the user set by the gate. *)
Definition well_formed (l : layer) : Prop :=
  (wants_param (l_handler l) = true → param_count (l_path l) = 1%nat)
  ∧ (wants_user (l_handler l) = true → l_gate l = true).



(** The letters A to Z in lower case: the router compares a segment with
    a route's without regard to case. *)
Definition lower_ascii (a : Ascii.ascii) : Ascii.ascii :=
  let n := Ascii.nat_of_ascii a in
  if (65 <=? n)%nat && (n <=? 90)%nat then Ascii.ascii_of_nat (n + 32) else a.

Fixpoint lower (s : string) : string :=
  match s with
  | EmptyString => EmptyString
  | String a s' => String (lower_ascii a) (lower s')
  end.




Definition internal_error : response := respond 500 (Send "Server error").

(** The handlers that write to the arcades table, and to the comments
    table. *)
Definition arcade_writers : list handler_id :=
  [ArcadeCreate; ArcadeUpdate; ArcadeDelete].

Definition comment_writers : list handler_id :=
  [CommentCreate; CommentUpdate; CommentDelete].

(** A computation that leaves one component of the database as it is. *)
Definition keeps {A X} (f : DB → X) (m : M A) : Prop :=
  ∀ db, f (db_of (m db)) = f db.

(** The statements that do not write to the arcades table, and to the
    comments table. *)
Definition not_arcade_write (s : stmt) : Prop :=
  match s with
  | InsertArcade _ _ _ _ _ | UpdateArcade _ _ _ _ _ _ | DeleteArcade _ => False
  | _ => True
  end.

Definition not_comment_write (s : stmt) : Prop :=
  match s with
  | InsertComment _ _ _ _ | UpdateComment _ _ _ _ | DeleteComment _ _ => False
  | _ => True
  end.

(** ** The sidebar of the client *)

(** What [localStorage] holds under a key: the token string, the JSON text
    of a user record (kept as the record it denotes), or another text. *)
Inductive stored :=
| StoredToken (tk : token)
| StoredJson (u : user_row)
| StoredText (s : string).

(** The calls of [alert], by their text. [RegistrationFailed d] is
    "Registration failed: d" and [Welcome u] is "Welcome, u!". *)
Inductive alert :=
| PasswordsDoNotMatch
| RegistrationSuccessful
| RegistrationFailed (detail : string)
| RegistrationFailedTryAgain
| Welcome (username : jsval)
| LoginFailed.

(** The state of the component. *)
Record sidebar := {
  isExpanded : bool;
  isRegistering : bool;
  isInputFocused : bool;
  formData : gmap string string
}.

(** The component in its page: its own state, the [user] of its parent
    with [setUser], the storage of the browser, the alerts shown so far
    and the place [navigate] was last sent to. *)
Record browser := {
  b_ui : sidebar;
  b_user : option user_row;
  b_storage : gmap string stored;
  b_alerts : list alert;
  b_location : option string
}.

Definition set_ui (f : sidebar → sidebar) (b : browser) : browser :=
  {| b_ui := f (b_ui b); b_user := b_user b; b_storage := b_storage b;
     b_alerts := b_alerts b; b_location := b_location b |}.

Definition do_alert (a : alert) (b : browser) : browser :=
  {| b_ui := b_ui b; b_user := b_user b; b_storage := b_storage b;
     b_alerts := b_alerts b ++ [a]; b_location := b_location b |}.

Definition setUser (u : option user_row) (b : browser) : browser :=
  {| b_ui := b_ui b; b_user := u; b_storage := b_storage b;
     b_alerts := b_alerts b; b_location := b_location b |}.

Definition set_storage (f : gmap string stored → gmap string stored)
    (b : browser) : browser :=
  {| b_ui := b_ui b; b_user := b_user b; b_storage := f (b_storage b);
     b_alerts := b_alerts b; b_location := b_location b |}.

Definition navigate (to : string) (b : browser) : browser :=
  {| b_ui := b_ui b; b_user := b_user b; b_storage := b_storage b;
     b_alerts := b_alerts b; b_location := Some to |}.

Definition setIsExpanded (v : bool) (s : sidebar) : sidebar :=
  {| isExpanded := v; isRegistering := isRegistering s;
     isInputFocused := isInputFocused s; formData := formData s |}.

Definition setIsRegistering (v : bool) (s : sidebar) : sidebar :=
  {| isExpanded := isExpanded s; isRegistering := v;
     isInputFocused := isInputFocused s; formData := formData s |}.

Definition setIsInputFocused (v : bool) (s : sidebar) : sidebar :=
  {| isExpanded := isExpanded s; isRegistering := isRegistering s;
     isInputFocused := v; formData := formData s |}.

Definition setFormData (fd : gmap string string) (s : sidebar) : sidebar :=
  {| isExpanded := isExpanded s; isRegistering := isRegistering s;
     isInputFocused := isInputFocused s; formData := fd |}.

(** [useState] at the first render. *)
Definition initial_sidebar : sidebar :=
  {| isExpanded := false; isRegistering := false; isInputFocused := false;
     formData := {[ "username" := EmptyString; "email" := EmptyString;
                    "password" := EmptyString;
                    "confirmPassword" := EmptyString ]} |}.

(** [formData.k]. *)
Definition form_value (s : sidebar) (k : string) : jsval :=
  from_option JStr JUndefined (formData s !! k).

(** [{ ...formData, [e.target.name]: e.target.value }]. *)
Definition handleInputChange (name value : string) (s : sidebar) : sidebar :=
  setFormData (<[name := value]> (formData s)) s.

Definition handleFocus (s : sidebar) : sidebar := setIsInputFocused true s.

Definition handleBlur (s : sidebar) : sidebar := setIsInputFocused false s.

Definition onMouseEnter (s : sidebar) : sidebar := setIsExpanded true s.

Definition onMouseLeave (s : sidebar) : sidebar :=
  if negb (isInputFocused s) then setIsExpanded false s else s.

(** The class [expanded] of the rendered sidebar. *)
Definition expanded (s : sidebar) : bool := isExpanded s || isInputFocused s.

(** What the sidebar shows. *)
Inductive panel :=
| WelcomePanel (username : jsval)
| RegisterForm
| LoginForm.

Definition render (b : browser) : panel :=
  match b_user b with
  | Some u => WelcomePanel (u_username u)
  | None => if isRegistering (b_ui b) then RegisterForm else LoginForm
  end.

(** The body [axios] sends for an object: a property that is [undefined]
    is left out of the JSON text. *)
Definition json_body (fields : list (string * jsval)) : gmap string jsval :=
  list_to_map (filter (λ kv, kv.2 ≠ JUndefined) fields).

(** The outcome of a request for the caller of [axios.post]: the promise
    is fulfilled by a 2xx response, rejected with the response by any
    other, rejected without one when the server cannot be reached, and
    stays pending when the server never answers. *)
Inductive reply :=
| Fulfilled (r : response)
| Rejected (r : response)
| Unreachable
| Pending.

Definition axios_post (online : bool) (e : env) (path : list string)
    (body : gmap string jsval) (db : DB) : reply * DB :=
  if online then
    match app_handle e (mk_request POST path None body) db with
    | Ok (_, r) db' =>
        (if (200 <=? status r) && (status r <? 300) then Fulfilled r
         else Rejected r, db')
    | Throw db' => (Pending, db')
    end
  else (Unreachable, db).

(** [data.msg] of a response body. *)
Definition data_msg (p : payload) : jsval :=
  match p with
  | JsonMsg m => JStr m
  | _ => JUndefined
  end.

(** [a || b] on a value and a text. *)
Definition or_else (v : jsval) (fallback : string) : jsval :=
  if truthy v then v else JStr fallback.

Definition text_of (v : jsval) (fallback : string) : string :=
  match or_else v fallback with
  | JStr s => s
  | _ => fallback
  end.

Definition handleRegister (online : bool) (e : env) (w : browser * DB)
    : browser * DB :=
  let (b, db) := w in
  let s := b_ui b in
  if bool_decide (form_value s "password" ≠ form_value s "confirmPassword")
  then (do_alert PasswordsDoNotMatch b, db)
  else
    match axios_post online e ["api"; "auth"; "register"]
            (json_body [("username", form_value s "username");
                        ("email", form_value s "email");
                        ("password", form_value s "password")]) db with
    | (Fulfilled _, db') =>
        (set_ui (setIsRegistering false) (do_alert RegistrationSuccessful b), db')
    | (Rejected r, db') =>
        (do_alert
           (RegistrationFailed (text_of (data_msg (body r)) "Please try again."))
           b, db')
    | (Unreachable, db') => (do_alert RegistrationFailedTryAgain b, db')
    | (Pending, db') => (b, db')
    end.

Definition handleLogin (online : bool) (e : env) (w : browser * DB)
    : browser * DB :=
  let (b, db) := w in
  let s := b_ui b in
  match axios_post online e ["api"; "auth"; "login"]
          (json_body [("email", form_value s "email");
                      ("password", form_value s "password")]) db with
  | (Fulfilled r, db') =>
      match body r with
      | JsonAuth tk u =>
          (do_alert (Welcome (u_username u))
             (setUser (Some u)
                (set_storage (λ m, <["user" := StoredJson u]>
                                     (<["token" := StoredToken tk]> m)) b)),
           db')
      | _ =>
          (do_alert LoginFailed
             (setUser None
                (set_storage (λ m, <["user" := StoredText "undefined"]>
                                     (<["token" := StoredText "undefined"]> m))
                   b)),
           db')
      end
  | (Rejected _, db') | (Unreachable, db') => (do_alert LoginFailed b, db')
  | (Pending, db') => (b, db')
  end.

Definition handleLogout (b : browser) : browser :=
  navigate "/"
    (setUser None
       (set_storage (λ m, delete "user" (delete "token" m)) b)).

(** The effect run when the component mounts: [None] when [JSON.parse]
    meets a stored text that is not the JSON text of a record. *)
Definition mount (b : browser) : option browser :=
  match b_storage b !! "user" with
  | None => Some b
  | Some (StoredJson u) => Some (setUser (Some u) b)
  | Some (StoredText s) => if String.eqb s EmptyString then Some b else None
  | Some (StoredToken _) => None
  end.

(** ** Samples for the sidebar *)

(** An engine that raises on every statement. *)
Definition down_raises (s : stmt) (db : DB) : bool := true.

(** The form after the four fields have been typed in. *)
Definition typed (username email password confirm : string) : sidebar :=
  handleInputChange "confirmPassword" confirm
    (handleInputChange "password" password
       (handleInputChange "email" email
          (handleInputChange "username" username initial_sidebar))).

(** A page just loaded in a browser with an empty storage. *)
Definition page (s : sidebar) : browser :=
  {| b_ui := s; b_user := None; b_storage := ∅; b_alerts := [];
     b_location := None |}.

(** ** The definitions on small inputs *)

Example bound_values :
  bound demo_cast Name (JStr "Barcade") = JStr "Barcade"
  ∧ bound demo_cast Name JUndefined = JNull
  ∧ bound demo_cast Name (JNum 123) = JStr "123"
  ∧ bound demo_cast ServesAlcohol (JBool false) = JBool false
  ∧ bound demo_cast ServesAlcohol (JStr "yes") = JBool true
  ∧ bound demo_cast Rating (JNum 5) = JNum 5
  ∧ bound demo_cast Rating (JStr "5") = JNum 5.
Proof. repeat split. Qed.

Example lower_segment : lower "HEALTH" = "health" ∧ lower "Api" = "api".
Proof. split; reflexivity. Qed.

Example truthy_zero : truthy (JNum 0) = false ∧ truthy (JNum 5) = true.
Proof. split; reflexivity. Qed.

Example truthy_strings :
  truthy (JStr EmptyString) = false ∧ truthy (JStr "0") = true.
Proof. split; reflexivity. Qed.

Example int_in_numeral : int_in "42" = Some 42 ∧ int_in "007" = Some 7.
Proof. split; reflexivity. Qed.

Example int_in_other : int_in "4x" = None ∧ int_in EmptyString = None.
Proof. split; reflexivity. Qed.

(** 8 / 2 = 4.0, 4 / 3 = 1.3, 5 / 3 = 1.7, 1 / 4 = 0.3 and -1 / 4 = -0.3. *)
Example round_tenths_values :
  round_tenths 8 2 = 40 ∧ round_tenths 4 3 = 13 ∧ round_tenths 5 3 = 17
  ∧ round_tenths 1 4 = 3 ∧ round_tenths (-1) 4 = -3.
Proof. repeat split; reflexivity. Qed.

Example average_of_3_5 :
  average_of [JNum 3; JNull; JNum 5] = Some {| dec_unscaled := 40; dec_scale := 1 |}
  ∧ average_of [JNull] = Some dec_zero
  ∧ average_of [JStr "5"] = None.
Proof. repeat split; reflexivity. Qed.

Example match_path_param :
  match_path (Path [Lit "api"; Lit "arcades"; Param "id"]) ["api"; "arcades"; "7"]
  = Some ["7"]
  ∧ match_path (Path [Lit "api"; Lit "arcades"]) ["api"; "arcades"; "7"] = None
  ∧ match_path Star ["test-db"] = Some [].
Proof. repeat split; reflexivity. Qed.

Example order_desc_newest_first :
  (c_id ∘ pr_comment)
    <$> order_desc [{| pr_comment := anns_comment; arcade_name := JStr "Barcade" |};
                    {| pr_comment := bos_comment; arcade_name := JStr "Barcade" |}]
  = [2; 1].
Proof. reflexivity. Qed.

(** ** Routing *)

Lemma bind_answer (m : M response) (h : option handler_id)
    (k : M (option handler_id * response)) db :
  bind (bind m (λ r, ret (Some r)))
    (λ r, match r with Some resp => ret (h, resp) | None => k end) db
  = bind m (λ r, ret (h, r)) db.
Proof. unfold bind, ret. destruct (m db); reflexivity. Qed.

Ltac route :=
  intros; unfold app_handle, gated, served; cbn;
  repeat match goal with
         | |- context [authenticateToken ?e ?r] =>
             destruct (authenticateToken e r); cbn
         end;
  try rewrite bind_answer; try reflexivity.

Lemma route_register e bearer body db :
  let req := mk_request POST ["api"; "auth"; "register"] bearer body in
  app_handle e req db = served Register (register e req) db.
Proof. route. Qed.

Lemma route_login e bearer body db :
  let req := mk_request POST ["api"; "auth"; "login"] bearer body in
  app_handle e req db = served Login (login e req) db.
Proof. route. Qed.

Lemma route_arcade_create e bearer body db :
  let req := mk_request POST ["api"; "arcades"] bearer body in
  app_handle e req db = gated e req ArcadeCreate (λ _, arcade_create e req) db.
Proof. route. Qed.

Lemma route_arcade_list e bearer body db :
  let req := mk_request GET ["api"; "arcades"] bearer body in
  app_handle e req db = served ArcadeList (arcade_list e) db.
Proof. route. Qed.

Lemma route_arcade_get e id bearer body db :
  let req := mk_request GET ["api"; "arcades"; id] bearer body in
  app_handle e req db = served ArcadeGet (arcade_get e id) db.
Proof. route. Qed.

Lemma route_arcade_update e id bearer body db :
  let req := mk_request PUT ["api"; "arcades"; id] bearer body in
  app_handle e req db = gated e req ArcadeUpdate (λ _, arcade_update e id req) db.
Proof. route. Qed.

Lemma route_arcade_delete e id bearer body db :
  let req := mk_request DELETE ["api"; "arcades"; id] bearer body in
  app_handle e req db = gated e req ArcadeDelete (λ _, arcade_delete e id) db.
Proof. route. Qed.

Lemma route_comment_create e id bearer body db :
  let req := mk_request POST ["api"; "arcades"; id; "comments"] bearer body in
  app_handle e req db
  = gated e req CommentCreate (λ u, comment_create e id u req) db.
Proof. route. Qed.

Lemma route_profile e bearer body db :
  let req := mk_request GET ["api"; "profile"] bearer body in
  app_handle e req db = gated e req Profile (λ u, profile e u) db.
Proof. route. Qed.

Lemma route_comment_update e id bearer body db :
  let req := mk_request PUT ["api"; "comments"; id] bearer body in
  app_handle e req db
  = gated e req CommentUpdate (λ u, comment_update e id u req) db.
Proof. route. Qed.

Lemma route_comment_delete e id bearer body db :
  let req := mk_request DELETE ["api"; "comments"; id] bearer body in
  app_handle e req db
  = gated e req CommentDelete (λ u, comment_delete e id u) db.
Proof. route. Qed.

(** ** Validation comes first *)

Lemma missing_falsy body k : missing body k → js_not (prop body k) = true.
Proof. unfold missing, prop. intros ->. reflexivity. Qed.

Lemma authenticated_gated e req h k uid db :
  authenticateToken e req = inr uid →
  gated e req h k db = served h (k (Some uid)) db.
Proof. unfold gated. intros ->. reflexivity. Qed.

Lemma rejected_gated e req h k rejection db :
  authenticateToken e req = inl rejection →
  gated e req h k db = Ok (Some h, rejection) db.
Proof. unfold gated. intros ->. reflexivity. Qed.

Lemma comment_create_rejects e id bearer body uid db :
  let req := mk_request POST ["api"; "arcades"; id; "comments"] bearer body in
  authenticateToken e req = inr uid →
  js_not (prop body "comment") || js_not (prop body "rating") = true →
  app_handle e req db
  = Ok (Some CommentCreate,
        bad_request "Both comment and rating are required") db.
Proof.
  intros req Hauth H. subst req. rewrite route_comment_create.
  rewrite (authenticated_gated _ _ _ _ uid) by exact Hauth.
  unfold served, bind, comment_create. cbn. rewrite H. reflexivity.
Qed.

(** C6. A registration, login or comment-creation request that lacks a
    required field is answered 400 and the database is left as it was,
    whatever the engine would do with a statement: the check stands
    before the first query of the handler. For comment creation the
    request is one that has passed the gate. *)
Theorem C6_missing_field_rejected_before_any_query e bearer body db :
  (missing body "username" ∨ missing body "email" ∨ missing body "password" →
   app_handle e (mk_request POST ["api"; "auth"; "register"] bearer body) db
   = Ok (Some Register, bad_request "All fields are required") db)
  ∧ (missing body "email" ∨ missing body "password" →
     app_handle e (mk_request POST ["api"; "auth"; "login"] bearer body) db
     = Ok (Some Login,
           bad_request "Both email and password are required") db)
  ∧ (∀ id uid,
       let req := mk_request POST ["api"; "arcades"; id; "comments"] bearer body in
       authenticateToken e req = inr uid →
       missing body "comment" ∨ missing body "rating" →
       app_handle e req db
       = Ok (Some CommentCreate,
             bad_request "Both comment and rating are required") db).
Proof.
  split; [|split].
  - intros H. rewrite route_register. unfold served, bind, register. cbn.
    destruct H as [H|[H|H]]; apply missing_falsy in H; rewrite H;
      rewrite ?orb_true_r; reflexivity.
  - intros H. rewrite route_login. unfold served, bind, login. cbn.
    destruct H as [H|H]; apply missing_falsy in H; rewrite H;
      rewrite ?orb_true_r; reflexivity.
  - intros id uid req Hauth H.
    apply (comment_create_rejects e id bearer body uid db).
    + exact Hauth.
    + destruct H as [H|H]; apply missing_falsy in H; rewrite H;
        rewrite ?orb_true_r; reflexivity.
Qed.

(** ** Statements on the comments table *)

Lemma pool_query_runs e s db :
  runs s db →
  pool_query e s db
  = match exec cast (now e) s db with
    | Some (rows, db') => Ok rows db'
    | None => Throw db
    end.
Proof. unfold runs, pool_query. intros ->. reflexivity. Qed.

Lemma pool_query_raises e s db :
  raises s db = true → pool_query e s db = Throw db.
Proof. unfold pool_query. intros ->. reflexivity. Qed.

Lemma set_comments_id db : set_comments (λ l, l) db = db.
Proof. destruct db; reflexivity. Qed.

Section NotOwned.
Variables (n uid : Z) (f : comment_row → comment_row).
Variable l : list comment_row.
Hypothesis Hno : Forall (λ c, c_id c = n → c_user_id c ≠ uid) l.

Lemma not_owned_false c : c ∈ l → owned n uid c = false.
Proof.
  intros Hc. rewrite Forall_forall in Hno. specialize (Hno c Hc).
  unfold owned. destruct (bool_decide_reflect (c_id c = n)); [|reflexivity].
  destruct (bool_decide_reflect (c_user_id c = uid)); [|reflexivity].
  naive_solver.
Qed.

Lemma not_owned_select : filter (λ c, owned n uid c = true) l = [].
Proof.
  assert (H : ∀ c, c ∈ l → owned n uid c = false) by exact not_owned_false.
  clear Hno. induction l as [|c l' IH]; [reflexivity|].
  rewrite filter_cons_False.
  - apply IH. intros c' Hc'. apply H. by right.
  - rewrite H by left. discriminate.
Qed.

Lemma not_owned_update :
  (λ c, if owned n uid c then f c else c) <$> l = l.
Proof.
  assert (H : ∀ c, c ∈ l → owned n uid c = false) by exact not_owned_false.
  clear Hno. induction l as [|c l' IH]; [reflexivity|].
  cbn. rewrite H by left. f_equal. apply IH.
  intros c' Hc'. apply H. by right.
Qed.

Lemma not_owned_delete : filter (λ c, owned n uid c = false) l = l.
Proof.
  assert (H : ∀ c, c ∈ l → owned n uid c = false) by exact not_owned_false.
  clear Hno. induction l as [|c l' IH]; [reflexivity|].
  rewrite filter_cons_True by (apply H; left). f_equal. apply IH.
  intros c' Hc'. apply H. by right.
Qed.
End NotOwned.

(** The two comment mutations, statement by statement. *)
Lemma comment_update_eq e id n uid req db :
  int_in id = Some n →
  let comment := prop (req_body req) "comment" in
  let rating := prop (req_body req) "rating" in
  let upd c := if owned n uid c then comment_set cast comment rating c else c in
  let rows := upd <$> filter (λ c, owned n uid c = true) (comments db) in
  comment_update e id (Some uid) req db
  = if raises (UpdateComment comment rating id uid) db
    then Ok (respond 500 (Send "Server error")) db
    else Ok (if bool_decide (length rows = 0%nat)
             then not_found_or_unauthorized
             else respond 200 (json_row JsonComment rows))
           (set_comments (fmap upd) db).
Proof.
  intros Hid. cbn. unfold comment_update, bind, try_catch, pool_query. cbn.
  destruct (raises _ db); [reflexivity|].
  cbn. rewrite Hid. cbn. case_bool_decide; reflexivity.
Qed.

Lemma comment_delete_eq e id n uid db :
  int_in id = Some n →
  let rows := filter (λ c, owned n uid c = true) (comments db) in
  comment_delete e id (Some uid) db
  = if raises (DeleteComment id uid) db
    then Ok (respond 500 (Send "Server error")) db
    else Ok (if bool_decide (length rows = 0%nat)
             then not_found_or_unauthorized
             else respond 200
                    (json_row (JsonDeletedComment "Comment deleted successfully")
                       rows))
           (set_comments (filter (λ c, owned n uid c = false)) db).
Proof.
  intros Hid. cbn. unfold comment_delete, bind, try_catch, pool_query. cbn.
  destruct (raises _ db); [reflexivity|].
  cbn. rewrite Hid. cbn. case_bool_decide; reflexivity.
Qed.

Lemma owned_row n uid c :
  owned n uid c = true → c_id c = n ∧ c_user_id c = uid.
Proof.
  unfold owned. rewrite andb_true_iff, !bool_decide_eq_true. tauto.
Qed.

Lemma some_owned_row n uid l :
  length (filter (λ c, owned n uid c = true) l) ≠ 0%nat →
  ∃ c, c ∈ l ∧ c_id c = n ∧ c_user_id c = uid.
Proof.
  destruct (filter _ l) as [|c rows] eqn:E; [done|]. intros _.
  assert (Hc : c ∈ filter (λ c, owned n uid c = true) l)
    by (rewrite E; left).
  apply list_elem_of_filter in Hc as [Ho Hc].
  exists c. split; [exact Hc|]. by apply owned_row.
Qed.

(** C1. An authenticated update or delete of a comment by a caller who
    does not own a comment of that id, whether or not one exists, leaves
    the database as it was and, when the engine runs the statement, is
    answered 404 "not found or not authorized"; a 200 is only ever sent
    when some row has both the comment id and the caller's user id. *)
Theorem C1_comment_mutation_scoped_to_owner e id n uid bearer body db :
  let put := mk_request PUT ["api"; "comments"; id] bearer body in
  let del := mk_request DELETE ["api"; "comments"; id] bearer body in
  authenticateToken e put = inr uid →
  authenticateToken e del = inr uid →
  int_in id = Some n →
  (Forall (λ c, c_id c = n → c_user_id c ≠ uid) (comments db) →
   db_of (app_handle e put db) = db
   ∧ db_of (app_handle e del db) = db
   ∧ (runs (UpdateComment (prop body "comment") (prop body "rating") id uid) db →
      app_handle e put db
      = Ok (Some CommentUpdate, not_found_or_unauthorized) db)
   ∧ (runs (DeleteComment id uid) db →
      app_handle e del db
      = Ok (Some CommentDelete, not_found_or_unauthorized) db))
  ∧ (∀ req r,
       req = put ∨ req = del →
       response_of (app_handle e req db) = Some r →
       status r = 200 →
       ∃ c, c ∈ comments db ∧ c_id c = n ∧ c_user_id c = uid).
Proof.
  intros put del Hauth Hauth' Hid.
  assert (Hput : app_handle e put db
                 = served CommentUpdate (comment_update e id (Some uid) put) db).
  { subst put. rewrite route_comment_update.
    rewrite (authenticated_gated _ _ _ _ uid); [reflexivity|exact Hauth]. }
  assert (Hdel : app_handle e del db
                 = served CommentDelete (comment_delete e id (Some uid)) db).
  { subst del. rewrite route_comment_delete.
    rewrite (authenticated_gated _ _ _ _ uid); [reflexivity|exact Hauth']. }
  rewrite Hput, Hdel. unfold served, bind.
  rewrite (comment_update_eq e id n uid put db Hid).
  rewrite (comment_delete_eq e id n uid db Hid).
  split.
  - intros Hno. cbn.
    rewrite (not_owned_select n uid _ Hno). unfold set_comments.
    rewrite (not_owned_update n uid _ _ Hno).
    rewrite (not_owned_delete n uid _ Hno). cbn.
    unfold runs.
    repeat split.
    + destruct (raises _ db); cbn; [reflexivity|].
      destruct db; reflexivity.
    + destruct (raises _ db); cbn; [reflexivity|].
      destruct db; reflexivity.
    + intros ->. cbn. destruct db; reflexivity.
    + intros ->. cbn. destruct db; reflexivity.
  - intros req r [-> | ->].
    + rewrite Hput. unfold served, bind.
      rewrite (comment_update_eq e id n uid put db Hid). cbn.
      destruct (raises _ db); cbn.
      * intros [= <-]. discriminate.
      * rewrite length_fmap. case_bool_decide as Hlen.
        -- intros [= <-]. discriminate.
        -- intros _ _. by apply some_owned_row.
    + rewrite Hdel. unfold served, bind.
      rewrite (comment_delete_eq e id n uid db Hid). cbn.
      destruct (raises _ db); cbn.
      * intros [= <-]. discriminate.
      * case_bool_decide as Hlen.
        -- intros [= <-]. discriminate.
        -- intros _ _. by apply some_owned_row.
Qed.

Lemma bound_typed c v : of_type (column_type c) v = true → bound cast c v = v.
Proof.
  unfold bound. destruct v; cbn; try (by destruct (column_type c)).
  all: by intros ->.
Qed.

Lemma truthy_prepareValue v : truthy v = true → prepareValue v = v.
Proof. destruct v; cbn; congruence. Qed.

Lemma username_of_unique u l :
  NoDup (u_id <$> l) → u ∈ l → username_of (u_id u) l = u_username u.
Proof.
  unfold username_of. induction l as [|v l IH]; intros Hnd Hu.
  - by apply elem_of_nil in Hu.
  - cbn in Hnd. apply NoDup_cons in Hnd as [Hv Hnd].
    apply elem_of_cons in Hu as [<- | Hu].
    + by rewrite filter_cons_True.
    + rewrite filter_cons_False; [by apply IH|].
      intros Heq. apply Hv. rewrite Heq.
      apply list_elem_of_fmap. by exists u.
  Qed.

(** C5. A comment-creation request that has passed the gate is answered
    400 without an insert whenever the comment text or the rating is
    falsy, a rating of exactly 0 included; when both are truthy and the
    engine runs the insert, one row is appended with the caller as its
    author and the answer is the created comment with the username the
    users table has for the caller. The text and the rating of the row
    are what the engine stored for the values sent: the values themselves
    when they are a string and a number. *)
Theorem C5_comment_create_needs_truthy_text_and_rating e id bearer body uid db :
  let req := mk_request POST ["api"; "arcades"; id; "comments"] bearer body in
  let comment := prop body "comment" in
  let rating := prop body "rating" in
  authenticateToken e req = inr uid →
  (truthy comment = false ∨ truthy rating = false →
   app_handle e req db
   = Ok (Some CommentCreate,
         bad_request "Both comment and rating are required") db)
  ∧ (rating = JNum 0 →
     app_handle e req db
     = Ok (Some CommentCreate,
           bad_request "Both comment and rating are required") db)
  ∧ (∀ n,
       truthy comment = true → truthy rating = true →
       int_in id = Some n →
       runs (InsertComment uid id comment rating) db →
       let row := {| c_id := comments_seq db; c_user_id := uid;
                     c_arcade_id := n;
                     c_comment := bound cast CommentText comment;
                     c_rating := bound cast Rating rating;
                     c_created_at := now e |} in
       let created := {| nc_id := comments_seq db; nc_comment := c_comment row;
                         nc_rating := c_rating row; nc_created_at := now e;
                         nc_username := username_of uid (users db) |} in
       ∃ db',
         app_handle e req db
         = Ok (Some CommentCreate, respond 200 (JsonNewComment created)) db'
         ∧ comments db' = comments db ++ [row]
         ∧ users db' = users db ∧ arcades db' = arcades db
         ∧ (∀ text r, comment = JStr text → rating = JNum r →
                      c_comment row = JStr text ∧ c_rating row = JNum r)
         ∧ ∀ u, NoDup (u_id <$> users db) → u ∈ users db → u_id u = uid →
                nc_username created = u_username u).
Proof.
  intros req comment rating Hauth.
  assert (Hroute : app_handle e req db
            = served CommentCreate (comment_create e id (Some uid) req) db).
  { subst req. rewrite route_comment_create.
    rewrite (authenticated_gated _ _ _ _ uid); [reflexivity|exact Hauth]. }
  rewrite Hroute. unfold served, bind, comment_create, js_not. cbn.
  fold comment rating.
  assert (Hfalsy : truthy comment = false ∨ truthy rating = false →
            negb (truthy comment) || negb (truthy rating) = true).
  { intros [-> | ->]; rewrite ?orb_true_r; reflexivity. }
  split; [|split].
  - intros H. rewrite (Hfalsy H). reflexivity.
  - intros H. rewrite Hfalsy; [reflexivity|]. right. rewrite H. reflexivity.
  - intros n Hc Hr Hid Hruns. rewrite Hc, Hr. cbn.
    unfold try_catch, bind, userId, ret. cbn.
    rewrite (pool_query_runs e _ db Hruns). cbn. rewrite Hid. cbn.
    eexists. split; [reflexivity|]. cbn.
    split; [reflexivity|]. split; [reflexivity|]. split; [reflexivity|]. split.
    + intros text r -> ->. split; reflexivity.
    + intros u Hnd Hu <-. by apply username_of_unique.
Qed.

(** C10. The comment update does no presence check: when the owner of a
    comment sends a body that lacks the text or the rating, the answer is
    never 400 and the update is sent with NULL for what is lacking. The
    rest is the engine's: when it refuses the statement the answer is 500
    and the table is as it was; when it runs it, the answer is 200 with
    the updated row, every row of the caller with that id is rewritten,
    and each lacking column is NULL in it. The same body sent to comment
    creation is answered 400. *)
Theorem C10_comment_update_has_no_presence_check e id n bearer body uid c db :
  let req := mk_request PUT ["api"; "comments"; id] bearer body in
  let comment := prop body "comment" in
  let rating := prop body "rating" in
  authenticateToken e req = inr uid →
  int_in id = Some n →
  c ∈ comments db → c_id c = n → c_user_id c = uid →
  missing body "comment" ∨ missing body "rating" →
  (∀ r, response_of (app_handle e req db) = Some r → status r ≠ 400)
  ∧ (raises (UpdateComment comment rating id uid) db = true →
     app_handle e req db
     = Ok (Some CommentUpdate, respond 500 (Send "Server error")) db)
  ∧ (runs (UpdateComment comment rating id uid) db →
     ∃ c' db',
       app_handle e req db
       = Ok (Some CommentUpdate, respond 200 (JsonComment c')) db'
       ∧ c' ∈ comments db' ∧ c_id c' = n ∧ c_user_id c' = uid
       ∧ comment_set cast comment rating c ∈ comments db'
       ∧ length (comments db') = length (comments db)
       ∧ Forall (λ x, c_id x = n → c_user_id x = uid →
                      (missing body "comment" → c_comment x = JNull)
                      ∧ (missing body "rating" → c_rating x = JNull))
           (comments db'))
  ∧ (∀ aid,
       let post := mk_request POST ["api"; "arcades"; aid; "comments"]
                     bearer body in
       authenticateToken e post = inr uid →
       app_handle e post db
       = Ok (Some CommentCreate,
             bad_request "Both comment and rating are required") db).
Proof.
  intros req comment rating Hauth Hid Hc Hcid Hcu Hmiss.
  assert (Hroute : app_handle e req db
            = served CommentUpdate (comment_update e id (Some uid) req) db).
  { subst req. rewrite route_comment_update.
    rewrite (authenticated_gated _ _ _ _ uid); [reflexivity|exact Hauth]. }
  assert (Howned : owned n uid c = true).
  { unfold owned. rewrite !bool_decide_eq_true_2 by done. reflexivity. }
  pose (upd := λ x, if owned n uid x then comment_set cast comment rating x else x).
  assert (Hsel : ∃ c' rows,
            upd <$> filter (λ x, owned n uid x = true) (comments db) = c' :: rows
            ∧ c' ∈ upd <$> comments db ∧ c_id c' = n ∧ c_user_id c' = uid).
  { assert (Hin : c ∈ filter (λ x, owned n uid x = true) (comments db))
      by (apply list_elem_of_filter; done).
    destruct (filter _ (comments db)) as [|x rows] eqn:E;
      [by apply elem_of_nil in Hin|].
    assert (Hx : x ∈ filter (λ x, owned n uid x = true) (comments db))
      by (rewrite E; left).
    apply list_elem_of_filter in Hx as [Hox Hx].
    exists (upd x), (upd <$> rows). split; [reflexivity|].
    split; [apply list_elem_of_fmap; by exists x|].
    unfold upd. rewrite Hox. cbn. by apply owned_row. }
  split; [|split; [|split]].
  - intros r. rewrite Hroute. unfold served, bind.
    rewrite (comment_update_eq e id n uid req db Hid). cbn.
    destruct (raises _ db); cbn.
    + intros [= <-]. discriminate.
    + case_bool_decide; intros [= <-]; discriminate.
  - intros Hdown. rewrite Hroute. unfold served, bind.
    rewrite (comment_update_eq e id n uid req db Hid). cbn.
    fold comment rating. rewrite Hdown. reflexivity.
  - intros Hruns. destruct Hsel as (c' & rows & Hrows & Hc' & Hid' & Hu').
    exists c', (set_comments (fmap upd) db).
    rewrite Hroute. unfold served, bind.
    rewrite (comment_update_eq e id n uid req db Hid). cbn.
    unfold runs in Hruns. fold comment rating. rewrite Hruns.
    fold upd. rewrite Hrows. cbn.
    split; [reflexivity|]. split; [exact Hc'|]. split; [exact Hid'|].
    split; [exact Hu'|]. split.
    + apply list_elem_of_fmap. exists c. split; [|exact Hc].
      unfold upd. by rewrite Howned.
    + split; [apply length_fmap|].
      apply Forall_fmap, Forall_forall. intros x _. cbn.
      unfold upd. destruct (owned n uid x) eqn:Ho; cbn.
      * intros _ _. unfold comment, rating, missing, prop.
        split; intros ->; reflexivity.
      * intros Hxn Hxu. exfalso. revert Ho. unfold owned.
        rewrite !bool_decide_eq_true_2 by done. discriminate.
  - intros aid post Hpost.
    apply (comment_create_rejects e aid bearer body uid db).
    + exact Hpost.
    + destruct Hmiss as [H|H]; apply missing_falsy in H; rewrite H;
        rewrite ?orb_true_r; reflexivity.
Qed.

(** ** Registration and the users table *)

Lemma keeps_users_ret {A} (a : A) : keeps_users (ret a).
Proof. intros db. reflexivity. Qed.

Lemma keeps_users_throw {A} : keeps_users (@throw A).
Proof. intros db. reflexivity. Qed.

Lemma keeps_users_bind {A B} (m : M A) (k : A → M B) :
  keeps_users m → (∀ a, keeps_users (k a)) → keeps_users (bind m k).
Proof.
  intros Hm Hk db. unfold bind. specialize (Hm db).
  destruct (m db) as [a db'|db']; cbn in *; [|exact Hm].
  rewrite Hk. exact Hm.
Qed.

Lemma keeps_users_try_catch {A} (m h : M A) :
  keeps_users m → keeps_users h → keeps_users (try_catch m h).
Proof.
  intros Hm Hh db. unfold try_catch. specialize (Hm db).
  destruct (m db) as [a db'|db']; cbn in *; [exact Hm|].
  rewrite Hh. exact Hm.
Qed.

Lemma exec_keeps_users t s db rows db' :
  not_insert_user s → exec cast t s db = Some (rows, db') → users db' = users db.
Proof.
  destruct s; cbn; try done; intros _ H;
    repeat (case_match; simplify_eq/=); simplify_option_eq; reflexivity.
Qed.

Lemma keeps_users_pool_query e s :
  not_insert_user s → keeps_users (pool_query e s).
Proof.
  intros Hs db. unfold pool_query.
  destruct (raises s db); [reflexivity|].
  destruct (exec cast (now e) s db) as [[rows db']|] eqn:E; [|reflexivity].
  cbn. eapply exec_keeps_users; eauto.
Qed.

Lemma keeps_users_if {A} (b : bool) (m1 m2 : M A) :
  keeps_users m1 → keeps_users m2 → keeps_users (if b then m1 else m2).
Proof. by destruct b. Qed.

Ltac keeps :=
  repeat first
    [ apply keeps_users_ret
    | apply keeps_users_throw
    | apply keeps_users_try_catch
    | apply keeps_users_if
    | apply keeps_users_pool_query; exact I
    | apply keeps_users_bind; [|intros ?]
    | progress unfold server_error, userId, first_row, compare
    | match goal with
      | |- keeps_users (match ?x with _ => _ end) => destruct x
      end ].

Lemma keeps_users_run_handler h e params user req :
  h ≠ Register → keeps_users (run_handler h e params user req).
Proof.
  intros Hh.
  destruct h; try done; unfold run_handler;
    try (destruct params as [|? [|? ?]]);
    unfold health, login, arcade_create, arcade_list, arcade_get,
      arcade_update, arcade_delete, comment_create, profile, comment_update,
      comment_delete, catch_all, test_db; keeps.
Qed.

Lemma sql_eq_eq a b : sql_eq a b = true → a = b.
Proof.
  destruct a, b; cbn; try discriminate; by intros ?%bool_decide_eq_true_1.
Qed.

(** [SELECT * FROM users WHERE email = $1] finds a row exactly when the
    table has the email, as the engine reads it. *)
Lemma select_by_email v us :
  v ≠ JNull →
  (v ∈ u_email <$> us ↔ filter (λ u, sql_eq (u_email u) v = true) us ≠ []).
Proof.
  intros Hv. split.
  - intros (u & -> & Hu)%list_elem_of_fmap Hnil.
    eapply (filter_nil_not_elem_of _ _ u); [exact Hnil| |exact Hu].
    cbn. destruct (u_email u); try done; cbn; by rewrite bool_decide_eq_true_2.
  - intros Hne.
    destruct (filter _ us) as [|u rows] eqn:E; [done|].
    assert (Hu : u ∈ filter (λ u, sql_eq (u_email u) v = true) us)
      by (rewrite E; left).
    apply list_elem_of_filter in Hu as [Heq Hu].
    apply list_elem_of_fmap. exists u. split; [|exact Hu].
    symmetry. by apply sql_eq_eq.
Qed.

Lemma bound_not_null c v :
  truthy v = true → (∀ w, truthy w = true → cast c w ≠ JNull) →
  bound cast c v ≠ JNull.
Proof.
  intros Hv Hc. unfold bound. rewrite (truthy_prepareValue v Hv).
  destruct v; try discriminate; destruct (of_type _ _); try discriminate;
    by apply Hc.
Qed.

(** Registration past its validation, statement by statement. *)
Lemma register_eq e req db :
  let username := prop (req_body req) "username" in
  let email := prop (req_body req) "email" in
  let password := prop (req_body req) "password" in
  truthy username = true → truthy email = true → truthy password = true →
  register e req db
  = if raises (SelectUserByEmail email) db
    then Ok (respond 500 (Send "Server error")) db
    else match filter (λ u, sql_eq (u_email u) (bound cast Email email) = true)
                 (users db) with
         | _ :: _ => Ok (respond 400 (JsonMsg "User already exists")) db
         | [] =>
             match password with
             | JStr p =>
                 let hashed := JStr (bcrypt_hash p (salt e)) in
                 let row := {| u_id := users_seq db;
                               u_username := bound cast Username username;
                               u_email := bound cast Email email;
                               u_password := hashed |} in
                 let db' := set_users (λ l, l ++ [row]) (bump_users_seq db) in
                 if raises (InsertUser username email hashed) db
                 then Ok (respond 500 (Send "Server error")) db
                 else if String.eqb JWT_SECRET EmptyString
                 then Ok (respond 500 (Send "Server error")) db'
                 else Ok (respond 201
                            (JsonAuth
                               (jwt_sign (users_seq db) JWT_SECRET (now e)) row))
                        db'
             | _ => Ok (respond 500 (Send "Server error")) db
             end
         end.
Proof.
  intros username email password Hu He Hp.
  unfold register, js_not. fold username email password.
  rewrite Hu, He, Hp. cbn.
  unfold try_catch, bind, pool_query.
  destruct (raises (SelectUserByEmail email) db); [reflexivity|]. cbn.
  destruct (filter _ (users db)) as [|u rows] eqn:E.
  - rewrite bool_decide_eq_false_2 by (cbn; lia).
    destruct password; try reflexivity. cbn.
    destruct (raises _ db); [reflexivity|]. cbn.
    unfold sign. destruct (String.eqb JWT_SECRET EmptyString); reflexivity.
  - rewrite bool_decide_eq_true_2 by (cbn; lia). reflexivity.
Qed.

(** The same for an email that is a string, which the engine keeps. *)
Lemma register_text_eq e req db m :
  let username := prop (req_body req) "username" in
  let password := prop (req_body req) "password" in
  prop (req_body req) "email" = JStr m → m ≠ EmptyString →
  truthy username = true → truthy password = true →
  register e req db
  = if raises (SelectUserByEmail (JStr m)) db
    then Ok (respond 500 (Send "Server error")) db
    else if bool_decide (JStr m ∈ emails db)
    then Ok (respond 400 (JsonMsg "User already exists")) db
    else match password with
         | JStr p =>
             let hashed := JStr (bcrypt_hash p (salt e)) in
             let row := {| u_id := users_seq db;
                           u_username := bound cast Username username;
                           u_email := JStr m; u_password := hashed |} in
             let db' := set_users (λ l, l ++ [row]) (bump_users_seq db) in
             if raises (InsertUser username (JStr m) hashed) db
             then Ok (respond 500 (Send "Server error")) db
             else if String.eqb JWT_SECRET EmptyString
             then Ok (respond 500 (Send "Server error")) db'
             else Ok (respond 201
                        (JsonAuth (jwt_sign (users_seq db) JWT_SECRET (now e))
                           row))
                    db'
         | _ => Ok (respond 500 (Send "Server error")) db
         end.
Proof.
  intros username password Hm Hne Hu Hp.
  assert (He : truthy (prop (req_body req) "email") = true)
    by (rewrite Hm; destruct m; [done|reflexivity]).
  rewrite (register_eq e req db Hu He Hp). fold username password.
  rewrite Hm. change (bound cast Email (JStr m)) with (JStr m).
  destruct (raises _ db); [reflexivity|].
  pose proof (select_by_email (JStr m) (users db) ltac:(discriminate)) as Hsel.
  fold (emails db) in Hsel.
  destruct (filter _ (users db)) as [|u rows] eqn:E.
  - rewrite bool_decide_eq_false_2 by (rewrite Hsel; tauto). reflexivity.
  - rewrite bool_decide_eq_true_2 by (rewrite Hsel; done). reflexivity.
Qed.

(** Registration that fails its validation. *)
Lemma register_invalid e req db :
  truthy (prop (req_body req) "username") = false
  ∨ truthy (prop (req_body req) "email") = false
  ∨ truthy (prop (req_body req) "password") = false →
  register e req db = Ok (bad_request "All fields are required") db.
Proof.
  unfold register, js_not. intros [-> | [-> | ->]];
    rewrite ?orb_true_r; reflexivity.
Qed.

Lemma validated_or_not (a b c : jsval) :
  (truthy a = true ∧ truthy b = true ∧ truthy c = true)
  ∨ (truthy a = false ∨ truthy b = false ∨ truthy c = false).
Proof. destruct (truthy a), (truthy b), (truthy c); tauto. Qed.

(** A property that every handler leaves standing is left standing by
    serving a request. *)
Lemma dispatch_preserves (P : DB → Prop) e req :
  (∀ h params user, preserves P (run_handler h e params user req)) →
  ∀ ls, preserves P (dispatch ls e req).
Proof.
  intros Hh ls. induction ls as [|l ls IH]; intros db HP; [exact HP|].
  cbn. destruct (method_matches l (req_method req)); [|by apply IH].
  destruct (match_path (l_path l) (req_path req)) as [params|]; [|by apply IH].
  unfold bind.
  assert (H : P (db_of (run_layer l e params req db))).
  { unfold run_layer. destruct (l_gate l); [|by apply Hh].
    destruct (authenticateToken e req); [exact HP|by apply Hh]. }
  destruct (run_layer l e params req db) as [[r|] db'|db']; cbn in *.
  - exact H.
  - by apply IH.
  - exact H.
Qed.

Section UniqueEmails.

(** The engine reads no value that passed the validation as NULL. *)
Hypothesis cast_not_null : ∀ v, truthy v = true → cast Email v ≠ JNull.

Lemma register_unique_emails e req :
  preserves (λ db, NoDup (emails db)) (register e req).
Proof.
  intros db Hnd.
  destruct (validated_or_not (prop (req_body req) "username")
              (prop (req_body req) "email") (prop (req_body req) "password"))
    as [(Hu & He & Hp) | Hinv].
  - rewrite (register_eq e req db Hu He Hp). cbn.
    destruct (raises _ db); [exact Hnd|].
    pose proof (select_by_email _ (users db)
                  (bound_not_null Email _ He cast_not_null)) as Hsel.
    destruct (filter _ (users db)) as [|u rows] eqn:E; [|exact Hnd].
    destruct (prop (req_body req) "password"); try exact Hnd.
    destruct (raises _ db); [exact Hnd|].
    assert (Hrow : ∀ row,
              u_email row = bound cast Email (prop (req_body req) "email") →
              NoDup (emails (set_users (λ l, l ++ [row]) (bump_users_seq db)))).
    { intros row Hrow. unfold emails. cbn. rewrite fmap_app. cbn.
      apply NoDup_app. split; [exact Hnd|]. split; [|apply NoDup_singleton].
      intros x Hx Hx'. apply list_elem_of_singleton in Hx' as ->.
      rewrite Hrow in Hx. apply Hsel in Hx. by apply Hx. }
    destruct (String.eqb JWT_SECRET EmptyString); cbn; by apply Hrow.
  - rewrite (register_invalid e req db Hinv). exact Hnd.
Qed.

Lemma run_handler_unique_emails h e params user req :
  preserves (λ db, NoDup (emails db)) (run_handler h e params user req).
Proof.
  destruct (decide (h = Register)) as [-> | Hne].
  - intros db Hnd. cbn. unfold bind.
    pose proof (register_unique_emails e req db Hnd) as H.
    destruct (register e req db); exact H.
  - intros db Hnd. unfold emails.
    by rewrite (keeps_users_run_handler _ e params user req Hne db).
Qed.

End UniqueEmails.

(** C2. A registration whose email is already in the users table inserts
    no row, whatever the engine does, and is answered 400 when the lookup
    runs, with the conflict message once the three fields are there;
    serving any request keeps the emails of the users table distinct;
    and a registration with a new email and a string password, when the
    signing secret is set and the engine runs both statements, appends
    the user with the salted hash as password and answers 201 with a
    token and that record. The email looked up and stored is the email
    as the engine reads it, [bound cast Email email]: the email itself
    when it is a string, and likewise the username. *)
Theorem C2_register_conflict_keeps_emails_unique e bearer body db :
  let req := mk_request POST ["api"; "auth"; "register"] bearer body in
  let username := prop body "username" in
  let email := prop body "email" in
  let password := prop body "password" in
  let stored := bound cast Email email in
  (stored ≠ JNull → stored ∈ emails db →
   users (db_of (app_handle e req db)) = users db
   ∧ (runs (SelectUserByEmail email) db →
      ∃ msg,
        app_handle e req db = Ok (Some Register, bad_request msg) db
        ∧ (truthy username = true → truthy email = true →
           truthy password = true → msg = "User already exists")))
  ∧ ((∀ v, truthy v = true → cast Email v ≠ JNull) →
     ∀ e' req',
       NoDup (emails db) → NoDup (emails (db_of (app_handle e' req' db))))
  ∧ (∀ p,
       stored ∉ emails db →
       truthy username = true → truthy email = true →
       password = JStr p → p ≠ EmptyString →
       JWT_SECRET ≠ EmptyString →
       runs (SelectUserByEmail email) db →
       runs (InsertUser username email (JStr (bcrypt_hash p (salt e)))) db →
       let row := {| u_id := users_seq db;
                     u_username := bound cast Username username;
                     u_email := stored;
                     u_password := JStr (bcrypt_hash p (salt e)) |} in
       ∃ db',
         app_handle e req db
         = Ok (Some Register,
               respond 201
                 (JsonAuth (jwt_sign (u_id row) JWT_SECRET (now e)) row)) db'
         ∧ users db' = users db ++ [row])
  ∧ (∀ name address, username = JStr name → email = JStr address →
       bound cast Username username = username ∧ stored = email).
Proof.
  intros req username email password stored.
  assert (Hroute : app_handle e req db = served Register (register e req) db)
    by apply route_register.
  split; [|split; [|split]].
  - intros Hnn Hin. rewrite Hroute. unfold served, bind.
    destruct (validated_or_not username email password)
      as [(Hu & He & Hp) | Hinv].
    + rewrite (register_eq e req db Hu He Hp). cbn.
      fold email stored. unfold runs.
      destruct (raises _ db); cbn.
      * split; [reflexivity|discriminate].
      * apply (select_by_email stored (users db) Hnn) in Hin.
        destruct (filter _ (users db)) as [|u rows]; [done|]. cbn.
        split; [reflexivity|]. intros _. eexists. split; [reflexivity|done].
    + rewrite (register_invalid e req db Hinv). cbn.
      split; [reflexivity|]. intros _. eexists. split; [reflexivity|].
      intros Hu He Hp. exfalso.
      unfold username, email, password, req in *. cbn in Hinv.
      destruct Hinv as [H|[H|H]]; congruence.
  - intros Hcast e' req' Hnd.
    apply (dispatch_preserves (λ db, NoDup (emails db)) e' req'); [|exact Hnd].
    intros h params user. by apply run_handler_unique_emails.
  - intros p Hnew Hu He Hp Hne Hsecret Hsel Hins. cbn zeta.
    assert (Hp' : truthy password = true).
    { rewrite Hp. cbn. destruct p; [done|reflexivity]. }
    rewrite Hroute. unfold served, bind.
    rewrite (register_eq e req db Hu He Hp'). cbn.
    fold username email password stored. unfold runs in Hsel, Hins.
    rewrite Hsel.
    destruct (filter _ (users db)) as [|u rows] eqn:E.
    + rewrite Hp, Hins.
      apply String.eqb_neq in Hsecret. rewrite Hsecret. cbn.
      eexists. split; reflexivity.
    + exfalso. apply Hnew.
      assert (Hu' : u ∈ filter (λ u, sql_eq (u_email u) stored = true) (users db))
        by (rewrite E; left).
      apply list_elem_of_filter in Hu' as [Heq Hu'].
      apply list_elem_of_fmap. exists u. split; [|exact Hu'].
      symmetry. by apply sql_eq_eq.
  - intros name address Hn Ha. subst stored. rewrite Hn, Ha. split; reflexivity.
Qed.

(** ** Tokens *)

Lemma register_token e req db code tk user db' :
  register e req db = Ok (respond code (JsonAuth tk user)) db' →
  tk = jwt_sign (u_id user) JWT_SECRET (now e).
Proof.
  unfold register, try_catch, bind, pool_query, hash, first_row, sign,
    server_error, ret, throw, respond.
  intros H. repeat (case_match; simplify_eq/=); reflexivity.
Qed.

Lemma login_token e req db code tk user db' :
  login e req db = Ok (respond code (JsonAuth tk user)) db' →
  tk = jwt_sign (u_id user) JWT_SECRET (now e).
Proof.
  unfold login, try_catch, bind, pool_query, compare, first_row, sign,
    server_error, ret, throw, respond.
  intros H. repeat (case_match; simplify_eq/=); reflexivity.
Qed.

Lemma jwt_verify_signed uid t0 t :
  (jwt_verify (jwt_sign uid JWT_SECRET t0) JWT_SECRET t = inr uid
   ↔ t < t0 + one_hour)
  ∧ (t0 + one_hour ≤ t →
     jwt_verify (jwt_sign uid JWT_SECRET t0) JWT_SECRET t
     = inl TokenExpiredError).
Proof.
  unfold jwt_verify, jwt_sign. cbn. rewrite String.eqb_refl. cbn.
  destruct (Z.leb_spec (t0 + one_hour) t) as [Hle | Hlt].
  - split; [|reflexivity]. split; [discriminate|lia].
  - split; [|lia]. split; [intros _; exact Hlt|reflexivity].
Qed.

(** C7. The token in the answer of a registration or a login carries the
    id of the user in that answer; checked with the server's secret at
    clock reading [t], it verifies to that id exactly while [t] is less
    than one hour past the reading at issuance, and from then on the
    check fails with the expired-token error. *)
Theorem C7_issued_token_verifies_for_one_hour e path bearer body db h code
    tk user db' :
  path = ["api"; "auth"; "register"] ∨ path = ["api"; "auth"; "login"] →
  app_handle e (mk_request POST path bearer body) db
  = Ok (h, respond code (JsonAuth tk user)) db' →
  tk_userId tk = u_id user
  ∧ tk_iat tk = now e
  ∧ (∀ t,
       (now e ≤ t < now e + one_hour →
        jwt_verify tk JWT_SECRET t = inr (u_id user))
       ∧ (jwt_verify tk JWT_SECRET t = inr (u_id user) ↔ t < now e + one_hour)
       ∧ (now e + one_hour ≤ t →
          jwt_verify tk JWT_SECRET t = inl TokenExpiredError))
  ∧ (∀ e2 req2,
       req_bearer req2 = Some tk →
       (now e2 < now e + one_hour →
        bearer_gate JWT_SECRET e2 req2 = inr (u_id user))
       ∧ (now e + one_hour ≤ now e2 →
          bearer_gate JWT_SECRET e2 req2 = inl (respond 401 Unauthenticated))).
Proof.
  intros Hpath Hres.
  assert (Htk : tk = jwt_sign (u_id user) JWT_SECRET (now e)).
  { destruct Hpath as [-> | ->].
    - rewrite route_register in Hres. unfold served, bind in Hres.
      destruct (register e _ db) as [r db1|db1] eqn:E; [|discriminate].
      cbn in Hres. injection Hres as _ -> ->.
      by eapply register_token.
    - rewrite route_login in Hres. unfold served, bind in Hres.
      destruct (login e _ db) as [r db1|db1] eqn:E; [|discriminate].
      cbn in Hres. injection Hres as _ -> ->.
      by eapply login_token. }
  subst tk. split; [reflexivity|]. split; [reflexivity|]. split.
  - intros t.
    pose proof (jwt_verify_signed (u_id user) (now e) t) as [Hiff Hexp].
    split; [|split].
    + intros [_ Hlt]. by apply Hiff.
    + exact Hiff.
    + exact Hexp.
  - intros e2 req2 Hb. unfold bearer_gate. rewrite Hb.
    pose proof (jwt_verify_signed (u_id user) (now e) (now e2)) as [Hiff Hexp].
    split.
    + intros Hlt. apply Hiff in Hlt. rewrite Hlt. reflexivity.
    + intros Hle. rewrite (Hexp Hle). reflexivity.
Qed.

(** ** The arcade listing *)

Lemma round_tenths_nearest s n :
  0 < n → Z.abs (2 * n * round_tenths s n - 20 * s) ≤ n.
Proof.
  intros Hn. unfold round_tenths.
  destruct (Z.leb_spec 0 s) as [Hs | Hs].
  - pose proof (Z.div_mod (20 * s + n) (2 * n) ltac:(lia)) as Hdm.
    pose proof (Z.mod_pos_bound (20 * s + n) (2 * n) ltac:(lia)) as Hb.
    set (q := (20 * s + n) / (2 * n)) in *. lia.
  - pose proof (Z.div_mod (20 * - s + n) (2 * n) ltac:(lia)) as Hdm.
    pose proof (Z.mod_pos_bound (20 * - s + n) (2 * n) ltac:(lia)) as Hb.
    set (q := (20 * - s + n) / (2 * n)) in *. lia.
Qed.

Lemma numeric_cells_ratings (cs : list comment_row) :
  Forall (λ c, numeric_or_null (c_rating c)) cs →
  numeric_cells (c_rating <$> cs)
  = Some (omap (λ c, match c_rating c with JNum n => Some n | _ => None end) cs).
Proof.
  induction 1 as [|c cs Hc _ IH]; [reflexivity|].
  cbn. destruct (c_rating c); try done; cbn; rewrite IH; reflexivity.
Qed.

Lemma average_of_ratings id db :
  Forall (λ c, numeric_or_null (c_rating c)) (comments db) →
  average_of (ratings_of id (comments db))
  = Some (coalesce (sql_round1 (sql_avg (ratings id db))) dec_zero).
Proof.
  intros Hty. unfold average_of, ratings_of, ratings, comments_of.
  rewrite numeric_cells_ratings; [reflexivity|].
  apply Forall_forall. intros c [_ Hc]%list_elem_of_filter.
  rewrite Forall_forall in Hty. by apply Hty.
Qed.

Lemma arcades_avg_rows as_ db :
  Forall (λ c, numeric_or_null (c_rating c)) (comments db) →
  arcades_avg as_ (comments db)
  = Some ((λ a, {| aa_arcade := a;
                   average_rating :=
                     coalesce (sql_round1 (sql_avg (ratings (a_id a) db)))
                       dec_zero |}) <$> as_).
Proof.
  intros Hty. induction as_ as [|a as_ IH]; [reflexivity|].
  cbn. rewrite (average_of_ratings _ _ Hty). cbn. rewrite IH. reflexivity.
Qed.

Lemma no_comments_no_ratings id db : comments_of id db = [] → ratings id db = [].
Proof. unfold ratings. intros ->. reflexivity. Qed.

(** C3. On a database whose rating cells are numbers or NULL, and when
    the engine runs the query, the arcade listing answers 200 with one row
    per arcade, in an order that is the engine's, in which
    [average_rating] is the mean of the arcade's ratings rounded to one
    decimal place, and exactly 0 when the arcade has no rating, in
    particular when it has no comment; ratings 3 and 5 give 4.0. *)
Theorem C3_arcade_list_average_rating e bearer body db :
  runs SelectArcadesAvg db →
  Forall (λ c, numeric_or_null (c_rating c)) (comments db) →
  ∃ rows,
    app_handle e (mk_request GET ["api"; "arcades"] bearer body) db
    = Ok (Some ArcadeList, respond 200 (JsonArcades rows)) db
    ∧ aa_arcade <$> rows ≡ₚ arcades db
    ∧ Forall (λ r,
        let id := a_id (aa_arcade r) in
        (comments_of id db = [] →
         average_rating r = {| dec_unscaled := 0; dec_scale := 0 |})
        ∧ (ratings id db = [] →
           average_rating r = {| dec_unscaled := 0; dec_scale := 0 |})
        ∧ (ratings id db ≠ [] →
           mean_to_one_decimal (average_rating r) (ratings id db))
        ∧ (ratings id db = [3; 5] →
           average_rating r = {| dec_unscaled := 40; dec_scale := 1 |}))
        rows.
Proof.
  intros Hruns Hty. eexists. split; [|split].
  - rewrite route_arcade_list. unfold served, arcade_list, try_catch, bind.
    rewrite (pool_query_runs e _ db Hruns). cbn.
    rewrite (arcades_avg_rows _ _ Hty). cbn. reflexivity.
  - rewrite <- list_fmap_compose. by rewrite list_fmap_id.
  - apply Forall_fmap, Forall_forall. intros a _. cbn.
    assert (Hnil : ratings (a_id a) db = [] →
              coalesce (sql_round1 (sql_avg (ratings (a_id a) db))) dec_zero
              = dec_zero) by (intros ->; reflexivity).
    split; [|split; [|split]].
    + intros H. by apply Hnil, no_comments_no_ratings.
    + exact Hnil.
    + intros Hne. destruct (ratings (a_id a) db) as [|x rs] eqn:E; [done|].
      unfold mean_to_one_decimal. cbn -[Z.mul Z.of_nat round_tenths sum_Z].
      split; [reflexivity|]. apply round_tenths_nearest. cbn. lia.
    + intros ->. reflexivity.
Qed.

(** ** Arcades *)

Lemma select_fresh_arcade (row : arcade_row) l :
  Forall (λ a, a_id a < a_id row) l →
  filter (λ a, a_id a = a_id row) (l ++ [row]) = [row].
Proof.
  intros Hfresh. rewrite filter_app, filter_cons_True by done.
  rewrite filter_nil.
  replace (filter _ l) with (@nil arcade_row); [reflexivity|].
  symmetry. induction Hfresh as [|a l Ha _ IH]; [reflexivity|].
  rewrite filter_cons_False by lia. exact IH.
Qed.

(** C4. An arcade created from a body that carries the five fields, when
    the engine runs the statements and the id sequence is ahead of the
    table, is answered with a record whose fields are what the engine
    stored for the five values given, and reading the arcade back by the
    returned id answers that same record. The fields are exactly the
    values given when these are strings, with a boolean for
    [serves_alcohol]. *)
Theorem C4_arcade_create_then_get_round_trip e e' bearer bearer' body body'
    uid db name address days_open hours_of_operation serves_alcohol :
  authenticateToken e (mk_request POST ["api"; "arcades"] bearer body)
  = inr uid →
  body !! "name" = Some name →
  body !! "address" = Some address →
  body !! "days_open" = Some days_open →
  body !! "hours_of_operation" = Some hours_of_operation →
  body !! "serves_alcohol" = Some serves_alcohol →
  arcades_fresh db →
  runs (InsertArcade name address days_open hours_of_operation serves_alcohol) db →
  ∃ a db1,
    app_handle e (mk_request POST ["api"; "arcades"] bearer body) db
    = Ok (Some ArcadeCreate, respond 200 (JsonArcade a)) db1
    ∧ a_name a = bound cast Name name
    ∧ a_address a = bound cast Address address
    ∧ a_days_open a = bound cast DaysOpen days_open
    ∧ a_hours_of_operation a = bound cast HoursOfOperation hours_of_operation
    ∧ a_serves_alcohol a = bound cast ServesAlcohol serves_alcohol
    ∧ (Forall (λ v, of_type Text v = true)
         [name; address; days_open; hours_of_operation] →
       of_type Boolean serves_alcohol = true →
       a_name a = name ∧ a_address a = address ∧ a_days_open a = days_open
       ∧ a_hours_of_operation a = hours_of_operation
       ∧ a_serves_alcohol a = serves_alcohol)
    ∧ ∀ id,
        int_in id = Some (a_id a) →
        runs (SelectArcadeById id) db1 →
        app_handle e' (mk_request GET ["api"; "arcades"; id] bearer' body') db1
        = Ok (Some ArcadeGet, respond 200 (JsonArcade a)) db1.
Proof.
  intros Htk Hn Ha Hd Hh Hs Hfresh Hruns.
  eexists. eexists.
  split; [|split; [|split; [|split; [|split; [|split; [|split]]]]]].
  - rewrite route_arcade_create.
    rewrite (authenticated_gated _ _ _ _ uid) by exact Htk.
    unfold served, arcade_create, try_catch, prop, bind. cbn.
    rewrite Hn, Ha, Hd, Hh, Hs. cbn.
    rewrite (pool_query_runs e _ db Hruns). cbn. reflexivity.
  - reflexivity.
  - reflexivity.
  - reflexivity.
  - reflexivity.
  - reflexivity.
  - intros Htext Hbool. rewrite !Forall_cons in Htext.
    destruct Htext as (Tn & Ta & Td & Th & _). cbn.
    rewrite !bound_typed by done. done.
  - intros id Hid Hruns'. cbn in Hid.
    rewrite route_arcade_get. unfold served, arcade_get, try_catch, bind.
    rewrite (pool_query_runs e' _ _ Hruns'). cbn. rewrite Hid. cbn.
    match goal with
    | |- context [filter ?P (arcades db ++ [?row])] =>
        change (filter P (arcades db ++ [row]))
          with (filter (λ a, a_id a = a_id row) (arcades db ++ [row]));
        rewrite (select_fresh_arcade row (arcades db)) by exact Hfresh
    end.
    reflexivity.
Qed.

(** ** The id sequence of the arcades *)

Lemma exec_arcades_fresh t s db rows db' :
  exec cast t s db = Some (rows, db') → arcades_fresh db → arcades_fresh db'.
Proof.
  unfold arcades_fresh.
  destruct s; cbn; intros H Hfresh; simplify_option_eq; cbn; try exact Hfresh.
  - apply Forall_app. split.
    + eapply Forall_impl; [exact Hfresh|]. cbn. intros; lia.
    + apply Forall_singleton. cbn. lia.
  - apply Forall_fmap. eapply Forall_impl; [exact Hfresh|].
    intros a Ha. cbn. by case_bool_decide.
  - apply Forall_forall. intros a [_ Ha]%list_elem_of_filter.
    rewrite Forall_forall in Hfresh. by apply Hfresh.
Qed.

Section Preserved.
Variable P : DB → Prop.
Hypothesis exec_P :
  ∀ t s db rows db', exec cast t s db = Some (rows, db') → P db → P db'.

Lemma preserves_ret {A} (a : A) : preserves P (ret a).
Proof. by intros db. Qed.

Lemma preserves_throw {A} : preserves P (@throw A).
Proof. by intros db. Qed.

Lemma preserves_bind {A B} (m : M A) (k : A → M B) :
  preserves P m → (∀ a, preserves P (k a)) → preserves P (bind m k).
Proof.
  intros Hm Hk db HP. unfold bind. specialize (Hm db HP).
  destruct (m db) as [a db'|db']; cbn in *; [by apply Hk|exact Hm].
Qed.

Lemma preserves_try_catch {A} (m h : M A) :
  preserves P m → preserves P h → preserves P (try_catch m h).
Proof.
  intros Hm Hh db HP. unfold try_catch. specialize (Hm db HP).
  destruct (m db) as [a db'|db']; cbn in *; [exact Hm|by apply Hh].
Qed.

Lemma preserves_if {A} (b : bool) (m1 m2 : M A) :
  preserves P m1 → preserves P m2 → preserves P (if b then m1 else m2).
Proof. by destruct b. Qed.

Lemma preserves_pool_query e s : preserves P (pool_query e s).
Proof.
  intros db HP. unfold pool_query.
  destruct (raises s db); [exact HP|].
  destruct (exec cast (now e) s db) as [[rows db']|] eqn:E; [|exact HP].
  cbn. eapply exec_P; eauto.
Qed.

Lemma preserves_run_handler h e params user req :
  preserves P (run_handler h e params user req).
Proof.
  destruct h; unfold run_handler;
    try (destruct params as [|? [|? ?]]);
    unfold health, register, login, arcade_create, arcade_list, arcade_get,
      arcade_update, arcade_delete, comment_create, profile, comment_update,
      comment_delete, catch_all, test_db;
    repeat first
      [ apply preserves_ret
      | apply preserves_throw
      | apply preserves_try_catch
      | apply preserves_if
      | apply preserves_pool_query
      | apply preserves_bind; [|intros ?]
      | progress unfold server_error, userId, first_row, compare, hash
      | match goal with
        | |- preserves P (match ?x with _ => _ end) => destruct x
        end ].
Qed.
End Preserved.

Lemma arcades_fresh_empty : arcades_fresh empty_db.
Proof. constructor. Qed.

(** Serving a request keeps the arcade id sequence ahead of the table. *)
Lemma arcades_fresh_invariant e req db :
  arcades_fresh db → arcades_fresh (db_of (app_handle e req db)).
Proof.
  apply (dispatch_preserves arcades_fresh e req).
  intros h params user. apply preserves_run_handler.
  intros t s. apply exec_arcades_fresh.
Qed.

(** ** The gate and the order of the routes *)

(** C8. The layers of the app that carry the gate are exactly those of
    arcade create, update and delete, comment create, update and delete,
    and the profile; a request to any of them whose credential is missing
    or does not verify is answered by the gate's rejection with the
    database untouched, whatever the handler or the engine would do; and
    the arcade listing and the arcade read go to their handlers with no
    look at the credential. *)
Theorem C8_gate_on_exactly_the_protected_routes :
  l_handler <$> filter (λ l, l_gate l = true) app = protected
  ∧ (∀ h id m path e bearer body db rejection,
       h ∈ protected →
       request_line h id = Some (m, path) →
       authenticateToken e (mk_request m path bearer body) = inl rejection →
       app_handle e (mk_request m path bearer body) db
       = Ok (Some h, rejection) db)
  ∧ (∀ e bearer body db,
       app_handle e (mk_request GET ["api"; "arcades"] bearer body) db
       = served ArcadeList (arcade_list e) db)
  ∧ (∀ e id bearer body db,
       app_handle e (mk_request GET ["api"; "arcades"; id] bearer body) db
       = served ArcadeGet (arcade_get e id) db).
Proof.
  split; [|split; [|split]].
  - reflexivity.
  - intros h id m path e bearer body db rejection Hh Hline Hauth.
    unfold protected in Hh.
    repeat (apply elem_of_cons in Hh as [-> | Hh]);
      try (by apply elem_of_nil in Hh);
      cbn in Hline; injection Hline as <- <-.
    + rewrite route_arcade_create. by apply rejected_gated.
    + rewrite route_arcade_update. by apply rejected_gated.
    + rewrite route_arcade_delete. by apply rejected_gated.
    + rewrite route_comment_create. by apply rejected_gated.
    + rewrite route_profile. by apply rejected_gated.
    + rewrite route_comment_update. by apply rejected_gated.
    + rewrite route_comment_delete. by apply rejected_gated.
  - intros. apply route_arcade_list.
  - intros. apply route_arcade_get.
Qed.

Lemma dispatch_app_cases ls1 ls2 e req db h r db' :
  dispatch (ls1 ++ ls2) e req db = Ok (Some h, r) db' →
  h ∈ l_handler <$> ls1
  ∨ ∃ db1, dispatch ls2 e req db1 = Ok (Some h, r) db'.
Proof.
  revert db. induction ls1 as [|l ls1 IH]; intros db H.
  - right. by exists db.
  - cbn in H.
    assert (Hrest : ∀ db0, dispatch (ls1 ++ ls2) e req db0 = Ok (Some h, r) db' →
              h ∈ l_handler <$> l :: ls1
              ∨ ∃ db1, dispatch ls2 e req db1 = Ok (Some h, r) db').
    { intros db0 H0. destruct (IH db0 H0) as [Hin | Hex]; [left|by right].
      rewrite fmap_cons. by right. }
    destruct (method_matches l (req_method req)); [|by apply (Hrest db)].
    destruct (match_path (l_path l) (req_path req)) as [params|];
      [|by apply (Hrest db)].
    unfold bind in H.
    destruct (run_layer l e params req db) as [[resp|] db0|db0];
      [|by apply (Hrest db0)|discriminate].
    cbn in H. unfold ret in H. simplify_eq. left. rewrite fmap_cons. left.
Qed.

Lemma catch_all_shadows e req db1 h r db' :
  dispatch (drop 13 app) e req db1 = Ok (Some h, r) db' → h ≠ TestDb.
Proof.
  cbn. destruct (req_method req) eqn:Hm; cbn.
  - unfold bind, catch_all, ret. cbn. intros H. by simplify_eq.
  - discriminate.
  - discriminate.
  - discriminate.
Qed.

(** C9. A GET of [/test-db] is answered by the catch-all route with the
    index page of the client build, unless the build itself has a file
    of that name, which then is what is sent; it is never the handler
    registered for [/test-db] that answers, for this or any request, so
    the arcades query result is never the answer. *)
Theorem C9_test_db_is_shadowed_by_the_catch_all e bearer body db :
  let req := mk_request GET ["test-db"] bearer body in
  (build_file ["test-db"] = None →
   app_handle e req db
   = Ok (Some CatchAll, respond 200 (SendFile index_html)) db)
  ∧ (∃ h f,
       app_handle e req db = Ok (Some h, respond 200 (SendFile f)) db
       ∧ h ≠ TestDb)
  ∧ (∀ e' req' db0 h r db', 
       app_handle e' req' db0 = Ok (h, r) db' → h ≠ Some TestDb).
Proof.
  intros req.
  assert (Hcases : app_handle e req db
            = match build_file ["test-db"] with
              | Some f => Ok (Some Static, respond 200 (SendFile f)) db
              | None => Ok (Some CatchAll, respond 200 (SendFile index_html)) db
              end).
  { unfold app_handle. cbn. unfold bind, ret, static. cbn.
    destruct (build_file ["test-db"]); reflexivity. }
  split; [|split].
  - intros Hnone. rewrite Hcases, Hnone. reflexivity.
  - rewrite Hcases. destruct (build_file ["test-db"]) as [f|].
    + exists Static, f. split; [reflexivity|done].
    + exists CatchAll, index_html. split; [reflexivity|done].
  - intros e' req' db0 h r db' H [= ->].
    unfold app_handle in H.
    rewrite <- (take_drop 13 app) in H.
    apply dispatch_app_cases in H as [Hin | [db1 H]].
    + apply list_elem_of_In in Hin. cbn in Hin. intuition discriminate.
    + by apply catch_all_shadows in H.
Qed.


(** ** Login *)

Lemma sql_eq_refl v : v ≠ JNull → sql_eq v v = true.
Proof. destruct v; cbn; try done; intros _; by rewrite bool_decide_eq_true_2. Qed.

Lemma select_by_email_unique v row us :
  NoDup (u_email <$> us) → row ∈ us → u_email row = v → v ≠ JNull →
  filter (λ u, sql_eq (u_email u) v = true) us = [row].
Proof.
  intros Hnd Hrow Hemail Hv.
  induction us as [|u us IH]; [by apply elem_of_nil in Hrow|].
  cbn in Hnd. apply NoDup_cons in Hnd as [Hu Hnd].
  apply elem_of_cons in Hrow as [<- | Hrow].
  - rewrite filter_cons_True by (rewrite Hemail; by apply sql_eq_refl).
    f_equal. destruct (filter _ us) as [|w ws] eqn:E; [reflexivity|].
    exfalso. apply Hu.
    assert (Hw : w ∈ filter (λ u, sql_eq (u_email u) v = true) us)
      by (rewrite E; left).
    apply list_elem_of_filter in Hw as [Heq Hw].
    apply sql_eq_eq in Heq. rewrite Hemail, <- Heq.
    apply list_elem_of_fmap. by exists w.
  - rewrite filter_cons_False; [by apply IH|].
    intros Heq%sql_eq_eq. apply Hu. rewrite Heq, <- Hemail.
    apply list_elem_of_fmap. by exists row.
Qed.

(** Login past its validation, statement by statement. *)
Lemma login_eq e req db :
  let email := prop (req_body req) "email" in
  let password := prop (req_body req) "password" in
  truthy email = true → truthy password = true →
  login e req db
  = if raises (SelectUserByEmail email) db
    then Ok (respond 500 (Send "Server error")) db
    else match filter (λ u, sql_eq (u_email u) (bound cast Email email) = true)
                 (users db) with
         | [] => Ok (respond 400 (JsonMsg "Invalid credentials")) db
         | row :: _ =>
             match password, u_password row with
             | JStr p, JStr h =>
                 if bcrypt_compare p h
                 then if String.eqb JWT_SECRET EmptyString
                      then Ok (respond 500 (Send "Server error")) db
                      else Ok (respond 200
                                 (JsonAuth
                                    (jwt_sign (u_id row) JWT_SECRET (now e)) row))
                             db
                 else Ok (respond 400 (JsonMsg "Invalid credentials")) db
             | _, _ => Ok (respond 500 (Send "Server error")) db
             end
         end.
Proof.
  intros email password He Hp.
  unfold login, js_not. fold email password. rewrite He, Hp. cbn.
  unfold try_catch, bind, pool_query.
  destruct (raises (SelectUserByEmail email) db); [reflexivity|]. cbn.
  destruct (filter _ (users db)) as [|row rows]; [reflexivity|]. cbn.
  unfold compare.
  destruct password; try reflexivity.
  destruct (u_password row); try reflexivity. cbn.
  destruct (bcrypt_compare s s0); [|reflexivity]. cbn.
  unfold sign. destruct (String.eqb JWT_SECRET EmptyString); reflexivity.
Qed.

Lemma truthy_text s : s ≠ EmptyString → truthy (JStr s) = true.
Proof. destruct s; [done|reflexivity]. Qed.

(** X1. A login with an email, a string, that no user has and a login
    with the wrong password for an existing user get the same answer,
    400 "Invalid credentials", and leave the database as it was. *)
Theorem X1_login_failures_are_alike e bearer body db m :
  let req := mk_request POST ["api"; "auth"; "login"] bearer body in
  let password := prop body "password" in
  prop body "email" = JStr m → m ≠ EmptyString →
  truthy password = true →
  runs (SelectUserByEmail (JStr m)) db →
  (JStr m ∉ emails db →
   app_handle e req db
   = Ok (Some Login, bad_request "Invalid credentials") db)
  ∧ (∀ row p h,
       NoDup (emails db) → row ∈ users db → u_email row = JStr m →
       password = JStr p → u_password row = JStr h →
       bcrypt_compare p h = false →
       app_handle e req db
       = Ok (Some Login, bad_request "Invalid credentials") db).
Proof.
  intros req password Hm Hne Hp Hruns. subst req.
  rewrite route_login. unfold served, bind.
  rewrite (login_eq e (mk_request POST ["api"; "auth"; "login"] bearer body) db)
    by (cbn; rewrite ?Hm; try done; by apply truthy_text).
  cbn. fold password. rewrite Hm.
  change (bound cast Email (JStr m)) with (JStr m).
  unfold runs in Hruns. rewrite Hruns.
  split.
  - intros Hnew.
    destruct (filter _ (users db)) as [|u rows] eqn:E; [reflexivity|].
    exfalso. apply Hnew.
    apply (select_by_email (JStr m) (users db)); [done|]. by rewrite E.
  - intros row p h Hnd Hrow Hemail Hpw Hh Hcmp.
    rewrite (select_by_email_unique (JStr m) row (users db) Hnd Hrow Hemail)
      by done.
    rewrite Hpw, Hh, Hcmp. reflexivity.
Qed.

(** X2. A user who has just registered can log in: when the signing
    secret is set and the hashing library accepts a password against its
    own hash, a login with the email and password of a successful
    registration, all of them strings, is answered 200 with a token for
    the new user and the record the registration created. *)
Theorem X2_register_then_login e e' bearer bearer' body body' u m p db :
  prop body "username" = JStr u → prop body "email" = JStr m →
  prop body "password" = JStr p →
  u ≠ EmptyString → m ≠ EmptyString → p ≠ EmptyString →
  prop body' "email" = JStr m → prop body' "password" = JStr p →
  JWT_SECRET ≠ EmptyString →
  JStr m ∉ emails db →
  runs (SelectUserByEmail (JStr m)) db →
  runs (InsertUser (JStr u) (JStr m) (JStr (bcrypt_hash p (salt e)))) db →
  bcrypt_compare p (bcrypt_hash p (salt e)) = true →
  ∃ row db1,
    app_handle e (mk_request POST ["api"; "auth"; "register"] bearer body) db
    = Ok (Some Register,
          respond 201 (JsonAuth (jwt_sign (u_id row) JWT_SECRET (now e)) row))
        db1
    ∧ u_username row = JStr u ∧ u_email row = JStr m
    ∧ (runs (SelectUserByEmail (JStr m)) db1 →
       app_handle e' (mk_request POST ["api"; "auth"; "login"] bearer' body') db1
       = Ok (Some Login,
             respond 200 (JsonAuth (jwt_sign (u_id row) JWT_SECRET (now e')) row))
           db1).
Proof.
  intros Hu Hm Hp Hu0 Hm0 Hp0 Hm' Hp' Hsecret Hnew Hsel Hins Hcmp.
  apply String.eqb_neq in Hsecret.
  exists {| u_id := users_seq db; u_username := JStr u; u_email := JStr m;
            u_password := JStr (bcrypt_hash p (salt e)) |}.
  eexists. split; [|split; [reflexivity|split; [reflexivity|]]].
  - rewrite route_register. unfold served, bind.
    rewrite (register_text_eq e _ db m);
      cbn; rewrite ?Hu, ?Hp; try done; try by apply truthy_text.
    unfold runs in Hsel, Hins.
    rewrite Hsel, (bool_decide_eq_false_2 _ Hnew), Hins, Hsecret. cbn.
    reflexivity.
  - intros Hsel1. rewrite route_login. unfold served, bind.
    rewrite (login_eq e' _ _);
      cbn; rewrite ?Hm', ?Hp'; try done; try by apply truthy_text.
    change (bound cast Email (JStr m)) with (JStr m).
    unfold runs in Hsel1. rewrite Hsel1.
    rewrite filter_app, filter_cons_True by (cbn; by apply bool_decide_eq_true_2).
    rewrite filter_nil.
    replace (filter _ (users db)) with (@nil user_row).
    + cbn. rewrite Hcmp, Hsecret. reflexivity.
    + symmetry. destruct (filter _ (users db)) as [|x rows] eqn:E; [done|].
      exfalso. apply Hnew.
      apply (select_by_email (JStr m) (users db)); [done|]. by rewrite E.
Qed.

(** ** Requests that only read *)

Lemma keeps_db_ret {A} (a : A) : keeps_db (ret a).
Proof. intros db. reflexivity. Qed.

Lemma keeps_db_throw {A} : keeps_db (@throw A).
Proof. intros db. reflexivity. Qed.

Lemma keeps_db_bind {A B} (m : M A) (k : A → M B) :
  keeps_db m → (∀ a, keeps_db (k a)) → keeps_db (bind m k).
Proof.
  intros Hm Hk db. unfold bind. specialize (Hm db).
  destruct (m db) as [a db'|db']; cbn in *; [|exact Hm].
  rewrite Hk. exact Hm.
Qed.

Lemma keeps_db_try_catch {A} (m h : M A) :
  keeps_db m → keeps_db h → keeps_db (try_catch m h).
Proof.
  intros Hm Hh db. unfold try_catch. specialize (Hm db).
  destruct (m db) as [a db'|db']; cbn in *; [exact Hm|].
  rewrite Hh. exact Hm.
Qed.

Lemma keeps_db_if {A} (b : bool) (m1 m2 : M A) :
  keeps_db m1 → keeps_db m2 → keeps_db (if b then m1 else m2).
Proof. by destruct b. Qed.

Lemma exec_reads t s db rows db' :
  reads s → exec cast t s db = Some (rows, db') → db' = db.
Proof.
  destruct s; cbn; try done; intros _ H; simplify_option_eq; reflexivity.
Qed.

Lemma keeps_db_pool_query e s : reads s → keeps_db (pool_query e s).
Proof.
  intros Hs db. unfold pool_query.
  destruct (raises s db); [reflexivity|].
  destruct (exec cast (now e) s db) as [[rows db']|] eqn:E; [|reflexivity].
  cbn. eapply exec_reads; eauto.
Qed.

Lemma keeps_db_run_handler h e params user req :
  read_only h = true → keeps_db (run_handler h e params user req).
Proof.
  intros Hh.
  destruct h; try discriminate; unfold run_handler;
    try (destruct params as [|? [|? ?]]);
    unfold health, login, arcade_list, arcade_get, profile, catch_all, test_db;
    repeat first
      [ apply keeps_db_ret
      | apply keeps_db_throw
      | apply keeps_db_try_catch
      | apply keeps_db_if
      | apply keeps_db_pool_query; exact I
      | apply keeps_db_bind; [|intros ?]
      | progress unfold server_error, userId, first_row, compare
      | match goal with
        | |- keeps_db (match ?x with _ => _ end) => destruct x
        end ].
Qed.

Lemma keeps_db_dispatch ls e req :
  Forall (λ l, method_matches l (req_method req) = true →
               read_only (l_handler l) = true) ls →
  keeps_db (dispatch ls e req).
Proof.
  induction 1 as [|l ls Hl _ IH]; intros db; [reflexivity|].
  cbn. destruct (method_matches l (req_method req)); [|apply IH].
  destruct (match_path (l_path l) (req_path req)) as [params|]; [|apply IH].
  unfold bind.
  assert (H : db_of (run_layer l e params req db) = db).
  { unfold run_layer. destruct (l_gate l).
    - destruct (authenticateToken e req); [reflexivity|].
      by apply keeps_db_run_handler, Hl.
    - by apply keeps_db_run_handler, Hl. }
  destruct (run_layer l e params req db) as [[r|] db'|db']; cbn in *.
  - exact H.
  - rewrite IH. exact H.
  - exact H.
Qed.

(** X3. A GET request, whatever its path, credential and body, and a login
    leave the database exactly as it was, whether they succeed, fail or
    meet an engine that raises. *)
Theorem X3_reads_leave_the_database e req db :
  req_method req = GET
  ∨ (req_method req = POST ∧ req_path req = ["api"; "auth"; "login"]) →
  db_of (app_handle e req db) = db.
Proof.
  intros [Hget | [Hpost Hpath]].
  - apply keeps_db_dispatch. rewrite Hget.
    unfold app. repeat constructor; cbn; try done.
  - destruct req as [m path bearer body]. cbn in Hpost, Hpath. subst m path.
    fold (mk_request POST ["api"; "auth"; "login"] bearer body).
    rewrite route_login. unfold served.
    apply (keeps_db_bind (login e _) (λ r, ret (Some Login, r))).
    + pose proof (keeps_db_run_handler Login e [] None
                    (mk_request POST ["api"; "auth"; "login"] bearer body)
                    eq_refl) as H.
      intros db0. specialize (H db0). cbn in H. unfold bind in H.
      destruct (login e _ db0); exact H.
    + intros r. apply keeps_db_ret.
Qed.

(** ** Arcades, statement by statement *)

Lemma arcade_set_at n name address days_open hours serves a :
  a_id a = n →
  arcade_set cast name address days_open hours serves a
  = {| a_id := n; a_name := bound cast Name name;
       a_address := bound cast Address address;
       a_days_open := bound cast DaysOpen days_open;
       a_hours_of_operation := bound cast HoursOfOperation hours;
       a_serves_alcohol := bound cast ServesAlcohol serves |}.
Proof. intros <-. reflexivity. Qed.

Lemma select_arcade_none n (l : list arcade_row) :
  Forall (λ a, a_id a ≠ n) l → filter (λ a, a_id a = n) l = [].
Proof.
  induction 1 as [|a l Ha _ IH]; [reflexivity|].
  by rewrite filter_cons_False.
Qed.

Lemma select_arcade_some n a (l : list arcade_row) :
  a ∈ l → a_id a = n →
  ∃ a0 rows, filter (λ a, a_id a = n) l = a0 :: rows ∧ a0 ∈ l ∧ a_id a0 = n.
Proof.
  intros Ha Hid.
  assert (Hin : a ∈ filter (λ a, a_id a = n) l)
    by (apply list_elem_of_filter; done).
  destruct (filter _ l) as [|a0 rows] eqn:E; [by apply elem_of_nil in Hin|].
  assert (H0 : a0 ∈ filter (λ a, a_id a = n) l) by (rewrite E; left).
  apply list_elem_of_filter in H0 as [H0 H1]. by exists a0, rows.
Qed.

Lemma arcade_get_eq e id n db :
  int_in id = Some n →
  arcade_get e id db
  = if raises (SelectArcadeById id) db
    then Ok (respond 500 (Send "Server error")) db
    else Ok (match filter (λ a, a_id a = n) (arcades db) with
             | [] => arcade_not_found
             | a :: _ => respond 200 (JsonArcade a)
             end) db.
Proof.
  intros Hid. unfold arcade_get, try_catch, pool_query, bind.
  destruct (raises _ db); [reflexivity|]. cbn. rewrite Hid. cbn.
  destruct (filter _ (arcades db)); reflexivity.
Qed.

Lemma arcade_update_eq e id n req db :
  int_in id = Some n →
  let name := prop (req_body req) "name" in
  let address := prop (req_body req) "address" in
  let days_open := prop (req_body req) "days_open" in
  let hours := prop (req_body req) "hours_of_operation" in
  let serves := prop (req_body req) "serves_alcohol" in
  let upd a := if bool_decide (a_id a = n)
               then arcade_set cast name address days_open hours serves a else a in
  arcade_update e id req db
  = if raises (UpdateArcade name address days_open hours serves id) db
    then Ok (respond 500 (Send "Server error")) db
    else Ok (match filter (λ a, a_id a = n) (arcades db) with
             | [] => arcade_not_found
             | a :: _ => respond 200 (JsonArcade (upd a))
             end) (set_arcades (fmap upd) db).
Proof.
  intros Hid. cbn. unfold arcade_update, try_catch, pool_query, bind.
  destruct (raises _ db); [reflexivity|]. cbn. rewrite Hid. cbn.
  destruct (filter _ (arcades db)); reflexivity.
Qed.

Lemma arcade_delete_eq e id n db :
  int_in id = Some n →
  arcade_delete e id db
  = if raises (DeleteArcade id) db
    then Ok (respond 500 (Send "Server error")) db
    else Ok (match filter (λ a, a_id a = n) (arcades db) with
             | [] => arcade_not_found
             | a :: _ =>
                 respond 200 (JsonDeletedArcade "Arcade deleted successfully" a)
             end) (set_arcades (filter (λ a, a_id a ≠ n)) db).
Proof.
  intros Hid. unfold arcade_delete, try_catch, pool_query, bind.
  destruct (raises _ db); [reflexivity|]. cbn. rewrite Hid. cbn.
  destruct (filter _ (arcades db)); reflexivity.
Qed.

Lemma update_none_arcades n (f : arcade_row → arcade_row) (l : list arcade_row) :
  Forall (λ a, a_id a ≠ n) l →
  (λ a, if bool_decide (a_id a = n) then f a else a) <$> l = l.
Proof.
  induction 1 as [|a l Ha _ IH]; [reflexivity|].
  cbn. rewrite bool_decide_eq_false_2 by done. by f_equal.
Qed.

Lemma delete_none_arcades n (l : list arcade_row) :
  Forall (λ a, a_id a ≠ n) l → filter (λ a, a_id a ≠ n) l = l.
Proof.
  induction 1 as [|a l Ha _ IH]; [reflexivity|].
  rewrite filter_cons_True by done. by f_equal.
Qed.

(** X4. Updating an arcade whose id no row has is answered 404 and changes
    nothing. Updating an existing arcade, by any caller the gate lets
    through, is answered with the record of that id and of what the engine
    stored for the five values of the body (NULL for an absent one, the
    value itself for a string and for a boolean [serves_alcohol]),
    rewrites the rows of that id and no other row or table, and a read of
    the arcade afterwards returns the same record. *)
Theorem X4_arcade_update_then_get e id n uid bearer body db :
  let req := mk_request PUT ["api"; "arcades"; id] bearer body in
  let name := prop body "name" in
  let address := prop body "address" in
  let days_open := prop body "days_open" in
  let hours := prop body "hours_of_operation" in
  let serves := prop body "serves_alcohol" in
  let updated := {| a_id := n; a_name := bound cast Name name;
                    a_address := bound cast Address address;
                    a_days_open := bound cast DaysOpen days_open;
                    a_hours_of_operation := bound cast HoursOfOperation hours;
                    a_serves_alcohol := bound cast ServesAlcohol serves |} in
  authenticateToken e req = inr uid →
  int_in id = Some n →
  runs (UpdateArcade name address days_open hours serves id) db →
  (Forall (λ a, a_id a ≠ n) (arcades db) →
   app_handle e req db = Ok (Some ArcadeUpdate, arcade_not_found) db)
  ∧ (Forall (λ v, of_type Text v = true) [name; address; days_open; hours] →
     of_type Boolean serves = true →
     updated = {| a_id := n; a_name := name; a_address := address;
                  a_days_open := days_open; a_hours_of_operation := hours;
                  a_serves_alcohol := serves |})
  ∧ (∀ a, a ∈ arcades db → a_id a = n →
       ∃ db',
         app_handle e req db
         = Ok (Some ArcadeUpdate, respond 200 (JsonArcade updated)) db'
         ∧ arcades db'
           = (λ x, if bool_decide (a_id x = n) then updated else x)
               <$> arcades db
         ∧ users db' = users db ∧ comments db' = comments db
         ∧ ∀ e' bearer' body',
             runs (SelectArcadeById id) db' →
             app_handle e' (mk_request GET ["api"; "arcades"; id] bearer' body')
               db'
             = Ok (Some ArcadeGet, respond 200 (JsonArcade updated)) db').
Proof.
  intros req name address days_open hours serves updated Hauth Hid Hruns.
  assert (Hroute : app_handle e req db
            = served ArcadeUpdate (arcade_update e id req) db).
  { subst req. rewrite route_arcade_update.
    rewrite (authenticated_gated _ _ _ _ uid); [reflexivity|exact Hauth]. }
  rewrite Hroute. unfold served, bind.
  rewrite (arcade_update_eq e id n req db Hid). cbn -[app_handle].
  fold name address days_open hours serves.
  unfold runs in Hruns. rewrite Hruns.
  assert (Hmap : ∀ l : list arcade_row,
            (λ x, if bool_decide (a_id x = n)
                  then arcade_set cast name address days_open hours serves x
                  else x) <$> l
            = (λ x, if bool_decide (a_id x = n) then updated else x) <$> l).
  { intros l. apply list_fmap_ext. intros i x _. cbn.
    case_bool_decide as Hx; [|reflexivity]. by apply arcade_set_at. }
  split; [|split].
  - intros Hno. rewrite (select_arcade_none n _ Hno). cbn.
    unfold set_arcades. rewrite (update_none_arcades n _ _ Hno).
    by destruct db.
  - intros Htext Hbool. rewrite !Forall_cons in Htext.
    destruct Htext as (Tn & Ta & Td & Th & _). unfold updated.
    rewrite !bound_typed by done. reflexivity.
  - intros a Ha Hn.
    destruct (select_arcade_some n a _ Ha Hn) as (a0 & rows & Hsel & Ha0 & Hn0).
    rewrite Hsel. cbn -[app_handle]. rewrite (bool_decide_eq_true_2 _ Hn0).
    rewrite (arcade_set_at n _ _ _ _ _ a0 Hn0). fold updated.
    eexists. split; [reflexivity|].
    split; [apply Hmap|]. split; [reflexivity|]. split; [reflexivity|].
    intros e' bearer' body' Hruns'.
    rewrite route_arcade_get. unfold served, bind.
    rewrite (arcade_get_eq e' id n _ Hid). unfold runs in Hruns'.
    rewrite Hruns'. cbn [set_arcades arcades]. rewrite Hmap.
    assert (Hget : ∀ l : list arcade_row, a0 ∈ l →
              ∃ rows',
                filter (λ x, a_id x = n)
                  ((λ x, if bool_decide (a_id x = n) then updated else x) <$> l)
                = updated :: rows').
    { clear -Hn0. intros l. induction l as [|x l IH]; intros Hin.
      - by apply elem_of_nil in Hin.
      - rewrite fmap_cons. case_bool_decide as Hx.
        + rewrite filter_cons_True by reflexivity. eauto.
        + rewrite filter_cons_False by exact Hx.
          apply IH. apply elem_of_cons in Hin as [-> | Hin]; [done|exact Hin]. }
    destruct (Hget _ Ha0) as [rows' ->]. reflexivity.
Qed.

(** X5. Deleting an arcade whose id no row has is answered 404 and changes
    nothing. Deleting an existing arcade is answered with a deleted row of
    that id, removes the rows of that id and nothing else, leaves the
    comments table as it was, and a read of the arcade afterwards is
    answered 404. *)
Theorem X5_arcade_delete_then_get e id n uid bearer body db :
  let req := mk_request DELETE ["api"; "arcades"; id] bearer body in
  authenticateToken e req = inr uid →
  int_in id = Some n →
  runs (DeleteArcade id) db →
  (Forall (λ a, a_id a ≠ n) (arcades db) →
   app_handle e req db = Ok (Some ArcadeDelete, arcade_not_found) db)
  ∧ (∀ a, a ∈ arcades db → a_id a = n →
       ∃ a0 db',
         app_handle e req db
         = Ok (Some ArcadeDelete,
               respond 200 (JsonDeletedArcade "Arcade deleted successfully" a0))
             db'
         ∧ a0 ∈ arcades db ∧ a_id a0 = n
         ∧ arcades db' = filter (λ x, a_id x ≠ n) (arcades db)
         ∧ users db' = users db ∧ comments db' = comments db
         ∧ ∀ e' bearer' body',
             runs (SelectArcadeById id) db' →
             app_handle e' (mk_request GET ["api"; "arcades"; id] bearer' body')
               db'
             = Ok (Some ArcadeGet, arcade_not_found) db').
Proof.
  intros req Hauth Hid Hruns.
  assert (Hroute : app_handle e req db
            = served ArcadeDelete (arcade_delete e id) db).
  { subst req. rewrite route_arcade_delete.
    rewrite (authenticated_gated _ _ _ _ uid); [reflexivity|exact Hauth]. }
  rewrite Hroute. unfold served, bind.
  rewrite (arcade_delete_eq e id n db Hid). cbn -[app_handle].
  unfold runs in Hruns. rewrite Hruns.
  split.
  - intros Hno. rewrite (select_arcade_none n _ Hno). cbn.
    unfold set_arcades. rewrite (delete_none_arcades n _ Hno).
    by destruct db.
  - intros a Ha Hn.
    destruct (select_arcade_some n a _ Ha Hn) as (a0 & rows & Hsel & Ha0 & Hn0).
    rewrite Hsel. cbn -[app_handle]. exists a0. eexists. split; [reflexivity|].
    repeat (split; [done|]).
    intros e' bearer' body' Hruns'.
    rewrite route_arcade_get. unfold served, bind.
    rewrite (arcade_get_eq e' id n _ Hid). unfold runs in Hruns'.
    rewrite Hruns'. cbn [set_arcades arcades].
    rewrite select_arcade_none; [reflexivity|].
    apply Forall_forall. by intros x [Hx _]%list_elem_of_filter.
Qed.

(** X6. Arcade creation checks nothing in the body: for any body, once the
    gate lets the request through and the engine runs the insert, a row
    is appended under the next id of the sequence and answered 200, and
    every field the body lacks is NULL in it. *)
Theorem X6_arcade_create_takes_any_body e bearer body uid db :
  let req := mk_request POST ["api"; "arcades"] bearer body in
  authenticateToken e req = inr uid →
  runs (InsertArcade (prop body "name") (prop body "address")
          (prop body "days_open") (prop body "hours_of_operation")
          (prop body "serves_alcohol")) db →
  ∃ a db',
    app_handle e req db = Ok (Some ArcadeCreate, respond 200 (JsonArcade a)) db'
    ∧ a_id a = arcades_seq db
    ∧ arcades db' = arcades db ++ [a]
    ∧ arcades_seq db' = arcades_seq db + 1
    ∧ users db' = users db ∧ comments db' = comments db
    ∧ (missing body "name" → a_name a = JNull)
    ∧ (missing body "address" → a_address a = JNull)
    ∧ (missing body "days_open" → a_days_open a = JNull)
    ∧ (missing body "hours_of_operation" → a_hours_of_operation a = JNull)
    ∧ (missing body "serves_alcohol" → a_serves_alcohol a = JNull).
Proof.
  intros req Hauth Hruns. subst req.
  eexists. eexists. split.
  - rewrite route_arcade_create.
    rewrite (authenticated_gated _ _ _ _ uid) by exact Hauth.
    unfold served, arcade_create, try_catch, bind. cbn.
    rewrite (pool_query_runs e _ db Hruns). cbn. reflexivity.
  - cbn. repeat (split; [reflexivity|]).
    unfold missing, prop. repeat split; intros ->; reflexivity.
Qed.

(** X7. The arcades have no owner: for arcade creation, update and delete,
    two callers the gate lets through as different users, sending the same
    request otherwise, get the same answer and leave the same database. *)
Theorem X7_arcades_have_no_owner e h id m path bearer bearer' body uid uid' db :
  h ∈ [ArcadeCreate; ArcadeUpdate; ArcadeDelete] →
  request_line h id = Some (m, path) →
  authenticateToken e (mk_request m path bearer body) = inr uid →
  authenticateToken e (mk_request m path bearer' body) = inr uid' →
  app_handle e (mk_request m path bearer body) db
  = app_handle e (mk_request m path bearer' body) db.
Proof.
  intros Hh Hline Hauth Hauth'. revert Hauth Hauth'.
  apply list_elem_of_In in Hh. cbn in Hh.
  destruct Hh as [<- | [<- | [<- | []]]];
    cbn in Hline; injection Hline as <- <-; intros Hauth Hauth'.
  - rewrite !route_arcade_create.
    rewrite (authenticated_gated _ _ _ _ uid) by exact Hauth.
    rewrite (authenticated_gated _ _ _ _ uid') by exact Hauth'.
    reflexivity.
  - rewrite !route_arcade_update.
    rewrite (authenticated_gated _ _ _ _ uid) by exact Hauth.
    rewrite (authenticated_gated _ _ _ _ uid') by exact Hauth'.
    reflexivity.
  - rewrite !route_arcade_delete.
    rewrite (authenticated_gated _ _ _ _ uid) by exact Hauth.
    rewrite (authenticated_gated _ _ _ _ uid') by exact Hauth'.
    reflexivity.
Qed.

(** ** The profile *)

Lemma insert_desc_perm p l : insert_desc p l ≡ₚ p :: l.
Proof.
  induction l as [|q l IH]; [reflexivity|].
  cbn. destruct (_ <? _); [reflexivity|].
  rewrite IH. apply Permutation_swap.
Qed.

Lemma order_desc_perm l : order_desc l ≡ₚ l.
Proof.
  unfold order_desc. induction l as [|p l IH]; [reflexivity|].
  cbn. rewrite insert_desc_perm. by f_equiv.
Qed.

Lemma insert_desc_sorted p l : newest_first l → newest_first (insert_desc p l).
Proof.
  induction l as [|q l IH]; cbn.
  - intros _. split; [constructor|exact I].
  - intros [Hq Hl].
    destruct (Z.ltb_spec (c_created_at (pr_comment q))
                (c_created_at (pr_comment p))) as [Hlt | Hge]; cbn.
    + split; [|by split].
      constructor; [lia|].
      eapply Forall_impl; [exact Hq|]. cbn. intros; lia.
    + split; [|by apply IH].
      rewrite insert_desc_perm. constructor; [exact Hge|exact Hq].
Qed.

Lemma order_desc_sorted l : newest_first (order_desc l).
Proof.
  unfold order_desc. induction l as [|p l IH]; cbn.
  - exact I.
  - by apply insert_desc_sorted.
Qed.

Lemma elem_of_join_arcade r as_ c :
  r ∈ join_arcade as_ c
  ↔ ∃ a, r = {| pr_comment := c; arcade_name := a_name a |}
         ∧ a ∈ as_ ∧ a_id a = c_arcade_id c.
Proof.
  unfold join_arcade. rewrite list_elem_of_fmap.
  split; intros (a & Hr & Ha); exists a.
  - apply list_elem_of_filter in Ha as [? ?]. done.
  - destruct Ha as [? ?]. split; [done|]. by apply list_elem_of_filter.
Qed.

Lemma elem_of_profile_rows r uid db :
  r ∈ order_desc (filter (λ c, c_user_id c = uid) (comments db)
                    ≫= join_arcade (arcades db))
  ↔ ∃ c a, r = {| pr_comment := c; arcade_name := a_name a |}
           ∧ c ∈ comments db ∧ c_user_id c = uid
           ∧ a ∈ arcades db ∧ a_id a = c_arcade_id c.
Proof.
  rewrite order_desc_perm, list_elem_of_bind. split.
  - intros (c & Hr & Hc). apply list_elem_of_filter in Hc as [Hu Hc].
    apply elem_of_join_arcade in Hr as (a & -> & Ha & Hid).
    by exists c, a.
  - intros (c & a & -> & Hc & Hu & Ha & Hid). exists c. split.
    + apply elem_of_join_arcade. by exists a.
    + by apply list_elem_of_filter.
Qed.

Lemma profile_eq e uid db :
  profile e (Some uid) db
  = if raises (SelectProfile uid) db
    then Ok (respond 500 (Send "Server error")) db
    else Ok (respond 200
               (JsonProfile
                  (order_desc (filter (λ c, c_user_id c = uid) (comments db)
                                 ≫= join_arcade (arcades db))))) db.
Proof.
  unfold profile, try_catch, bind, pool_query, userId, ret.
  destruct (raises _ db); reflexivity.
Qed.

(** X8. The profile of a caller lists exactly the caller's own comments
    whose arcade exists, each with the name of that arcade, newest first,
    and changes nothing. *)
Theorem X8_profile_lists_own_comments_newest_first e bearer body uid db :
  let req := mk_request GET ["api"; "profile"] bearer body in
  authenticateToken e req = inr uid →
  runs (SelectProfile uid) db →
  ∃ rows,
    app_handle e req db = Ok (Some Profile, respond 200 (JsonProfile rows)) db
    ∧ (∀ r, r ∈ rows
            ↔ ∃ c a, r = {| pr_comment := c; arcade_name := a_name a |}
                     ∧ c ∈ comments db ∧ c_user_id c = uid
                     ∧ a ∈ arcades db ∧ a_id a = c_arcade_id c)
    ∧ newest_first rows.
Proof.
  intros req Hauth Hruns. subst req. eexists. split; [|split].
  - rewrite route_profile.
    rewrite (authenticated_gated _ _ _ _ uid) by exact Hauth.
    unfold served, bind. rewrite profile_eq.
    unfold runs in Hruns. rewrite Hruns. reflexivity.
  - intros r. apply elem_of_profile_rows.
  - apply order_desc_sorted.
Qed.

(** X9. Registration is not undone when the token cannot be signed. With
    no signing secret in the environment, a registration with a new
    email, all fields strings, stores the user and is answered 500
    "Server error"; the same registration sent again is answered 400
    "User already exists", and a login with the email and password just
    stored is answered 500 as well. *)
Theorem X9_registration_without_a_secret e e' bearer body u m p db :
  let req := mk_request POST ["api"; "auth"; "register"] bearer body in
  let login_req := mk_request POST ["api"; "auth"; "login"] bearer body in
  prop body "username" = JStr u → prop body "email" = JStr m →
  prop body "password" = JStr p →
  u ≠ EmptyString → m ≠ EmptyString → p ≠ EmptyString →
  JWT_SECRET = EmptyString →
  JStr m ∉ emails db →
  runs (SelectUserByEmail (JStr m)) db →
  runs (InsertUser (JStr u) (JStr m) (JStr (bcrypt_hash p (salt e)))) db →
  let row := {| u_id := users_seq db; u_username := JStr u; u_email := JStr m;
                u_password := JStr (bcrypt_hash p (salt e)) |} in
  ∃ db',
    app_handle e req db = Ok (Some Register, internal_error) db'
    ∧ users db' = users db ++ [row]
    ∧ (runs (SelectUserByEmail (JStr m)) db' →
       app_handle e' req db'
       = Ok (Some Register, bad_request "User already exists") db'
       ∧ (bcrypt_compare p (bcrypt_hash p (salt e)) = true →
          app_handle e' login_req db' = Ok (Some Login, internal_error) db')).
Proof.
  intros req login_req Hu Hm Hp Hu0 Hm0 Hp0 Hsecret Hnew Hsel Hins row.
  subst req login_req.
  assert (Hfound : ∀ l : list user_row,
            JStr m ∉ u_email <$> l →
            filter (λ x, sql_eq (u_email x) (JStr m) = true) (l ++ [row])
            = [row]).
  { intros l Hl. rewrite filter_app.
    rewrite (filter_cons_True _ row) by (cbn; by apply bool_decide_eq_true_2).
    rewrite filter_nil.
    destruct (filter _ l) as [|x rows] eqn:E; [reflexivity|].
    exfalso. apply Hl. apply (select_by_email (JStr m) l); [done|].
    by rewrite E. }
  subst row. eexists. split; [|split].
  - rewrite route_register. unfold served, bind.
    rewrite (register_text_eq e _ db m);
      cbn [req_body mk_request]; rewrite ?Hu, ?Hp; try done;
      try by apply truthy_text.
    unfold runs in Hsel, Hins.
    rewrite Hsel, (bool_decide_eq_false_2 _ Hnew), Hins, Hsecret. cbn.
    reflexivity.
  - reflexivity.
  - intros Hsel'. unfold runs in Hsel'. split.
    + rewrite route_register. unfold served, bind.
      rewrite (register_text_eq e' _ _ m);
        cbn [req_body mk_request]; rewrite ?Hu, ?Hp; try done;
        try by apply truthy_text.
      rewrite Hsel'. rewrite bool_decide_eq_true_2; [reflexivity|].
      unfold emails. cbn. rewrite fmap_app. apply elem_of_app. right.
      cbn. by left.
    + intros Hcmp. rewrite route_login. unfold served, bind.
      rewrite (login_eq e' _ _);
        cbn [req_body mk_request]; rewrite ?Hm, ?Hp; try done;
        try by apply truthy_text.
      change (bound cast Email (JStr m)) with (JStr m).
      rewrite Hsel'. cbn [users set_users bump_users_seq].
      rewrite (Hfound _ Hnew). cbn. rewrite Hcmp, Hsecret. reflexivity.
Qed.

(** ** Comments, statement by statement *)

Lemma comment_create_eq e id n uid req db :
  let comment := prop (req_body req) "comment" in
  let rating := prop (req_body req) "rating" in
  truthy comment = true → truthy rating = true →
  int_in id = Some n →
  comment_create e id (Some uid) req db
  = if raises (InsertComment uid id comment rating) db
    then Ok (respond 500 (Send "Server error")) db
    else
      let row := {| c_id := comments_seq db; c_user_id := uid; c_arcade_id := n;
                    c_comment := bound cast CommentText comment;
                    c_rating := bound cast Rating rating;
                    c_created_at := now e |} in
      Ok (respond 200
            (JsonNewComment
               {| nc_id := comments_seq db; nc_comment := c_comment row;
                  nc_rating := c_rating row; nc_created_at := now e;
                  nc_username := username_of uid (users db) |}))
        (set_comments (λ l, l ++ [row]) (bump_comments_seq db)).
Proof.
  intros comment rating Hc Hr Hid.
  unfold comment_create, js_not. fold comment rating. rewrite Hc, Hr. cbn.
  unfold try_catch, bind, pool_query, userId, ret.
  destruct (raises _ db); [reflexivity|]. cbn. rewrite Hid. reflexivity.
Qed.

Lemma ratings_after_insert m row db :
  ratings m (set_comments (λ l, l ++ [row]) (bump_comments_seq db))
  = ratings m db
    ++ (if decide (c_arcade_id row = m)
        then match c_rating row with JNum r => [r] | _ => [] end
        else []).
Proof.
  unfold ratings, comments_of. cbn [set_comments bump_comments_seq comments].
  rewrite filter_app, omap_app. f_equal.
  destruct (decide (c_arcade_id row = m)) as [Hm | Hm].
  - rewrite filter_cons_True by exact Hm. cbn. by destruct (c_rating row).
  - by rewrite filter_cons_False.
Qed.

Lemma round_tenths_whole r : round_tenths r 1 = 10 * r.
Proof.
  unfold round_tenths. destruct (Z.leb_spec 0 r).
  - symmetry. apply (Z.div_unique _ _ _ 1); lia.
  - assert (H' : (20 * - r + 1) / (2 * 1) = 10 * - r)
      by (symmetry; apply (Z.div_unique _ _ _ 1); lia).
    rewrite H'. lia.
Qed.

(** X10. A created comment enters the average of its arcade and of no
    other: its numeric rating is appended to the ratings of the arcade
    named in the path, and when it is the arcade's first rating the
    listing, whose order is the engine's, shows exactly that rating for
    the arcade, with one decimal. *)
Theorem X10_new_rating_enters_the_average e e' id n r uid bearer bearer'
    body body' db :
  let req := mk_request POST ["api"; "arcades"; id; "comments"] bearer body in
  authenticateToken e req = inr uid →
  truthy (prop body "comment") = true →
  prop body "rating" = JNum r → r ≠ 0 →
  int_in id = Some n →
  Forall (λ c, numeric_or_null (c_rating c)) (comments db) →
  runs (InsertComment uid id (prop body "comment") (JNum r)) db →
  ∃ resp db',
    app_handle e req db = Ok (Some CommentCreate, resp) db'
    ∧ status resp = 200
    ∧ ratings n db' = ratings n db ++ [r]
    ∧ (∀ m, m ≠ n → ratings m db' = ratings m db)
    ∧ (runs SelectArcadesAvg db' →
       ∃ rows,
         app_handle e' (mk_request GET ["api"; "arcades"] bearer' body') db'
         = Ok (Some ArcadeList, respond 200 (JsonArcades rows)) db'
         ∧ aa_arcade <$> rows ≡ₚ arcades db
         ∧ ∀ row, row ∈ rows → a_id (aa_arcade row) = n →
                  ratings n db = [] →
                  average_rating row = {| dec_unscaled := 10 * r; dec_scale := 1 |}).
Proof.
  intros req Hauth Hc Hr Hr0 Hid Hty Hruns. subst req.
  assert (Htr : truthy (prop body "rating") = true).
  { rewrite Hr. cbn. by destruct (Z.eqb_spec r 0). }
  eexists. eexists. split; [|split; [|split; [|split]]].
  - rewrite route_comment_create.
    rewrite (authenticated_gated _ _ _ _ uid) by exact Hauth.
    unfold served, bind.
    rewrite (comment_create_eq e id n uid
               (mk_request POST ["api"; "arcades"; id; "comments"] bearer body)
               db Hc Htr Hid).
    cbn [req_body mk_request]. rewrite Hr.
    unfold runs in Hruns. rewrite Hruns. reflexivity.
  - reflexivity.
  - rewrite ratings_after_insert. cbn. by rewrite decide_True.
  - intros m Hm. rewrite ratings_after_insert. cbn.
    rewrite decide_False by done. apply app_nil_r.
  - intros Hruns'.
    assert (Hty' : Forall (λ c, numeric_or_null (c_rating c))
                     (comments (set_comments
                        (λ l, l ++ [{| c_id := comments_seq db; c_user_id := uid;
                                       c_arcade_id := n;
                                       c_comment :=
                                         bound cast CommentText
                                           (prop body "comment");
                                       c_rating := JNum r;
                                       c_created_at := now e |}])
                        (bump_comments_seq db)))).
    { cbn. apply Forall_app. split; [exact Hty|]. by repeat constructor. }
    eexists. split; [|split].
    + rewrite route_arcade_list. unfold served, arcade_list, try_catch, bind.
      rewrite (pool_query_runs e' _ _ Hruns').
      cbn [exec]. rewrite (arcades_avg_rows _ _ Hty'). reflexivity.
    + rewrite <- list_fmap_compose. by rewrite list_fmap_id.
    + intros row (a & -> & Ha)%list_elem_of_fmap Hn Hnone.
      cbn in Hn. cbn [average_rating]. rewrite Hn.
      rewrite ratings_after_insert. cbn. rewrite decide_True by done.
      rewrite Hnone. cbn -[round_tenths Z.mul Z.add].
      by rewrite Z.add_0_r, round_tenths_whole.
Qed.

Lemma select_owned n uid c (l : list comment_row) :
  c ∈ l → c_id c = n → c_user_id c = uid →
  ∃ c0 rows,
    filter (λ x, owned n uid x = true) l = c0 :: rows
    ∧ c0 ∈ l ∧ c_id c0 = n ∧ c_user_id c0 = uid.
Proof.
  intros Hc Hn Hu.
  assert (Ho : owned n uid c = true).
  { unfold owned. by rewrite !bool_decide_eq_true_2. }
  assert (Hin : c ∈ filter (λ x, owned n uid x = true) l)
    by (by apply list_elem_of_filter).
  destruct (filter _ l) as [|c0 rows] eqn:E; [by apply elem_of_nil in Hin|].
  assert (H0 : c0 ∈ filter (λ x, owned n uid x = true) l) by (rewrite E; left).
  apply list_elem_of_filter in H0 as [H0 H1].
  apply owned_row in H0 as [? ?]. by exists c0, rows.
Qed.

Lemma owned_false n uid c :
  owned n uid c = false ↔ ¬ (c_id c = n ∧ c_user_id c = uid).
Proof.
  unfold owned. rewrite andb_false_iff, !bool_decide_eq_false. split.
  - intros [H | H] [? ?]; by apply H.
  - intros H. destruct (decide (c_id c = n)); [|by left].
    right. intros ?. by apply H.
Qed.

(** X11. The owner's delete of a comment is answered 200 with a deleted
    row of that id and owner, removes exactly the rows with that id and
    owner, touches no other table, and the same delete sent again is
    answered 404. *)
Theorem X11_comment_delete_by_owner e e' id n uid bearer body c db :
  let req := mk_request DELETE ["api"; "comments"; id] bearer body in
  authenticateToken e req = inr uid →
  authenticateToken e' req = inr uid →
  int_in id = Some n →
  c ∈ comments db → c_id c = n → c_user_id c = uid →
  runs (DeleteComment id uid) db →
  ∃ c0 db',
    app_handle e req db
    = Ok (Some CommentDelete,
          respond 200 (JsonDeletedComment "Comment deleted successfully" c0)) db'
    ∧ c0 ∈ comments db ∧ c_id c0 = n ∧ c_user_id c0 = uid
    ∧ (∀ x, x ∈ comments db'
            ↔ x ∈ comments db ∧ ¬ (c_id x = n ∧ c_user_id x = uid))
    ∧ users db' = users db ∧ arcades db' = arcades db
    ∧ (runs (DeleteComment id uid) db' →
       app_handle e' req db'
       = Ok (Some CommentDelete, not_found_or_unauthorized) db').
Proof.
  intros req Hauth Hauth' Hid Hc Hn Hu Hruns. subst req.
  destruct (select_owned n uid c _ Hc Hn Hu) as (c0 & rows & Hsel & Hc0 & Hn0 & Hu0).
  exists c0. eexists. split; [|split; [|split; [|split; [|split; [|split; [|split]]]]]].
  - rewrite route_comment_delete.
    rewrite (authenticated_gated _ _ _ _ uid) by exact Hauth.
    unfold served, bind. rewrite (comment_delete_eq e id n uid db Hid).
    cbn zeta. unfold runs in Hruns. rewrite Hruns, Hsel. reflexivity.
  - exact Hc0.
  - exact Hn0.
  - exact Hu0.
  - intros x. cbn [set_comments comments].
    rewrite list_elem_of_filter, owned_false. tauto.
  - reflexivity.
  - reflexivity.
  - intros Hruns'.
    rewrite route_comment_delete.
    rewrite (authenticated_gated _ _ _ _ uid) by exact Hauth'.
    unfold served, bind. rewrite (comment_delete_eq e' id n uid _ Hid).
    cbn zeta. unfold runs in Hruns'. rewrite Hruns'.
    assert (Hno : Forall (λ x, c_id x = n → c_user_id x ≠ uid)
                    (comments (set_comments
                                 (filter (λ x, owned n uid x = false)) db))).
    { cbn. apply Forall_forall. intros x [Hx _]%list_elem_of_filter.
      apply owned_false in Hx. intros ? ?. by apply Hx. }
    rewrite (not_owned_select n uid _ Hno).
    cbn [length]. rewrite bool_decide_eq_true_2 by reflexivity.
    cbn [ret]. f_equal.
    unfold set_comments at 1. cbn [users arcades comments users_seq arcades_seq comments_seq].
    rewrite (not_owned_delete n uid _ Hno). reflexivity.
Qed.

(** X12. The owner's update of a comment rewrites text and rating only,
    with what the engine stored for the values sent (NULL for an absent
    one, the value itself for a string text and a numeric rating): every
    row keeps its id, author, arcade and creation time, rows of another
    id or another author are left as they were, and no other table is
    touched. *)
Theorem X12_comment_update_keeps_the_rest e id n uid bearer body c db :
  let req := mk_request PUT ["api"; "comments"; id] bearer body in
  let comment := prop body "comment" in
  let rating := prop body "rating" in
  authenticateToken e req = inr uid →
  int_in id = Some n →
  c ∈ comments db → c_id c = n → c_user_id c = uid →
  runs (UpdateComment comment rating id uid) db →
  ∃ c' db',
    app_handle e req db
    = Ok (Some CommentUpdate, respond 200 (JsonComment c')) db'
    ∧ c_id c' = n ∧ c_user_id c' = uid
    ∧ c_comment c' = bound cast CommentText comment
    ∧ c_rating c' = bound cast Rating rating
    ∧ (∀ text, comment = JStr text → c_comment c' = JStr text)
    ∧ (∀ r, rating = JNum r → c_rating c' = JNum r)
    ∧ (missing body "comment" → c_comment c' = JNull)
    ∧ (missing body "rating" → c_rating c' = JNull)
    ∧ Forall2 (λ x y,
                 c_id y = c_id x ∧ c_user_id y = c_user_id x
                 ∧ c_arcade_id y = c_arcade_id x
                 ∧ c_created_at y = c_created_at x
                 ∧ (¬ (c_id x = n ∧ c_user_id x = uid) → y = x))
        (comments db) (comments db')
    ∧ users db' = users db ∧ arcades db' = arcades db.
Proof.
  intros req comment rating Hauth Hid Hc Hn Hu Hruns. subst req.
  destruct (select_owned n uid c _ Hc Hn Hu) as (c0 & rows & Hsel & Hc0 & Hn0 & Hu0).
  assert (Ho : owned n uid c0 = true).
  { unfold owned. by rewrite !bool_decide_eq_true_2. }
  exists (comment_set cast comment rating c0). eexists.
  split; [|split; [|split; [|split; [|split; [|split; [|split; [|split;
    [|split; [|split; [|split]]]]]]]]]].
  - rewrite route_comment_update.
    rewrite (authenticated_gated _ _ _ _ uid) by exact Hauth.
    unfold served, bind. rewrite (comment_update_eq e id n uid _ db Hid).
    cbn zeta. cbn [req_body mk_request]. fold comment rating.
    unfold runs in Hruns. rewrite Hruns, Hsel.
    rewrite fmap_cons, Ho. reflexivity.
  - exact Hn0.
  - exact Hu0.
  - reflexivity.
  - reflexivity.
  - intros text Htext. cbn. by rewrite Htext.
  - intros r Hr. cbn. by rewrite Hr.
  - unfold missing, comment, prop. cbn. by intros ->.
  - unfold missing, rating, prop. cbn. by intros ->.
  - cbn [set_comments comments]. apply Forall2_fmap_r, Forall_Forall2_diag.
    apply Forall_forall. intros x _. unfold compose. cbv beta.
    destruct (owned n uid x) eqn:Hx; cbn.
    + do 4 (split; [reflexivity|]). intros Hnot.
      apply owned_row in Hx. tauto.
    + do 4 (split; [reflexivity|]). reflexivity.
  - reflexivity.
  - reflexivity.
Qed.

(** ** No error escapes *)

Lemma answers_ret {A} (a : A) : answers (ret a).
Proof. intros db. by exists a, db. Qed.

Lemma answers_bind {A B} (m : M A) (k : A → M B) :
  answers m → (∀ a, answers (k a)) → answers (bind m k).
Proof.
  intros Hm Hk db. unfold bind. destruct (Hm db) as (a & db' & ->).
  apply Hk.
Qed.

Lemma answers_try_catch {A} (m h : M A) : answers h → answers (try_catch m h).
Proof.
  intros Hh db. unfold try_catch. destruct (m db) as [a db'|db']; [|apply Hh].
  by exists a, db'.
Qed.

Lemma answers_if {A} (b : bool) (m1 m2 : M A) :
  answers m1 → answers m2 → answers (if b then m1 else m2).
Proof. by destruct b. Qed.

Lemma match_segs_length ps path params :
  match_segs ps path = Some params →
  length params = length (filter (λ x, is_param x = true) ps).
Proof.
  revert path params. induction ps as [|p ps IH]; intros path params.
  - destruct path; cbn; [|discriminate]. by intros [= <-].
  - destruct p as [s|name], path as [|x path]; cbn [match_segs]; try discriminate.
    + destruct (String.eqb s x); [|discriminate].
      rewrite filter_cons_False by (cbn; discriminate). apply IH.
    + rewrite filter_cons_True by reflexivity.
      destruct (match_segs ps path) as [ps'|] eqn:E; [|discriminate].
      intros H. cbn in H. injection H as <-.
      cbn [length]. f_equal. by eapply IH.
Qed.

Lemma run_handler_answers h e params user req :
  (wants_param h = true → length params = 1%nat) →
  (wants_user h = true → is_Some user) →
  answers (run_handler h e params user req).
Proof.
  intros Hp Hu.
  assert (Hserver : answers server_error) by apply answers_ret.
  destruct h; cbn in Hp, Hu;
    try (destruct params as [|id [|? ?]]; try (specialize (Hp eq_refl); discriminate));
    try (destruct (Hu eq_refl) as [uid ->]);
    unfold run_handler, health, register, login, arcade_create, arcade_list,
      arcade_get, arcade_update, arcade_delete, comment_create, profile,
      comment_update, comment_delete, catch_all, test_db;
    repeat first
      [ apply answers_ret
      | apply answers_try_catch
      | apply answers_if
      | apply answers_bind; [|intros ?]
      | progress unfold userId ].
Qed.

Lemma dispatch_answers ls e req :
  Forall well_formed ls → answers (dispatch ls e req).
Proof.
  induction 1 as [|l ls [Hparam Huser] _ IH]; intros db.
  - by eexists _, _.
  - cbn [dispatch]. destruct (method_matches l (req_method req)); [|apply IH].
    destruct (match_path (l_path l) (req_path req)) as [params|] eqn:Hm;
      [|apply IH].
    assert (Hlen : wants_param (l_handler l) = true → length params = 1%nat).
    { intros Hw. specialize (Hparam Hw).
      destruct (l_path l) as [ps| |]; cbn in Hparam, Hm; try discriminate.
      rewrite <- Hparam. by eapply match_segs_length. }
    assert (Hlayer : answers (run_layer l e params req)).
    { unfold run_layer. destruct (l_gate l) eqn:Hg.
      - destruct (authenticateToken e req); [apply answers_ret|].
        apply run_handler_answers; [exact Hlen|]. intros _. by eexists.
      - apply run_handler_answers; [exact Hlen|].
        intros Hw. specialize (Huser Hw). discriminate. }
    unfold bind. destruct (Hlayer db) as ([r|] & db' & ->).
    + by eexists _, _.
    + apply IH.
Qed.

(** X13. Every request gets a response: whatever the request, the
    database and the engine do, no error leaves a handler uncaught. The
    two handlers that read the caller's id before their try block are
    only ever reached through the gate, and every handler that reads a
    route parameter stands on a route that has one. *)
Theorem X13_every_request_is_answered e req db :
  ∃ h r db', app_handle e req db = Ok (h, r) db'.
Proof.
  destruct (dispatch_answers app e req) with (db := db) as ([h r] & db' & H).
  - unfold app. repeat constructor; cbn; discriminate.
  - by exists h, r, db'.
Qed.

(** ** The client build behind the API *)








Lemma app_handle_dispatch e req db :
  app_handle e req db = dispatch app e req db.
Proof. unfold app_handle. reflexivity. Qed.



(** ** When the engine fails *)

(** X15. When the engine raises on every statement, a request to any
    route of the API that has passed the gate, and for comment creation,
    registration and login also the validation, is answered 500 "Server
    error", and the database is left as it was. *)
Theorem X15_engine_failure_is_a_500 e bearer body db :
  (∀ s, raises s db = true) →
  (∀ h id m path uid,
     request_line h id = Some (m, path) →
     (h ∈ protected →
      authenticateToken e (mk_request m path bearer body) = inr uid) →
     (h = CommentCreate →
      truthy (prop body "comment") = true ∧ truthy (prop body "rating") = true) →
     app_handle e (mk_request m path bearer body) db
     = Ok (Some h, internal_error) db)
  ∧ (truthy (prop body "username") = true → truthy (prop body "email") = true →
     truthy (prop body "password") = true →
     app_handle e (mk_request POST ["api"; "auth"; "register"] bearer body) db
     = Ok (Some Register, internal_error) db)
  ∧ (truthy (prop body "email") = true → truthy (prop body "password") = true →
     app_handle e (mk_request POST ["api"; "auth"; "login"] bearer body) db
     = Ok (Some Login, internal_error) db).
Proof.
  intros Hdown.
  assert (Hq : ∀ e s, pool_query e s db = Throw db)
    by (intros; apply pool_query_raises, Hdown).
  assert (Hin : ∀ h, In h protected → h ∈ protected)
    by (intros; by apply list_elem_of_In).
  split; [|split].
  - intros h id m path uid Hline Hauth Hvalid.
    destruct h; cbn in Hline; try discriminate; injection Hline as <- <-.
    + rewrite route_arcade_create.
      rewrite (authenticated_gated _ _ _ _ uid) by (apply Hauth, Hin; cbn; tauto).
      unfold served, arcade_create, try_catch, bind. by rewrite Hq.
    + rewrite route_arcade_list.
      unfold served, arcade_list, try_catch, bind. by rewrite Hq.
    + rewrite route_arcade_get.
      unfold served, arcade_get, try_catch, bind. by rewrite Hq.
    + rewrite route_arcade_update.
      rewrite (authenticated_gated _ _ _ _ uid) by (apply Hauth, Hin; cbn; tauto).
      unfold served, arcade_update, try_catch, bind. by rewrite Hq.
    + rewrite route_arcade_delete.
      rewrite (authenticated_gated _ _ _ _ uid) by (apply Hauth, Hin; cbn; tauto).
      unfold served, arcade_delete, try_catch, bind. by rewrite Hq.
    + rewrite route_comment_create.
      rewrite (authenticated_gated _ _ _ _ uid) by (apply Hauth, Hin; cbn; tauto).
      destruct (Hvalid eq_refl) as [Hc Hr].
      unfold served, comment_create, js_not. cbn [req_body mk_request].
      rewrite Hc, Hr. cbn [negb orb].
      unfold try_catch, bind, userId, ret. by rewrite Hq.
    + rewrite route_profile.
      rewrite (authenticated_gated _ _ _ _ uid) by (apply Hauth, Hin; cbn; tauto).
      unfold served, profile, try_catch, bind, userId, ret. by rewrite Hq.
    + rewrite route_comment_update.
      rewrite (authenticated_gated _ _ _ _ uid) by (apply Hauth, Hin; cbn; tauto).
      unfold served, comment_update, try_catch, bind, userId, ret. by rewrite Hq.
    + rewrite route_comment_delete.
      rewrite (authenticated_gated _ _ _ _ uid) by (apply Hauth, Hin; cbn; tauto).
      unfold served, comment_delete, try_catch, bind, userId, ret. by rewrite Hq.
  - intros Hu He Hp. rewrite route_register. unfold served, bind.
    rewrite (register_eq e (mk_request POST ["api"; "auth"; "register"]
                              bearer body) db Hu He Hp).
    cbn [req_body mk_request]. by rewrite Hdown.
  - intros He Hp. rewrite route_login. unfold served, bind.
    rewrite (login_eq e (mk_request POST ["api"; "auth"; "login"] bearer body)
               db He Hp).
    cbn [req_body mk_request]. by rewrite Hdown.
Qed.

(** ** Which request changes which table *)

Lemma run_handler_next h e params user req db db1 :
  run_handler h e params user req db = Ok None db1 → db1 = db.
Proof.
  destruct h; try (destruct params as [|? [|? ?]]);
    unfold run_handler, bind, ret, throw; intros H;
    repeat case_match; by simplify_eq.
Qed.

Lemma run_layer_next l e params req db db1 :
  run_layer l e params req db = Ok None db1 → db1 = db.
Proof.
  unfold run_layer. destruct (l_gate l).
  - destruct (authenticateToken e req); [discriminate|].
    apply run_handler_next.
  - apply run_handler_next.
Qed.

Section Keeps.
Context {X : Type} (f : DB → X) (quiet : stmt → Prop).
Hypothesis exec_quiet :
  ∀ t s db rows db', quiet s → exec cast t s db = Some (rows, db') → f db' = f db.

Lemma keeps_ret {A} (a : A) : keeps f (ret a).
Proof. by intros db. Qed.

Lemma keeps_throw {A} : keeps f (@throw A).
Proof. by intros db. Qed.

Lemma keeps_bind {A B} (m : M A) (k : A → M B) :
  keeps f m → (∀ a, keeps f (k a)) → keeps f (bind m k).
Proof.
  intros Hm Hk db. unfold bind. specialize (Hm db).
  destruct (m db) as [a db'|db']; cbn in *; [|exact Hm].
  rewrite Hk. exact Hm.
Qed.

Lemma keeps_try_catch {A} (m h : M A) :
  keeps f m → keeps f h → keeps f (try_catch m h).
Proof.
  intros Hm Hh db. unfold try_catch. specialize (Hm db).
  destruct (m db) as [a db'|db']; cbn in *; [exact Hm|].
  rewrite Hh. exact Hm.
Qed.

Lemma keeps_if {A} (b : bool) (m1 m2 : M A) :
  keeps f m1 → keeps f m2 → keeps f (if b then m1 else m2).
Proof. by destruct b. Qed.

Lemma keeps_pool_query e s : quiet s → keeps f (pool_query e s).
Proof.
  intros Hs db. unfold pool_query.
  destruct (raises s db); [reflexivity|].
  destruct (exec cast (now e) s db) as [[rows db']|] eqn:E; [|reflexivity].
  cbn. eapply exec_quiet; eauto.
Qed.
End Keeps.

Ltac keeps_handler lem :=
  unfold run_handler, health, register, login, arcade_create, arcade_list,
    arcade_get, arcade_update, arcade_delete, comment_create, profile,
    comment_update, comment_delete, catch_all, test_db;
  repeat first
    [ apply keeps_ret
    | apply keeps_throw
    | apply keeps_try_catch
    | apply keeps_if
    | apply (keeps_pool_query _ _ lem); exact I
    | apply keeps_bind; [|intros ?]
    | progress unfold server_error, userId, first_row, compare, hash
    | match goal with
      | |- keeps _ (match ?x with _ => _ end) => destruct x
      end ].

Lemma exec_not_arcade_write t s db rows db' :
  not_arcade_write s → exec cast t s db = Some (rows, db') → arcades db' = arcades db.
Proof. destruct s; cbn; try done; intros _ H; simplify_option_eq; done. Qed.

Lemma exec_not_comment_write t s db rows db' :
  not_comment_write s → exec cast t s db = Some (rows, db') →
  comments db' = comments db.
Proof. destruct s; cbn; try done; intros _ H; simplify_option_eq; done. Qed.

Lemma keeps_arcades_run_handler h e params user req :
  h ∉ arcade_writers → keeps arcades (run_handler h e params user req).
Proof.
  intros Hh.
  destruct h; try (exfalso; apply Hh, list_elem_of_In; cbn; tauto);
    try (destruct params as [|? [|? ?]]);
    keeps_handler exec_not_arcade_write.
Qed.

Lemma keeps_comments_run_handler h e params user req :
  h ∉ comment_writers → keeps comments (run_handler h e params user req).
Proof.
  intros Hh.
  destruct h; try (exfalso; apply Hh, list_elem_of_In; cbn; tauto);
    try (destruct params as [|? [|? ?]]);
    keeps_handler exec_not_comment_write.
Qed.

Lemma dispatch_answered ls e req db h r db' :
  dispatch ls e req db = Ok (Some h, r) db' →
  ∃ l params,
    l ∈ ls ∧ l_handler l = h
    ∧ method_matches l (req_method req) = true
    ∧ match_path (l_path l) (req_path req) = Some params
    ∧ run_layer l e params req db = Ok (Some r) db'.
Proof.
  induction ls as [|l ls IH]; [discriminate|].
  cbn [dispatch].
  assert (Hrest : dispatch ls e req db = Ok (Some h, r) db' →
            ∃ l0 params,
              l0 ∈ l :: ls ∧ l_handler l0 = h
              ∧ method_matches l0 (req_method req) = true
              ∧ match_path (l_path l0) (req_path req) = Some params
              ∧ run_layer l0 e params req db = Ok (Some r) db').
  { intros H. destruct (IH H) as (l0 & params & Hl0 & Hrest).
    exists l0, params. split; [by right|exact Hrest]. }
  destruct (method_matches l (req_method req)) eqn:Hm; [|exact Hrest].
  destruct (match_path (l_path l) (req_path req)) as [params|] eqn:Hp;
    [|exact Hrest].
  unfold bind.
  destruct (run_layer l e params req db) as [[resp|] db0|db0] eqn:Hl.
  - unfold ret. intros H. simplify_eq. exists l, params.
    split; [left|done].
  - apply run_layer_next in Hl as ->. exact Hrest.
  - discriminate.
Qed.

Lemma dispatch_unanswered ls e req db r db' :
  dispatch ls e req db = Ok (None, r) db' → db' = db.
Proof.
  induction ls as [|l ls IH]; cbn [dispatch].
  - unfold ret. intros H. by simplify_eq.
  - destruct (method_matches l (req_method req)); [|exact IH].
    destruct (match_path (l_path l) (req_path req)) as [params|]; [|exact IH].
    unfold bind.
    destruct (run_layer l e params req db) as [[resp|] db0|db0] eqn:Hl;
      [discriminate| |discriminate].
    apply run_layer_next in Hl as ->. exact IH.
Qed.

Lemma run_layer_db l e params req db r db' :
  run_layer l e params req db = Ok r db' →
  db' = db
  ∨ ∃ user, db' = db_of (run_handler (l_handler l) e params user req db).
Proof.
  unfold run_layer. intros Hl. destruct (l_gate l).
  - destruct (authenticateToken e req) as [rej|uid].
    + left. unfold ret in Hl. by simplify_eq.
    + right. exists (Some uid). by rewrite Hl.
  - right. exists None. by rewrite Hl.
Qed.

(** X16. Each table is written by its own routes only: a request that is
    not answered by registration leaves the users table as it was, one
    not answered by arcade creation, update or delete leaves the arcades
    table, and one not answered by comment creation, update or delete
    leaves the comments table. *)
Theorem X16_each_table_has_its_writers e req db h r db' :
  app_handle e req db = Ok (h, r) db' →
  (h ≠ Some Register → users db' = users db)
  ∧ (Forall (λ w, h ≠ Some w) arcade_writers → arcades db' = arcades db)
  ∧ (Forall (λ w, h ≠ Some w) comment_writers → comments db' = comments db).
Proof.
  rewrite app_handle_dispatch. intros H.
  destruct h as [h|].
  - destruct (dispatch_answered _ _ _ _ _ _ _ H)
      as (l & params & _ & <- & _ & _ & Hl).
    destruct (run_layer_db _ _ _ _ _ _ _ Hl) as [-> | [user ->]]; [done|].
    split; [|split].
    + intros Hne. apply keeps_users_run_handler. congruence.
    + intros Hne. apply keeps_arcades_run_handler.
      intros Hin. rewrite Forall_forall in Hne. by eapply Hne.
    + intros Hne. apply keeps_comments_run_handler.
      intros Hin. rewrite Forall_forall in Hne. by eapply Hne.
  - by apply dispatch_unanswered in H as ->.
Qed.

Lemma method_eqb_eq a b : method_eqb a b = true → a = b.
Proof. by destruct a, b. Qed.

Lemma register_layer l :
  l ∈ app → l_handler l = Register →
  l = route POST [Lit "api"; Lit "auth"; Lit "register"] false Register.
Proof.
  intros Hl%list_elem_of_In Hh. cbn in Hl.
  repeat (destruct Hl as [<- | Hl]; [first [reflexivity|discriminate]|]).
  destruct Hl.
Qed.

(** X17. Users are only ever added, one at a time, and only by the
    registration handler: whatever the request, the users table afterwards
    is the table before with at most one row appended, and a row is
    appended only when the registration handler answered, which it does
    for a POST only. No route updates or deletes a user. *)
Theorem X17_users_are_only_ever_added e req db h r db' :
  app_handle e req db = Ok (h, r) db' →
  ∃ new,
    users db' = users db ++ new
    ∧ (length new ≤ 1)%nat
    ∧ (new ≠ [] → h = Some Register ∧ req_method req = POST).
Proof.
  rewrite app_handle_dispatch. intros H.
  assert (Hsame : ∀ h0, users db' = users db →
            ∃ new,
              users db' = users db ++ new
              ∧ (length new ≤ 1)%nat
              ∧ (new ≠ [] → h0 = Some Register ∧ req_method req = POST)).
  { intros h0 ->. exists []. rewrite app_nil_r.
    split; [done|]. split; [cbn; lia|done]. }
  destruct h as [h|];
    [|apply dispatch_unanswered in H as ->; by apply Hsame].
  destruct (dispatch_answered _ _ _ _ _ _ _ H)
    as (l & params & Hl & <- & Hm & Hp & Hrun).
  destruct (decide (l_handler l = Register)) as [Hreg | Hne].
  - pose proof (register_layer l Hl Hreg) as ->.
    cbn [method_matches l_method route] in Hm.
    apply method_eqb_eq in Hm. symmetry in Hm.
    unfold run_layer, run_handler in Hrun. cbn [l_gate l_handler route] in Hrun.
    unfold bind in Hrun.
    destruct (register e req db) as [r0 db0|db0] eqn:Hr; [|discriminate].
    unfold ret in Hrun. simplify_eq. cbn [l_handler route].
    destruct (validated_or_not (prop (req_body req) "username")
                (prop (req_body req) "email") (prop (req_body req) "password"))
      as [(Hu & He & Hpw) | Hinv].
    + rewrite (register_eq e req db Hu He Hpw) in Hr.
      destruct (raises _ db); [simplify_eq; by apply Hsame|].
      destruct (filter _ (users db)); [|simplify_eq; by apply Hsame].
      destruct (prop (req_body req) "password");
        try (simplify_eq; by apply Hsame).
      cbv zeta in Hr.
      destruct (raises _ db); [simplify_eq; by apply Hsame|].
      destruct (String.eqb JWT_SECRET EmptyString); simplify_eq;
        (eexists [_]; split; [reflexivity|]; split; [cbn; lia|done]).
    + rewrite (register_invalid e req db Hinv) in Hr. simplify_eq.
      by apply Hsame.
  - destruct (run_layer_db _ _ _ _ _ _ _ Hrun) as [-> | [user ->]];
      [by apply Hsame|].
    apply Hsame. by apply keeps_users_run_handler.
Qed.

(** ** The sidebar and the server *)

Lemma register_body s u m p :
  formData s !! "username" = Some u → formData s !! "email" = Some m →
  formData s !! "password" = Some p →
  let body := json_body [("username", form_value s "username");
                         ("email", form_value s "email");
                         ("password", form_value s "password")] in
  prop body "username" = JStr u ∧ prop body "email" = JStr m
  ∧ prop body "password" = JStr p.
Proof.
  intros Hu Hm Hp. unfold json_body, form_value. rewrite Hu, Hm, Hp.
  cbn [from_option]. rewrite !filter_cons_True by done. rewrite filter_nil.
  unfold prop. cbn [list_to_map foldr fst snd uncurry].
  repeat split; by simplify_map_eq.
Qed.

Lemma login_body s m p :
  formData s !! "email" = Some m → formData s !! "password" = Some p →
  let body := json_body [("email", form_value s "email");
                         ("password", form_value s "password")] in
  prop body "email" = JStr m ∧ prop body "password" = JStr p.
Proof.
  intros Hm Hp. unfold json_body, form_value. rewrite Hm, Hp.
  cbn [from_option]. rewrite !filter_cons_True by done. rewrite filter_nil.
  unfold prop. cbn [list_to_map foldr fst snd uncurry].
  repeat split; by simplify_map_eq.
Qed.

Lemma handleRegister_sent e b db p :
  let s := b_ui b in
  formData s !! "password" = Some p → formData s !! "confirmPassword" = Some p →
  handleRegister true e (b, db)
  = match served Register
            (register e (mk_request POST ["api"; "auth"; "register"] None
               (json_body [("username", form_value s "username");
                           ("email", form_value s "email");
                           ("password", form_value s "password")])))
            db with
    | Ok (_, r) db' =>
        if (200 <=? status r) && (status r <? 300)
        then (set_ui (setIsRegistering false)
                (do_alert RegistrationSuccessful b), db')
        else (do_alert
                (RegistrationFailed
                   (text_of (data_msg (body r)) "Please try again."))
                b, db')
    | Throw db' => (b, db')
    end.
Proof.
  intros s Hp Hc. unfold handleRegister, axios_post. fold s.
  case_bool_decide as Hd;
    [unfold form_value in Hd; by rewrite Hp, Hc in Hd|].
  rewrite route_register.
  destruct (served Register _ db) as [[h r] db'|db']; [|reflexivity].
  by destruct ((200 <=? status r) && (status r <? 300)).
Qed.

(** X18. What the registration form does when registration fails. With a
    confirmation that differs from the password no request is sent at
    all. Otherwise the form sends what it holds, unchecked, and shows the
    server's message: "All fields are required" for an empty field, "User
    already exists" for a known email, and "Please try again." when the
    server fails, whose 500 has no message. In each case the page stays
    as it was but for the alert, and nothing is stored. *)
Theorem X18_register_form_failures e b db u m p c :
  let s := b_ui b in
  formData s !! "username" = Some u → formData s !! "email" = Some m →
  formData s !! "password" = Some p → formData s !! "confirmPassword" = Some c →
  (p ≠ c →
   ∀ online, handleRegister online e (b, db) = (do_alert PasswordsDoNotMatch b, db))
  ∧ (p = c → u = EmptyString ∨ m = EmptyString ∨ p = EmptyString →
     handleRegister true e (b, db)
     = (do_alert (RegistrationFailed "All fields are required") b, db))
  ∧ (p = c → u ≠ EmptyString → m ≠ EmptyString → p ≠ EmptyString →
     JStr m ∈ emails db → runs (SelectUserByEmail (JStr m)) db →
     handleRegister true e (b, db)
     = (do_alert (RegistrationFailed "User already exists") b, db))
  ∧ (p = c → u ≠ EmptyString → m ≠ EmptyString → p ≠ EmptyString →
     raises (SelectUserByEmail (JStr m)) db = true →
     handleRegister true e (b, db)
     = (do_alert (RegistrationFailed "Please try again.") b, db)).
Proof.
  intros s Hu Hm Hp Hc.
  destruct (register_body s u m p Hu Hm Hp) as (Bu & Bm & Bp).
  assert (Hpv : form_value s "password" = JStr p)
    by (unfold form_value; by rewrite Hp).
  assert (Hcv : form_value s "confirmPassword" = JStr c)
    by (unfold form_value; by rewrite Hc).
  assert (Hsent : p = c → handleRegister true e (b, db) = _)
    by (intros <-; exact (handleRegister_sent e b db p Hp Hc)).
  split; [|split; [|split]].
  - intros Hne online. unfold handleRegister. fold s.
    case_bool_decide as Hd; [reflexivity|].
    rewrite Hpv, Hcv in Hd. injection Hd as Heq. by destruct Hne.
  - intros Heq Hempty. rewrite (Hsent Heq). fold s. unfold served, bind.
    rewrite register_invalid; [reflexivity|].
    cbn [req_body mk_request]. rewrite Bu, Bm, Bp.
    destruct Hempty as [-> | [-> | ->]]; auto.
  - intros Heq Hu0 Hm0 Hp0 Hin Hruns. rewrite (Hsent Heq). fold s. unfold served, bind.
    rewrite (register_text_eq e _ db m);
      cbn [req_body mk_request]; rewrite ?Bu, ?Bm, ?Bp; try done;
      try by apply truthy_text.
    unfold runs in Hruns. rewrite Hruns, (bool_decide_eq_true_2 _ Hin).
    reflexivity.
  - intros Heq Hu0 Hm0 Hp0 Hdown. rewrite (Hsent Heq). fold s. unfold served, bind.
    rewrite (register_text_eq e _ db m);
      cbn [req_body mk_request]; rewrite ?Bu, ?Bm, ?Bp; try done;
      try by apply truthy_text.
    rewrite Hdown. reflexivity.
Qed.

Lemma login_outcomes e req db :
  ∃ r, login e req db = Ok r db
       ∧ ((status r = 200
           ∧ ∃ row, row ∈ users db
                    ∧ body r = JsonAuth (jwt_sign (u_id row) JWT_SECRET (now e)) row)
          ∨ status r = 400 ∨ status r = 500).
Proof.
  destruct (truthy (prop (req_body req) "email")) eqn:He;
    [destruct (truthy (prop (req_body req) "password")) eqn:Hp|].
  - rewrite (login_eq e req db He Hp).
    destruct (raises _ db); [eexists; split; [reflexivity|]; cbn; lia|].
    destruct (filter _ (users db)) as [|row rows] eqn:E;
      [eexists; split; [reflexivity|]; cbn; lia|].
    assert (Hrow : row ∈ users db).
    { assert (H : row ∈ row :: rows) by (apply elem_of_cons; by left).
      rewrite <- E in H. by apply list_elem_of_filter in H as [_ H]. }
    destruct (prop (req_body req) "password");
      try (eexists; split; [reflexivity|]; cbn; lia).
    destruct (u_password row);
      try (eexists; split; [reflexivity|]; cbn; lia).
    destruct (bcrypt_compare s s0);
      [|eexists; split; [reflexivity|]; cbn; lia].
    destruct (String.eqb JWT_SECRET EmptyString);
      [eexists; split; [reflexivity|]; cbn; lia|].
    eexists; split; [reflexivity|]. left. split; [reflexivity|].
    exists row. by split.
  - unfold login, js_not. rewrite He, Hp. cbn.
    eexists; split; [reflexivity|]; cbn; lia.
  - unfold login, js_not. rewrite He. cbn.
    eexists; split; [reflexivity|]; cbn; lia.
Qed.

(** X19. A registration that succeeds does not sign the user in. With
    the signing secret set, the server stores the new user and answers
    201 with a token, but the form drops the answer: nothing is written
    to the storage of the browser, the user of the page is as before,
    and the form turns to the login view with the alert "Registration
    successful! Please log in.". *)
Theorem X19_registration_does_not_sign_in e b db u m p :
  let s := b_ui b in
  formData s !! "username" = Some u → formData s !! "email" = Some m →
  formData s !! "password" = Some p → formData s !! "confirmPassword" = Some p →
  u ≠ EmptyString → m ≠ EmptyString → p ≠ EmptyString →
  JWT_SECRET ≠ EmptyString →
  JStr m ∉ emails db →
  runs (SelectUserByEmail (JStr m)) db →
  runs (InsertUser (JStr u) (JStr m) (JStr (bcrypt_hash p (salt e)))) db →
  let b' := (handleRegister true e (b, db)).1 in
  let db' := (handleRegister true e (b, db)).2 in
  b_storage b' = b_storage b ∧ b_user b' = b_user b
  ∧ isRegistering (b_ui b') = false
  ∧ b_alerts b' = b_alerts b ++ [RegistrationSuccessful]
  ∧ (b_user b = None → render b' = LoginForm)
  ∧ users db'
    = users db ++ [{| u_id := users_seq db; u_username := JStr u;
                      u_email := JStr m;
                      u_password := JStr (bcrypt_hash p (salt e)) |}].
Proof.
  intros s Hu Hm Hp Hc Hu0 Hm0 Hp0 Hsecret Hnew Hsel Hins b' db'.
  subst b' db'. apply String.eqb_neq in Hsecret.
  destruct (register_body s u m p Hu Hm Hp) as (Bu & Bm & Bp).
  rewrite (handleRegister_sent e b db p Hp Hc). fold s. unfold served, bind.
  rewrite (register_text_eq e _ db m);
    cbn [req_body mk_request]; rewrite ?Bu, ?Bm, ?Bp; try done;
    try by apply truthy_text.
  unfold runs in Hsel, Hins.
  rewrite Hsel, (bool_decide_eq_false_2 _ Hnew), Hins, Hsecret. cbn.
  repeat split. intros Hnone. unfold render. cbn. by rewrite Hnone.
Qed.

(** X20. Signing in, reloading and signing out. With the signing secret
    set and the email and the password of a stored user, the login form
    stores the token and the user in the browser, sets the user of the
    page and greets them; the server's data stay as they were. A page mounted later on the same
    storage gets the same user back. Logging out removes both entries,
    clears the user, goes to "/", and a page mounted after that has no
    user. *)
Theorem X20_login_reload_logout e b db m p row h :
  let s := b_ui b in
  formData s !! "email" = Some m → formData s !! "password" = Some p →
  m ≠ EmptyString → p ≠ EmptyString →
  JWT_SECRET ≠ EmptyString →
  NoDup (emails db) → row ∈ users db →
  u_email row = JStr m → u_password row = JStr h →
  bcrypt_compare p h = true →
  runs (SelectUserByEmail (JStr m)) db →
  let b1 := (handleLogin true e (b, db)).1 in
  (handleLogin true e (b, db)).2 = db
  ∧ b_user b1 = Some row
  ∧ b_storage b1 !! "token"
    = Some (StoredToken (jwt_sign (u_id row) JWT_SECRET (now e)))
  ∧ b_storage b1 !! "user" = Some (StoredJson row)
  ∧ b_alerts b1 = b_alerts b ++ [Welcome (u_username row)]
  ∧ render b1 = WelcomePanel (u_username row)
  ∧ (∀ b2, b_storage b2 = b_storage b1 →
           mount b2 = Some (setUser (Some row) b2))
  ∧ (let b3 := handleLogout b1 in
     b_user b3 = None ∧ b_storage b3 !! "token" = None
     ∧ b_storage b3 !! "user" = None ∧ b_location b3 = Some "/"
     ∧ render b3 = (if isRegistering s then RegisterForm else LoginForm)
     ∧ mount b3 = Some b3).
Proof.
  intros s Hm Hp Hm0 Hp0 Hsecret Hnd Hrow Hemail Hhash Hcmp Hsel b1. subst b1.
  apply String.eqb_neq in Hsecret.
  destruct (login_body s m p Hm Hp) as (Bm & Bp).
  unfold handleLogin, axios_post. fold s.
  rewrite route_login. unfold served, bind.
  rewrite login_eq;
    cbn [req_body mk_request]; rewrite ?Bm, ?Bp; try by apply truthy_text.
  change (bound cast Email (JStr m)) with (JStr m).
  unfold runs in Hsel. rewrite Hsel.
  rewrite (select_by_email_unique (JStr m) row (users db) Hnd Hrow Hemail)
    by done.
  rewrite Hhash, Hcmp, Hsecret. cbn.
  repeat split; try by simplify_map_eq.
  - intros b2 Hst. unfold mount. rewrite Hst. cbn. by simplify_map_eq.
  - unfold mount. cbn. by simplify_map_eq.
Qed.

(** X21. The login form stores something only when the server signs the
    user in. Whatever the form holds and whatever the server does, the
    server's data stay as they were, and the page is either the old one
    with the alert "Login failed. ..." or has the user, the user's JSON
    text and the token of a stored user; without the server it is the
    former. *)
Theorem X21_login_form_stores_only_on_success online e b db :
  let b' := (handleLogin online e (b, db)).1 in
  (handleLogin online e (b, db)).2 = db
  ∧ (b' = do_alert LoginFailed b
     ∨ ∃ row, row ∈ users db ∧ b_user b' = Some row
              ∧ b_storage b'
                = <["user" := StoredJson row]>
                    (<["token" := StoredToken
                                    (jwt_sign (u_id row) JWT_SECRET (now e))]>
                       (b_storage b))
              ∧ b_alerts b' = b_alerts b ++ [Welcome (u_username row)])
  ∧ (online = false → b' = do_alert LoginFailed b).
Proof.
  intros b'. subst b'. unfold handleLogin, axios_post.
  destruct online; [|cbn; split; [reflexivity|split; [by left|done]]].
  rewrite route_login. unfold served, bind.
  destruct (login_outcomes e
              (mk_request POST ["api"; "auth"; "login"] None
                 (json_body [("email", form_value (b_ui b) "email");
                             ("password", form_value (b_ui b) "password")]))
              db) as (r & -> & Hr).
  cbn [ret].
  destruct Hr as [(H200 & row & Hrow & Hbody) | [H | H]]; rewrite ?H200, ?H;
    cbn [Z.leb Z.ltb Z.compare Pos.compare Pos.compare_cont andb fst snd].
  - rewrite Hbody. cbn. split; [reflexivity|]. split; [|done].
    right. exists row. by repeat split.
  - cbn. split; [reflexivity|split; [by left|done]].
  - cbn. split; [reflexivity|split; [by left|done]].
Qed.

(** X22. The sidebar stays open while an input has the focus. With the
    focus in an input it is shown expanded wherever the mouse is, and a
    mouse that leaves then is not remembered: when the focus goes the
    sidebar is as open as it was before the mouse left. Without the
    focus a leaving mouse closes it. *)
Theorem X22_sidebar_open_while_focused s :
  expanded (handleFocus s) = true
  ∧ expanded (onMouseLeave (handleFocus s)) = true
  ∧ expanded (handleBlur (onMouseLeave (handleFocus s))) = isExpanded s
  ∧ expanded (onMouseLeave (handleBlur s)) = false
  ∧ expanded (handleBlur (onMouseEnter s)) = true.
Proof.
  unfold expanded, onMouseLeave, onMouseEnter, handleFocus, handleBlur.
  cbn. repeat split; try apply orb_true_r; apply orb_false_r.
Qed.

End Server.

(** ** The statements at work on the small deployment *)

Abbreviation demo_handle :=
  (app_handle demo_raises demo_cast demo_hash demo_compare demo_secret demo_build demo_gate).

(** Bo, with a good token, tries to change and to delete Ann's comment. *)
Lemma C1_witness :
  demo_handle demo_env
    (mk_request PUT ["api"; "comments"; "1"] (Some (demo_token 2)) takeover_body)
    demo_db
  = Ok (Some CommentUpdate, not_found_or_unauthorized) demo_db
  ∧ demo_handle demo_env
      (mk_request DELETE ["api"; "comments"; "1"] (Some (demo_token 2))
         takeover_body) demo_db
    = Ok (Some CommentDelete, not_found_or_unauthorized) demo_db.
Proof.
  destruct (C1_comment_mutation_scoped_to_owner demo_raises demo_cast demo_hash
              demo_compare demo_secret demo_build demo_gate demo_env "1" 1 2
              (Some (demo_token 2)) takeover_body demo_db
              eq_refl eq_refl eq_refl) as [Hno _].
  destruct Hno as (_ & _ & Hput & Hdel).
  - repeat constructor; cbn; lia.
  - split; [apply Hput | apply Hdel]; reflexivity.
Defined.

(** A second account for Ann's email is refused and nothing is stored; Cy's
    registration stores Cy with the salted hash. *)
Lemma C2_witness :
  demo_handle demo_env
    (mk_request POST ["api"; "auth"; "register"] None
       {[ "username" := JStr "ann2"; "email" := JStr "ann@example.org";
          "password" := JStr "guess" ]}) demo_db
  = Ok (Some Register, bad_request "User already exists") demo_db
  ∧ ∃ db',
      demo_handle demo_env
        (mk_request POST ["api"; "auth"; "register"] None new_user_body) demo_db
      = Ok (Some Register,
            respond 201
              (JsonAuth (jwt_sign 3 demo_secret 5000)
                 {| u_id := 3; u_username := JStr "cy";
                    u_email := JStr "cy@example.org";
                    u_password := JStr "naswordfish" |})) db'
      ∧ users db' = [ann; bo; {| u_id := 3; u_username := JStr "cy";
                                 u_email := JStr "cy@example.org";
                                 u_password := JStr "naswordfish" |}].
Proof.
  split.
  - destruct (C2_register_conflict_keeps_emails_unique demo_raises demo_cast
                demo_hash demo_compare demo_secret demo_build demo_gate demo_env
                None
                {[ "username" := JStr "ann2"; "email" := JStr "ann@example.org";
                   "password" := JStr "guess" ]} demo_db) as [Hdup _].
    destruct Hdup as [_ Hmsg]; [discriminate| |].
    + apply list_elem_of_In. cbn. tauto.
    + destruct (Hmsg eq_refl) as (msg & Heq & Hconflict).
      rewrite Heq, (Hconflict eq_refl eq_refl eq_refl). reflexivity.
  - destruct (C2_register_conflict_keeps_emails_unique demo_raises demo_cast
                demo_hash demo_compare demo_secret demo_build demo_gate demo_env
                None new_user_body demo_db) as (_ & _ & Hnew & _).
    apply (Hnew "swordfish"); try reflexivity; try discriminate.
    intros Hin. apply list_elem_of_In in Hin. cbn in Hin.
    intuition discriminate.
Defined.

(** Barcade is rated 3 and 5, Chinatown Fair has no comment. *)
Lemma C3_witness :
  ∃ rows,
    demo_handle demo_env (mk_request GET ["api"; "arcades"] None ∅) demo_db
    = Ok (Some ArcadeList, respond 200 (JsonArcades rows)) demo_db
    ∧ aa_arcade <$> rows ≡ₚ [barcade; chinatown_fair]
    ∧ (∀ r, r ∈ rows → aa_arcade r = barcade →
            average_rating r = {| dec_unscaled := 40; dec_scale := 1 |})
    ∧ (∀ r, r ∈ rows → aa_arcade r = chinatown_fair →
            average_rating r = {| dec_unscaled := 0; dec_scale := 0 |}).
Proof.
  destruct (C3_arcade_list_average_rating demo_raises demo_cast demo_hash
              demo_compare demo_secret demo_build demo_gate demo_env None ∅
              demo_db)
    as (rows & Heq & Harcades & Havg).
  - reflexivity.
  - repeat constructor.
  - exists rows. split; [exact Heq|]. split; [exact Harcades|].
    rewrite Forall_forall in Havg. split.
    + intros r Hr Ha. destruct (Havg r Hr) as (_ & _ & _ & H).
      apply H. rewrite Ha. reflexivity.
    + intros r Hr Ha. destruct (Havg r Hr) as (H & _).
      apply H. rewrite Ha. reflexivity.
Defined.

(** Ann creates Wonderville and anyone reads it back under its id, 3. *)
Lemma C4_witness :
  ∃ db1,
    demo_handle demo_env
      (mk_request POST ["api"; "arcades"] (Some (demo_token 1)) new_arcade_body)
      demo_db
    = Ok (Some ArcadeCreate, respond 200 (JsonArcade wonderville)) db1
    ∧ demo_handle demo_env (mk_request GET ["api"; "arcades"; "3"] None ∅) db1
      = Ok (Some ArcadeGet, respond 200 (JsonArcade wonderville)) db1.
Proof.
  destruct (C4_arcade_create_then_get_round_trip demo_raises demo_cast
              demo_hash demo_compare demo_secret demo_build demo_gate demo_env
              demo_env (Some (demo_token 1)) None new_arcade_body ∅ 1 demo_db
              (JStr "Wonderville") (JStr "1186 Broadway") (JStr "Tue-Sun")
              (JStr "16-2") (JBool true) eq_refl eq_refl eq_refl eq_refl eq_refl
              eq_refl)
    as (a & db1 & Hcreate & _ & _ & _ & _ & _ & _ & Hget).
  - repeat constructor; cbn; lia.
  - reflexivity.
  - assert (Ha : a = wonderville).
    { assert (H := Hcreate). vm_compute in H. injection H as <- _. reflexivity. }
    subst a. exists db1. split; [exact Hcreate|].
    apply (Hget "3"); reflexivity.
Defined.

(** The name 123 and the licence "yes" are not read back as given: the
    engine has stored the text "123" and the boolean [true]. *)
Lemma C4_counterexample :
  ∃ a db1,
    demo_handle demo_env
      (mk_request POST ["api"; "arcades"] (Some (demo_token 1))
         {[ "name" := JNum 123; "address" := JStr "8 Mott St";
            "days_open" := JStr "Mon-Sun"; "hours_of_operation" := JStr "11-23";
            "serves_alcohol" := JStr "yes" ]}) demo_db
    = Ok (Some ArcadeCreate, respond 200 (JsonArcade a)) db1
    ∧ demo_handle demo_env (mk_request GET ["api"; "arcades"; "3"] None ∅) db1
      = Ok (Some ArcadeGet, respond 200 (JsonArcade a)) db1
    ∧ a_name a = JStr "123" ∧ a_name a ≠ JNum 123
    ∧ a_serves_alcohol a = JBool true ∧ a_serves_alcohol a ≠ JStr "yes".
Proof.
  eexists. eexists. split; [vm_compute; reflexivity|].
  split; [vm_compute; reflexivity|]. cbn. by repeat split.
Defined.

(** Ann's comment with a rating of 0 is refused; with a rating of 4 it is
    stored under her id and comes back with her username. *)
Lemma C5_witness :
  demo_handle demo_env
    (mk_request POST ["api"; "arcades"; "2"; "comments"] (Some (demo_token 1))
       {[ "comment" := JStr "meh"; "rating" := JNum 0 ]}) demo_db
  = Ok (Some CommentCreate,
        bad_request "Both comment and rating are required") demo_db
  ∧ ∃ db',
      demo_handle demo_env
        (mk_request POST ["api"; "arcades"; "2"; "comments"]
           (Some (demo_token 1))
           {[ "comment" := JStr "classic"; "rating" := JNum 4 ]}) demo_db
      = Ok (Some CommentCreate,
            respond 200
              (JsonNewComment
                 {| nc_id := 3; nc_comment := JStr "classic";
                    nc_rating := JNum 4; nc_created_at := 5000;
                    nc_username := JStr "ann" |})) db'
      ∧ comments db'
        = [anns_comment; bos_comment;
           {| c_id := 3; c_user_id := 1; c_arcade_id := 2;
              c_comment := JStr "classic"; c_rating := JNum 4;
              c_created_at := 5000 |}].
Proof.
  split.
  - apply (C5_comment_create_needs_truthy_text_and_rating demo_raises demo_cast demo_hash
             demo_compare demo_secret demo_build demo_gate demo_env "2"
             (Some (demo_token 1))
             {[ "comment" := JStr "meh"; "rating" := JNum 0 ]} 1 demo_db);
      reflexivity.
  - destruct (C5_comment_create_needs_truthy_text_and_rating demo_raises demo_cast
                demo_hash demo_compare demo_secret demo_build demo_gate demo_env
                "2" (Some (demo_token 1))
                {[ "comment" := JStr "classic"; "rating" := JNum 4 ]} 1 demo_db
                eq_refl) as (_ & _ & Hok).
    destruct (Hok 2 eq_refl eq_refl eq_refl eq_refl) as (db' & Heq & Hrows & _).
    exists db'. split; [exact Heq|exact Hrows].
Defined.

(** A registration without password, a login without email and a comment
    without rating. *)
Lemma C6_witness :
  demo_handle demo_env
    (mk_request POST ["api"; "auth"; "register"] None
       {[ "username" := JStr "cy"; "email" := JStr "cy@example.org" ]}) demo_db
  = Ok (Some Register, bad_request "All fields are required") demo_db
  ∧ demo_handle demo_env
      (mk_request POST ["api"; "auth"; "login"] None
         {[ "password" := JStr "letmein" ]}) demo_db
    = Ok (Some Login, bad_request "Both email and password are required")
        demo_db
  ∧ demo_handle demo_env
      (mk_request POST ["api"; "arcades"; "1"; "comments"] (Some (demo_token 2))
         {[ "comment" := JStr "no stars" ]}) demo_db
    = Ok (Some CommentCreate,
          bad_request "Both comment and rating are required") demo_db.
Proof.
  split; [|split].
  - apply (C6_missing_field_rejected_before_any_query demo_raises demo_cast demo_hash
             demo_compare demo_secret demo_build demo_gate).
    right. right. reflexivity.
  - apply (C6_missing_field_rejected_before_any_query demo_raises demo_cast demo_hash
             demo_compare demo_secret demo_build demo_gate).
    left. reflexivity.
  - destruct (C6_missing_field_rejected_before_any_query demo_raises demo_cast demo_hash
                demo_compare demo_secret demo_build demo_gate demo_env
                (Some (demo_token 2)) {[ "comment" := JStr "no stars" ]} demo_db)
      as (_ & _ & H).
    apply (H "1" 2); [reflexivity|]. right. reflexivity.
Defined.

(** The token Cy gets at clock reading 5000 is good until 8599. *)
Lemma C7_witness :
  jwt_verify (jwt_sign 3 demo_secret 5000) demo_secret 5000 = inr 3
  ∧ jwt_verify (jwt_sign 3 demo_secret 5000) demo_secret 8599 = inr 3
  ∧ jwt_verify (jwt_sign 3 demo_secret 5000) demo_secret 8600
    = inl TokenExpiredError.
Proof.
  edestruct (C7_issued_token_verifies_for_one_hour demo_raises demo_cast demo_hash
               demo_compare demo_secret demo_build demo_gate demo_env
               ["api"; "auth"; "register"] None new_user_body demo_db
               (Some Register) 201 (jwt_sign 3 demo_secret 5000))
    as (_ & _ & H & _).
  - left. reflexivity.
  - reflexivity.
  - split; [|split].
    + apply (H 5000). unfold one_hour. cbn. lia.
    + apply (H 8599). unfold one_hour. cbn. lia.
    + apply (H 8600). unfold one_hour. cbn. lia.
Defined.

(** Without a credential the arcade is not created. *)
Lemma C8_witness :
  demo_handle demo_env (mk_request POST ["api"; "arcades"] None new_arcade_body)
    demo_db
  = Ok (Some ArcadeCreate, respond 401 Unauthenticated) demo_db.
Proof.
  destruct (C8_gate_on_exactly_the_protected_routes demo_raises demo_cast demo_hash
              demo_compare demo_secret demo_build demo_gate) as (_ & Hgate & _).
  apply (Hgate ArcadeCreate EmptyString); [|reflexivity..].
  apply list_elem_of_In. cbn. tauto.
Defined.

(** The index page answers [/test-db]. *)
Lemma C9_witness :
  demo_handle demo_env (mk_request GET ["test-db"] None ∅) demo_db
  = Ok (Some CatchAll, respond 200 (SendFile index_html)) demo_db.
Proof.
  apply (C9_test_db_is_shadowed_by_the_catch_all demo_raises demo_cast demo_hash
           demo_compare demo_secret demo_build demo_gate).
  reflexivity.
Defined.

(** Ann sends only a rating for her comment: its text becomes NULL. When
    she sends only a text, the engine that requires a rating refuses. *)
Lemma C10_witness :
  (∃ db',
     app_handle rating_required demo_cast demo_hash demo_compare demo_secret
       demo_build demo_gate demo_env
       (mk_request PUT ["api"; "comments"; "1"] (Some (demo_token 1))
          {[ "rating" := JNum 4 ]}) demo_db
     = Ok (Some CommentUpdate,
           respond 200
             (JsonComment
                {| c_id := 1; c_user_id := 1; c_arcade_id := 1;
                   c_comment := JNull; c_rating := JNum 4;
                   c_created_at := 100 |})) db'
     ∧ comments db'
       = [{| c_id := 1; c_user_id := 1; c_arcade_id := 1;
             c_comment := JNull; c_rating := JNum 4;
             c_created_at := 100 |}; bos_comment])
  ∧ app_handle rating_required demo_cast demo_hash demo_compare demo_secret
      demo_build demo_gate demo_env
      (mk_request PUT ["api"; "comments"; "1"] (Some (demo_token 1))
         {[ "comment" := JStr "louder" ]}) demo_db
    = Ok (Some CommentUpdate, respond 500 (Send "Server error")) demo_db.
Proof.
  split.
  - destruct (C10_comment_update_has_no_presence_check rating_required
                demo_cast demo_hash demo_compare demo_secret demo_build
                demo_gate demo_env "1" 1 (Some (demo_token 1))
                {[ "rating" := JNum 4 ]} 1 anns_comment demo_db eq_refl eq_refl)
      as (_ & _ & Hupd & _);
      [left|reflexivity|reflexivity|left; reflexivity|].
    destruct (Hupd eq_refl) as (c' & db' & Heq & _).
    exists db'. split.
    + rewrite Heq. f_equal. f_equal.
      assert (H := Heq). vm_compute in H. congruence.
    + assert (H := Heq). vm_compute in H. injection H as _ <-. reflexivity.
  - destruct (C10_comment_update_has_no_presence_check rating_required
                demo_cast demo_hash demo_compare demo_secret demo_build
                demo_gate demo_env "1" 1 (Some (demo_token 1))
                {[ "comment" := JStr "louder" ]} 1 anns_comment demo_db
                eq_refl eq_refl)
      as (_ & Hdown & _);
      [left|reflexivity|reflexivity|right; reflexivity|].
    apply Hdown. reflexivity.
Defined.

(** Ann, the owner, sends a text without a rating: the answer is 500 and
    her comment keeps the text and the rating it had. *)
Lemma C10_counterexample :
  app_handle rating_required demo_cast demo_hash demo_compare demo_secret
    demo_build demo_gate demo_env
    (mk_request PUT ["api"; "comments"; "1"] (Some (demo_token 1))
       {[ "comment" := JStr "louder" ]}) demo_db
  = Ok (Some CommentUpdate, respond 500 (Send "Server error")) demo_db
  ∧ comments demo_db = [anns_comment; bos_comment]
  ∧ c_rating anns_comment ≠ JNull.
Proof. split; [vm_compute; reflexivity|]. by split. Defined.


(** ** The further properties on the small deployment *)

Abbreviation demo_register :=
  (handleRegister demo_raises demo_cast demo_hash demo_compare demo_secret demo_build
     demo_gate).

Abbreviation demo_login :=
  (handleLogin demo_raises demo_cast demo_hash demo_compare demo_secret demo_build
     demo_gate).

(** An unknown email and Ann's email with a wrong password. *)
Lemma X1_witness :
  demo_handle demo_env
    (mk_request POST ["api"; "auth"; "login"] None
       {[ "email" := JStr "nobody@example.org"; "password" := JStr "letmein" ]})
    demo_db
  = Ok (Some Login, bad_request "Invalid credentials") demo_db
  ∧ demo_handle demo_env
      (mk_request POST ["api"; "auth"; "login"] None
         {[ "email" := JStr "ann@example.org"; "password" := JStr "wrong" ]})
      demo_db
    = Ok (Some Login, bad_request "Invalid credentials") demo_db.
Proof.
  split.
  - destruct (X1_login_failures_are_alike demo_raises demo_cast demo_hash
                demo_compare demo_secret demo_build demo_gate demo_env None
                {[ "email" := JStr "nobody@example.org";
                   "password" := JStr "letmein" ]} demo_db
                "nobody@example.org") as [H _];
      [reflexivity|discriminate|reflexivity|reflexivity|].
    apply H. intros Hin. apply list_elem_of_In in Hin. cbn in Hin.
    intuition discriminate.
  - destruct (X1_login_failures_are_alike demo_raises demo_cast demo_hash
                demo_compare demo_secret demo_build demo_gate demo_env None
                {[ "email" := JStr "ann@example.org";
                   "password" := JStr "wrong" ]} demo_db
                "ann@example.org") as [_ H];
      [reflexivity|discriminate|reflexivity|reflexivity|].
    apply (H ann "wrong" "naletmein"); try reflexivity.
    + apply (bool_decide_unpack _). vm_compute. exact I.
    + apply list_elem_of_In. cbn. tauto.
Defined.

(** Cy registers and then logs in with the same email and password. *)
Lemma X2_witness :
  ∃ row db1,
    demo_handle demo_env
      (mk_request POST ["api"; "auth"; "register"] None new_user_body) demo_db
    = Ok (Some Register,
          respond 201 (JsonAuth (jwt_sign (u_id row) demo_secret 5000) row)) db1
    ∧ u_email row = JStr "cy@example.org"
    ∧ demo_handle demo_env
        (mk_request POST ["api"; "auth"; "login"] None
           {[ "email" := JStr "cy@example.org";
              "password" := JStr "swordfish" ]}) db1
      = Ok (Some Login,
            respond 200 (JsonAuth (jwt_sign (u_id row) demo_secret 5000) row))
          db1.
Proof.
  destruct (X2_register_then_login demo_raises demo_cast demo_hash demo_compare
              demo_secret demo_build demo_gate demo_env demo_env None None
              new_user_body
              {[ "email" := JStr "cy@example.org";
                 "password" := JStr "swordfish" ]}
              "cy" "cy@example.org" "swordfish" demo_db)
    as (row & db1 & Hreg & _ & Hemail & Hlog);
    [reflexivity|reflexivity|reflexivity|discriminate|discriminate|discriminate
    |reflexivity|reflexivity|discriminate| |reflexivity|reflexivity|reflexivity|].
  - intros Hin. apply list_elem_of_In in Hin. cbn in Hin.
    intuition discriminate.
  - exists row, db1. split; [exact Hreg|]. split; [exact Hemail|].
    apply Hlog. reflexivity.
Defined.

(** Reading an arcade and logging in leave the data as they were. *)
Lemma X3_witness :
  db_of (demo_handle demo_env (mk_request GET ["api"; "arcades"; "1"] None ∅)
           demo_db) = demo_db
  ∧ db_of (demo_handle demo_env
             (mk_request POST ["api"; "auth"; "login"] None
                {[ "email" := JStr "ann@example.org";
                   "password" := JStr "letmein" ]}) demo_db) = demo_db.
Proof.
  split.
  - apply (X3_reads_leave_the_database demo_raises demo_cast demo_hash demo_compare
             demo_secret demo_build demo_gate).
    left. reflexivity.
  - apply (X3_reads_leave_the_database demo_raises demo_cast demo_hash demo_compare
             demo_secret demo_build demo_gate).
    right. split; reflexivity.
Defined.

(** Ann overwrites Chinatown Fair, and the arcade is read back. *)
Lemma X4_witness :
  ∃ db',
    demo_handle demo_env
      (mk_request PUT ["api"; "arcades"; "2"] (Some (demo_token 1))
         new_arcade_body) demo_db
    = Ok (Some ArcadeUpdate,
          respond 200
            (JsonArcade
               {| a_id := 2; a_name := JStr "Wonderville";
                  a_address := JStr "1186 Broadway";
                  a_days_open := JStr "Tue-Sun";
                  a_hours_of_operation := JStr "16-2";
                  a_serves_alcohol := JBool true |})) db'
    ∧ arcades db'
      = [barcade;
         {| a_id := 2; a_name := JStr "Wonderville";
            a_address := JStr "1186 Broadway"; a_days_open := JStr "Tue-Sun";
            a_hours_of_operation := JStr "16-2";
            a_serves_alcohol := JBool true |}]
    ∧ demo_handle demo_env (mk_request GET ["api"; "arcades"; "2"] None ∅) db'
      = Ok (Some ArcadeGet,
            respond 200
              (JsonArcade
                 {| a_id := 2; a_name := JStr "Wonderville";
                    a_address := JStr "1186 Broadway";
                    a_days_open := JStr "Tue-Sun";
                    a_hours_of_operation := JStr "16-2";
                    a_serves_alcohol := JBool true |})) db'.
Proof.
  destruct (X4_arcade_update_then_get demo_raises demo_cast demo_hash
              demo_compare demo_secret demo_build demo_gate demo_env "2" 2 1
              (Some (demo_token 1)) new_arcade_body demo_db
              ltac:(reflexivity) ltac:(reflexivity) ltac:(reflexivity))
    as (_ & _ & H).
  destruct (H chinatown_fair) as (db' & Heq & Harc & _ & _ & Hget).
  - apply list_elem_of_In. cbn. tauto.
  - reflexivity.
  - exists db'. split; [exact Heq|]. split.
    + rewrite Harc. reflexivity.
    + apply Hget. reflexivity.
Defined.

(** Ann deletes Chinatown Fair; reading it afterwards is a 404. *)
Lemma X5_witness :
  ∃ a0 db',
    demo_handle demo_env
      (mk_request DELETE ["api"; "arcades"; "2"] (Some (demo_token 1)) ∅)
      demo_db
    = Ok (Some ArcadeDelete,
          respond 200 (JsonDeletedArcade "Arcade deleted successfully" a0)) db'
    ∧ a_id a0 = 2
    ∧ arcades db' = [barcade]
    ∧ demo_handle demo_env (mk_request GET ["api"; "arcades"; "2"] None ∅) db'
      = Ok (Some ArcadeGet, arcade_not_found) db'.
Proof.
  destruct (X5_arcade_delete_then_get demo_raises demo_cast demo_hash demo_compare
              demo_secret demo_build demo_gate demo_env "2" 2 1
              (Some (demo_token 1)) ∅ demo_db ltac:(reflexivity) ltac:(reflexivity) ltac:(reflexivity))
    as [_ H].
  destruct (H chinatown_fair)
    as (a0 & db' & Heq & _ & Hid & Harc & _ & _ & Hget).
  - apply list_elem_of_In. cbn. tauto.
  - reflexivity.
  - exists a0, db'. split; [exact Heq|]. split; [exact Hid|]. split.
    + rewrite Harc. reflexivity.
    + apply Hget. reflexivity.
Defined.

(** Ann creates an arcade from an empty body: a row of NULLs. *)
Lemma X6_witness :
  ∃ a db',
    demo_handle demo_env
      (mk_request POST ["api"; "arcades"] (Some (demo_token 1)) ∅) demo_db
    = Ok (Some ArcadeCreate, respond 200 (JsonArcade a)) db'
    ∧ a = {| a_id := 3; a_name := JNull; a_address := JNull;
             a_days_open := JNull; a_hours_of_operation := JNull;
             a_serves_alcohol := JNull |}
    ∧ arcades db' = [barcade; chinatown_fair; a].
Proof.
  destruct (X6_arcade_create_takes_any_body demo_raises demo_cast demo_hash demo_compare
              demo_secret demo_build demo_gate demo_env (Some (demo_token 1)) ∅
              1 demo_db ltac:(reflexivity) ltac:(reflexivity))
    as (a & db' & Heq & Hid & Harc & _ & _ & _ & H1 & H2 & H3 & H4 & H5).
  exists a, db'. split; [exact Heq|]. split; [|exact Harc].
  destruct a as [i n ad d ho s]. cbn in *.
  rewrite Hid, (H1 ltac:(reflexivity)), (H2 ltac:(reflexivity)), (H3 ltac:(reflexivity)), (H4 ltac:(reflexivity)),
    (H5 ltac:(reflexivity)).
  reflexivity.
Defined.

(** Bo deletes Barcade as well as Ann does. *)
Lemma X7_witness :
  demo_handle demo_env
    (mk_request DELETE ["api"; "arcades"; "1"] (Some (demo_token 1)) ∅) demo_db
  = demo_handle demo_env
      (mk_request DELETE ["api"; "arcades"; "1"] (Some (demo_token 2)) ∅)
      demo_db.
Proof.
  apply (X7_arcades_have_no_owner demo_raises demo_cast demo_hash demo_compare
           demo_secret demo_build demo_gate demo_env ArcadeDelete "1" DELETE
           ["api"; "arcades"; "1"] (Some (demo_token 1)) (Some (demo_token 2)) ∅
           1 2 demo_db); try reflexivity.
  apply list_elem_of_In. cbn. tauto.
Defined.

(** Ann's profile has her one comment, with the name of its arcade. *)
Lemma X8_witness :
  demo_handle demo_env
    (mk_request GET ["api"; "profile"] (Some (demo_token 1)) ∅) demo_db
  = Ok (Some Profile,
        respond 200
          (JsonProfile
             [{| pr_comment := anns_comment; arcade_name := JStr "Barcade" |}]))
      demo_db.
Proof.
  destruct (X8_profile_lists_own_comments_newest_first demo_raises demo_cast demo_hash
              demo_compare demo_secret demo_build demo_gate demo_env
              (Some (demo_token 1)) ∅ 1 demo_db ltac:(reflexivity) ltac:(reflexivity))
    as (rows & Heq & _ & _).
  rewrite Heq. assert (H := Heq). vm_compute in H. injection H as <-.
  reflexivity.
Defined.

(** With no secret set, Cy's registration is answered 500 and Cy is stored;
    Cy's second try is refused, and Cy cannot log in. *)
Lemma X9_witness :
  ∃ db',
    app_handle demo_raises demo_cast demo_hash demo_compare EmptyString
      demo_build demo_gate demo_env
      (mk_request POST ["api"; "auth"; "register"] None new_user_body) demo_db
    = Ok (Some Register, internal_error) db'
    ∧ users db'
      = [ann; bo; {| u_id := 3; u_username := JStr "cy";
                     u_email := JStr "cy@example.org";
                     u_password := JStr "naswordfish" |}]
    ∧ app_handle demo_raises demo_cast demo_hash demo_compare EmptyString
        demo_build demo_gate demo_env
        (mk_request POST ["api"; "auth"; "register"] None new_user_body) db'
      = Ok (Some Register, bad_request "User already exists") db'
    ∧ app_handle demo_raises demo_cast demo_hash demo_compare EmptyString
        demo_build demo_gate demo_env
        (mk_request POST ["api"; "auth"; "login"] None new_user_body) db'
      = Ok (Some Login, internal_error) db'.
Proof.
  destruct (X9_registration_without_a_secret demo_raises demo_cast demo_hash
              demo_compare EmptyString demo_build demo_gate demo_env demo_env
              None new_user_body "cy" "cy@example.org" "swordfish" demo_db)
    as (db' & Hreg & Husers & Hagain);
    [reflexivity|reflexivity|reflexivity|discriminate|discriminate|discriminate
    |reflexivity| |reflexivity|reflexivity|].
  - intros Hin. apply list_elem_of_In in Hin. cbn in Hin.
    intuition discriminate.
  - destruct (Hagain eq_refl) as [Hdup Hlogin].
    exists db'. split; [exact Hreg|]. split; [rewrite Husers; reflexivity|].
    split; [exact Hdup|]. apply Hlogin. reflexivity.
Defined.

(** Ann gives Chinatown Fair its first rating, a 4: its average is 4.0. *)
Lemma X10_witness :
  ∃ resp db',
    demo_handle demo_env
      (mk_request POST ["api"; "arcades"; "2"; "comments"] (Some (demo_token 1))
         {[ "comment" := JStr "classic"; "rating" := JNum 4 ]}) demo_db
    = Ok (Some CommentCreate, resp) db'
    ∧ status resp = 200
    ∧ ratings 2 db' = [4]
    ∧ ∃ rows,
        demo_handle demo_env (mk_request GET ["api"; "arcades"] None ∅) db'
        = Ok (Some ArcadeList, respond 200 (JsonArcades rows)) db'
        ∧ ∀ row, row ∈ rows → a_id (aa_arcade row) = 2 →
                 average_rating row = {| dec_unscaled := 40; dec_scale := 1 |}.
Proof.
  destruct (X10_new_rating_enters_the_average demo_raises demo_cast demo_hash
              demo_compare demo_secret demo_build demo_gate demo_env demo_env
              "2" 2 4 1 (Some (demo_token 1)) None
              {[ "comment" := JStr "classic"; "rating" := JNum 4 ]} ∅ demo_db)
    as (resp & db' & Heq & Hst & Hr & _ & Hlist); try reflexivity.
  - discriminate.
  - repeat constructor.
  - exists resp, db'. split; [exact Heq|]. split; [exact Hst|].
    split; [rewrite Hr; reflexivity|].
    destruct (Hlist ltac:(reflexivity)) as (rows & Hrows & _ & Havg).
    exists rows. split; [exact Hrows|].
    intros row Hin Hid. apply (Havg row Hin Hid). reflexivity.
Defined.

(** Ann deletes her comment; deleting it again is a 404. *)
Lemma X11_witness :
  ∃ c0 db',
    demo_handle demo_env
      (mk_request DELETE ["api"; "comments"; "1"] (Some (demo_token 1)) ∅)
      demo_db
    = Ok (Some CommentDelete,
          respond 200 (JsonDeletedComment "Comment deleted successfully" c0))
        db'
    ∧ c_id c0 = 1 ∧ c_user_id c0 = 1
    ∧ users db' = [ann; bo]
    ∧ demo_handle demo_env
        (mk_request DELETE ["api"; "comments"; "1"] (Some (demo_token 1)) ∅) db'
      = Ok (Some CommentDelete, not_found_or_unauthorized) db'.
Proof.
  destruct (X11_comment_delete_by_owner demo_raises demo_cast demo_hash demo_compare
              demo_secret demo_build demo_gate demo_env demo_env "1" 1 1
              (Some (demo_token 1)) ∅ anns_comment demo_db)
    as (c0 & db' & Heq & _ & Hid & Hu & _ & Hus & _ & Hagain);
    try reflexivity.
  - apply list_elem_of_In. cbn. tauto.
  - exists c0, db'. split; [exact Heq|]. split; [exact Hid|].
    split; [exact Hu|]. split; [rewrite Hus; reflexivity|].
    apply Hagain. reflexivity.
Defined.

(** Ann rewrites her comment: users and arcades stay as they were. *)
Lemma X12_witness :
  ∃ c' db',
    demo_handle demo_env
      (mk_request PUT ["api"; "comments"; "1"] (Some (demo_token 1))
         takeover_body) demo_db
    = Ok (Some CommentUpdate, respond 200 (JsonComment c')) db'
    ∧ c_id c' = 1 ∧ c_user_id c' = 1
    ∧ c_comment c' = JStr "mine now" ∧ c_rating c' = JNum 1
    ∧ users db' = [ann; bo] ∧ arcades db' = [barcade; chinatown_fair].
Proof.
  destruct (X12_comment_update_keeps_the_rest demo_raises demo_cast demo_hash
              demo_compare demo_secret demo_build demo_gate demo_env "1" 1 1
              (Some (demo_token 1)) takeover_body anns_comment demo_db)
    as (c' & db' & Heq & Hid & Hu & _ & _ & Hc & Hr & _ & _ & _ & Hus & Har);
    try reflexivity.
  - apply list_elem_of_In. cbn. tauto.
  - exists c', db'. split; [exact Heq|]. split; [exact Hid|].
    split; [exact Hu|]. split; [by apply Hc|]. split; [by apply Hr|].
    split; [rewrite Hus|rewrite Har]; reflexivity.
Defined.


(** With the engine down, the list of arcades and a registration are 500s. *)
Lemma X15_witness :
  app_handle down_raises demo_cast demo_hash demo_compare demo_secret demo_build demo_gate
    demo_env (mk_request GET ["api"; "arcades"] None new_user_body) demo_db
  = Ok (Some ArcadeList, internal_error) demo_db
  ∧ app_handle down_raises demo_cast demo_hash demo_compare demo_secret demo_build
      demo_gate demo_env
      (mk_request POST ["api"; "auth"; "register"] None new_user_body) demo_db
    = Ok (Some Register, internal_error) demo_db.
Proof.
  destruct (X15_engine_failure_is_a_500 down_raises demo_cast demo_hash demo_compare
              demo_secret demo_build demo_gate demo_env None new_user_body
              demo_db (λ _, eq_refl)) as (Hapi & Hreg & _).
  split.
  - apply (Hapi ArcadeList EmptyString GET ["api"; "arcades"] 0).
    + reflexivity.
    + intros Hin. apply list_elem_of_In in Hin. cbn in Hin.
      intuition discriminate.
    + discriminate.
  - apply Hreg; reflexivity.
Defined.

(** Ann's new comment leaves the users and the arcades as they were. *)
Lemma X16_witness :
  users (db_of (demo_handle demo_env
                  (mk_request POST ["api"; "arcades"; "2"; "comments"]
                     (Some (demo_token 1))
                     {[ "comment" := JStr "classic"; "rating" := JNum 4 ]})
                  demo_db)) = [ann; bo]
  ∧ arcades (db_of (demo_handle demo_env
                      (mk_request POST ["api"; "arcades"; "2"; "comments"]
                         (Some (demo_token 1))
                         {[ "comment" := JStr "classic"; "rating" := JNum 4 ]})
                      demo_db)) = [barcade; chinatown_fair].
Proof.
  destruct (demo_handle demo_env
              (mk_request POST ["api"; "arcades"; "2"; "comments"]
                 (Some (demo_token 1))
                 {[ "comment" := JStr "classic"; "rating" := JNum 4 ]}) demo_db)
    as [[h r] db'|db'] eqn:E; [|vm_compute in E; discriminate].
  assert (Hh : h = Some CommentCreate)
    by (assert (H := E); vm_compute in H; congruence).
  destruct (X16_each_table_has_its_writers demo_raises demo_cast demo_hash demo_compare
              demo_secret demo_build demo_gate demo_env _ demo_db h r db' E)
    as (Hu & Ha & _).
  cbn [db_of]. split.
  - rewrite Hu; [reflexivity|]. rewrite Hh. discriminate.
  - rewrite Ha; [reflexivity|]. rewrite Hh. repeat constructor; discriminate.
Defined.

(** Cy's registration adds one user, Cy, after Ann and Bo. *)
Lemma X17_witness :
  ∃ new,
    users (db_of (demo_handle demo_env
                    (mk_request POST ["api"; "auth"; "register"] None
                       new_user_body) demo_db))
    = [ann; bo] ++ new
    ∧ (length new ≤ 1)%nat.
Proof.
  destruct (demo_handle demo_env
              (mk_request POST ["api"; "auth"; "register"] None new_user_body)
              demo_db)
    as [[h r] db'|db'] eqn:E; [|vm_compute in E; discriminate].
  destruct (X17_users_are_only_ever_added demo_raises demo_cast demo_hash
              demo_compare demo_secret demo_build demo_gate demo_env _ demo_db
              h r db' E)
    as (new & Husers & Hlen & _).
  exists new. split; [exact Husers|exact Hlen].
Defined.

(** Cy's form with a wrong confirmation, with no username, with Ann's
    email, and with the engine down. *)
Lemma X18_witness :
  (∀ online,
     demo_register online demo_env
       (page (typed "cy" "cy@example.org" "swordfish" "swordfsh"), demo_db)
     = (do_alert PasswordsDoNotMatch
          (page (typed "cy" "cy@example.org" "swordfish" "swordfsh")), demo_db))
  ∧ demo_register true demo_env
      (page (typed EmptyString "cy@example.org" "swordfish" "swordfish"),
       demo_db)
    = (do_alert (RegistrationFailed "All fields are required")
         (page (typed EmptyString "cy@example.org" "swordfish" "swordfish")),
       demo_db)
  ∧ demo_register true demo_env
      (page (typed "ann2" "ann@example.org" "guess" "guess"), demo_db)
    = (do_alert (RegistrationFailed "User already exists")
         (page (typed "ann2" "ann@example.org" "guess" "guess")), demo_db)
  ∧ handleRegister down_raises demo_cast demo_hash demo_compare demo_secret demo_build
      demo_gate true demo_env
      (page (typed "cy" "cy@example.org" "swordfish" "swordfish"), demo_db)
    = (do_alert (RegistrationFailed "Please try again.")
         (page (typed "cy" "cy@example.org" "swordfish" "swordfish")), demo_db).
Proof.
  split; [|split; [|split]].
  - destruct (X18_register_form_failures demo_raises demo_cast demo_hash demo_compare
                demo_secret demo_build demo_gate demo_env
                (page (typed "cy" "cy@example.org" "swordfish" "swordfsh"))
                demo_db "cy" "cy@example.org" "swordfish" "swordfsh"
                ltac:(reflexivity) ltac:(reflexivity) ltac:(reflexivity) ltac:(reflexivity)) as (H & _).
    apply H. discriminate.
  - destruct (X18_register_form_failures demo_raises demo_cast demo_hash demo_compare
                demo_secret demo_build demo_gate demo_env
                (page (typed EmptyString "cy@example.org" "swordfish"
                         "swordfish"))
                demo_db EmptyString "cy@example.org" "swordfish" "swordfish"
                ltac:(reflexivity) ltac:(reflexivity) ltac:(reflexivity) ltac:(reflexivity)) as (_ & H & _).
    apply H; [reflexivity|]. left. reflexivity.
  - destruct (X18_register_form_failures demo_raises demo_cast demo_hash demo_compare
                demo_secret demo_build demo_gate demo_env
                (page (typed "ann2" "ann@example.org" "guess" "guess"))
                demo_db "ann2" "ann@example.org" "guess" "guess"
                ltac:(reflexivity) ltac:(reflexivity) ltac:(reflexivity) ltac:(reflexivity)) as (_ & _ & H & _).
    apply H; [reflexivity|discriminate|discriminate|discriminate| |reflexivity].
    apply list_elem_of_In. cbn. tauto.
  - destruct (X18_register_form_failures down_raises demo_cast demo_hash demo_compare
                demo_secret demo_build demo_gate demo_env
                (page (typed "cy" "cy@example.org" "swordfish" "swordfish"))
                demo_db "cy" "cy@example.org" "swordfish" "swordfish"
                ltac:(reflexivity) ltac:(reflexivity) ltac:(reflexivity) ltac:(reflexivity)) as (_ & _ & _ & H).
    apply H; [reflexivity|discriminate|discriminate|discriminate|reflexivity].
Defined.

(** Cy registers from the registration view: Cy is stored, the page has no
    user and shows the login form. *)
Lemma X19_witness :
  let before :=
    page (setIsRegistering true
            (typed "cy" "cy@example.org" "swordfish" "swordfish")) in
  let after := demo_register true demo_env (before, demo_db) in
  render before = RegisterForm
  ∧ b_storage after.1 = ∅ ∧ b_user after.1 = None
  ∧ b_alerts after.1 = [RegistrationSuccessful]
  ∧ render after.1 = LoginForm
  ∧ users after.2
    = [ann; bo;
       {| u_id := 3; u_username := JStr "cy"; u_email := JStr "cy@example.org";
          u_password := JStr "naswordfish" |}].
Proof.
  destruct (X19_registration_does_not_sign_in demo_raises demo_cast demo_hash
              demo_compare demo_secret demo_build demo_gate demo_env
              (page (setIsRegistering true
                       (typed "cy" "cy@example.org" "swordfish" "swordfish")))
              demo_db "cy" "cy@example.org" "swordfish")
    as (Hst & Hu & _ & Hal & Hre & Hus);
    [reflexivity..|discriminate|discriminate|discriminate|discriminate|
    |reflexivity|reflexivity|].
  - intros Hin. apply list_elem_of_In in Hin. cbn in Hin.
    intuition discriminate.
  - cbv zeta. split; [reflexivity|]. split; [exact Hst|]. split; [exact Hu|].
    split; [exact Hal|]. split; [apply Hre; reflexivity|exact Hus].
Defined.

(** Ann logs in from the form, reloads the page and logs out. *)
Lemma X20_witness :
  let start := page (typed EmptyString "ann@example.org" "letmein" EmptyString) in
  let b1 := (demo_login true demo_env (start, demo_db)).1 in
  b_user b1 = Some ann
  ∧ b_storage b1 !! "token" = Some (StoredToken (jwt_sign 1 demo_secret 5000))
  ∧ render b1 = WelcomePanel (JStr "ann")
  ∧ mount (setUser None b1) = Some b1
  ∧ b_user (handleLogout b1) = None
  ∧ b_storage (handleLogout b1) !! "token" = None
  ∧ b_storage (handleLogout b1) !! "user" = None
  ∧ render (handleLogout b1) = LoginForm.
Proof.
  destruct (X20_login_reload_logout demo_raises demo_cast demo_hash demo_compare
              demo_secret demo_build demo_gate demo_env
              (page (typed EmptyString "ann@example.org" "letmein" EmptyString))
              demo_db "ann@example.org" "letmein" ann "naletmein")
    as (_ & Hu & Htk & _ & _ & Hre & Hmount & Hout);
    [reflexivity|reflexivity|discriminate|discriminate|discriminate| |
    |reflexivity..|].
  - apply (bool_decide_unpack _). vm_compute. exact I.
  - apply list_elem_of_In. cbn. tauto.
  - cbv zeta in *. destruct Hout as (Ho1 & Ho2 & Ho3 & _ & Ho5 & _).
    split; [exact Hu|]. split; [exact Htk|]. split; [exact Hre|].
    split; [rewrite Hmount by reflexivity; vm_compute; reflexivity|].
    split; [exact Ho1|]. split; [exact Ho2|]. split; [exact Ho3|exact Ho5].
Defined.
